(** * retail_etl: a shallow embedding of the staging cleaner, the dimensional
    transformation, the warehouse load and the two quality engines.

    Data frames are lists of typed rows kept in input order; a nullable
    column is an [option], an object column that may hold integers as well
    as text is a [cell].  Python's true division and the decimal values read
    back from the warehouse are modelled by exact rationals ([Q]); fallible
    code returns a [result]. *)

From Stdlib Require Import ZArith QArith Qround Qabs Qminmax String Ascii List Bool Lia.
From Stdlib Require Import Sorted.
From Stdlib Require Import DecimalString Lqa OrderedTypeEx.
From stdpp Require Import gmap strings list.

Local Open Scope string_scope.
Local Open Scope list_scope.

(** ** Exceptions and the error monad *)

Inductive exn : Type :=
  | ValueError (details : list string)
  | KeyError (col : string)
  | ZeroDivisionError
  | TypeError
  | DatabaseError (msg : string).

Inductive result (A : Type) : Type :=
  | Ok (a : A)
  | Raise (e : exn).
Arguments Ok {A} a.
Arguments Raise {A} e.

Definition rbind {A B} (m : result A) (k : A -> result B) : result B :=
  match m with
  | Ok a => k a
  | Raise e => Raise e
  end.

#[global] Instance result_ret : MRet result := fun A a => Ok a.
#[global] Instance result_bind : MBind result := fun A B k m => rbind m k.

(** ** pandas primitives shared by the stages *)

Module Pandas.

(** A cell of an object column: NaN/None, a Python int, or a str. *)
Inductive cell : Type :=
  | CNull
  | CInt (z : Z)
  | CStr (s : string).

#[global] Instance cell_eq_dec : EqDecision cell.
Proof. solve_decision. Defined.

#[global] Instance cell_countable : Countable cell.
Proof.
  refine (inj_countable'
    (fun c => match c with
              | CNull => None
              | CInt z => Some (inl z)
              | CStr s => Some (inr s)
              end)
    (fun o => match o with
              | None => CNull
              | Some (inl z) => CInt z
              | Some (inr s) => CStr s
              end) _).
  intros []; reflexivity.
Defined.

(** [Series.astype(str)]: [str(x)] cell by cell. *)
Definition astype_str (c : cell) : string :=
  match c with
  | CNull => "nan"
  | CInt z => NilZero.string_of_int (Z.to_int z)
  | CStr s => s
  end.

(** [Series.str.startswith(p)] *)
Definition startswith (p s : string) : bool := String.prefix p s.

Definition isna {A} (o : option A) : bool :=
  match o with None => true | Some _ => false end.

(** [df.drop_duplicates(subset=key)] with the default [keep='first']: a row
    is dropped when its key was already seen on an earlier row. *)
Section DropDuplicates.
Context {A K : Type} `{EqDecision K}.
Variable key : A -> K.

Fixpoint drop_seen (seen : list K) (df : list A) : list A :=
  match df with
  | [] => []
  | r :: rest =>
      if decide (key r ∈ seen) then drop_seen seen rest
      else r :: drop_seen (key r :: seen) rest
  end.

Definition drop_duplicates (df : list A) : list A := drop_seen [] df.

(** The mask [df[subset] == k] *)
Definition has_key (k : K) (r : A) : bool := bool_decide (key r = k).
End DropDuplicates.

(** Ascending sort of a column ([np.sort]), by insertion. *)
Section Sort.
Context {A : Type}.
Variable leb : A -> A -> bool.

Fixpoint insert_sorted (x : A) (l : list A) : list A :=
  match l with
  | [] => [x]
  | y :: l' => if leb x y then x :: l else y :: insert_sorted x l'
  end.

Definition sort_values (l : list A) : list A :=
  List.fold_right insert_sorted [] l.
End Sort.

(** [df.iloc[i:j]] on rows *)
Definition iloc {A} (i j : nat) (df : list A) : list A :=
  firstn (j - i) (skipn i df).

End Pandas.
Import Pandas.

(** ** Extraction and staging cleaner ([retail_extract.py]) *)

Module Extract.

(** One line of the spreadsheet, after the column renaming of
    [extract_from_excel]. *)
Record RawRow : Type := {
  InvoiceNo : cell;
  StockCode : cell;
  Description : option string;
  Quantity : option Z;
  InvoiceDate : option Z;          (* timestamp, seconds *)
  UnitPrice : option Q;
  CustomerID : option Z;
  Country : option string
}.

(** A frame knows which columns it has; the rows carry a value for every
    field, read only when the column is present. *)
Record Frame : Type := {
  columns : list string;
  rows : list RawRow
}.

Definition column_mapping (c : string) : string :=
  if String.eqb c "Customer ID" then "CustomerID"
  else if String.eqb c "Invoice" then "InvoiceNo"
  else if String.eqb c "Price" then "UnitPrice"
  else c.

Definition rename (df : Frame) : Frame :=
  {| columns := List.map column_mapping (columns df); rows := rows df |}.

Definition DEDUP_KEYS (r : RawRow) : cell * cell * option Z :=
  (InvoiceNo r, StockCode r, InvoiceDate r).

Record CleanRow : Type := {
  base : RawRow;
  price_flag : bool;
  quantity_flag : bool;
  is_return : bool;
  TotalAmount : option Q;
  processed_at : Z
}.

Record CleanStats : Type := {
  null_drops : Z;
  invalid_price_count : Z;
  high_quantity_count : Z;
  return_count : Z;
  duplicates_removed : Z
}.

Definition len {A} (l : list A) : Z := Z.of_nat (length l).

Definition cellna (c : cell) : bool :=
  match c with CNull => true | _ => false end.

(** [dropna(subset=["CustomerID", "StockCode", "InvoiceDate"])] *)
Definition critical_present (r : RawRow) : bool :=
  negb (isna (CustomerID r)) && negb (cellna (StockCode r))
  && negb (isna (InvoiceDate r)).

(** [(UnitPrice <= 0) | UnitPrice.isna()] *)
Definition invalid_price_mask (r : RawRow) : bool :=
  match UnitPrice r with
  | Some p => Qle_bool p 0
  | None => true
  end.

(** [Quantity > 1000]; a comparison with NaN is False *)
Definition high_qty_mask (r : RawRow) : bool :=
  match Quantity r with
  | Some q => (1000 <? q)%Z
  | None => false
  end.

(** [InvoiceNo.astype(str).str.startswith("C") | (Quantity < 0)] *)
Definition return_mask (r : RawRow) : bool :=
  startswith "C" (astype_str (InvoiceNo r))
  || match Quantity r with
     | Some q => (q <? 0)%Z
     | None => false
     end.

Definition mask_sum {A} (m : A -> bool) (df : list A) : Z :=
  len (List.filter m df).

Definition total_amount (r : RawRow) : option Q :=
  match Quantity r, UnitPrice r with
  | Some q, Some p => Some (inject_Z q * p)%Q
  | _, _ => None
  end.

Definition flag_row (now : Z) (r : RawRow) : CleanRow :=
  {| base := r;
     price_flag := invalid_price_mask r;
     quantity_flag := high_qty_mask r;
     is_return := return_mask r;
     TotalAmount := total_amount r;
     processed_at := now |}.

Definition required_cols : list string :=
  ["InvoiceNo"; "StockCode"; "InvoiceDate"; "CustomerID"].

Definition has_col (df : Frame) (c : string) : bool :=
  bool_decide (c ∈ columns df).

(** [df[c]] raises KeyError on an absent column *)
Definition getitem (df : Frame) (c : string) : result unit :=
  if has_col df c then Ok tt else Raise (KeyError c).

Definition _clean_data (now : Z) (df : Frame)
  : result (list CleanRow * CleanStats) :=
  let missing_cols := List.filter (fun c => negb (has_col df c)) required_cols in
  match missing_cols with
  | _ :: _ => Raise (ValueError missing_cols)
  | [] =>
      let initial_count := len (rows df) in
      let df_work := List.filter critical_present (rows df) in
      let null_drops := (initial_count - len df_work)%Z in
      _ ← getitem df "UnitPrice";
      let invalid_price_count := mask_sum invalid_price_mask df_work in
      _ ← getitem df "Quantity";
      let high_quantity_count := mask_sum high_qty_mask df_work in
      let return_count := mask_sum return_mask df_work in
      let before_dedup := len df_work in
      let df_dedup := drop_duplicates DEDUP_KEYS df_work in
      Ok (List.map (flag_row now) df_dedup,
          {| null_drops := null_drops;
             invalid_price_count := invalid_price_count;
             high_quantity_count := high_quantity_count;
             return_count := return_count;
             duplicates_removed := (before_dedup - len df_dedup)%Z |})
  end.

Record ExtractStats : Type := {
  cleaning : CleanStats;
  initial_rows : Z;
  final_rows : Z;
  rows_dropped : Z;
  drop_rate : Q
}.

(** Python's [a / b] on ints: true division, ZeroDivisionError on [b = 0]. *)
Definition truediv (a b : Z) : result Q :=
  if (b =? 0)%Z then Raise ZeroDivisionError
  else Ok (inject_Z a / inject_Z b)%Q.

(** [round(x, 2)]: the nearest multiple of 1/100, a tie going to the even
    one. *)
Definition round_half_even (y : Q) : Z :=
  let f := Qfloor y in
  match (y - inject_Z f ?= 1 # 2)%Q with
  | Lt => f
  | Gt => (f + 1)%Z
  | Eq => if Z.even f then f else (f + 1)%Z
  end.

Definition round2 (x : Q) : Q :=
  (inject_Z (round_half_even (x * 100)) / 100)%Q.

(** [extract_from_excel], from the frame that [pd.read_excel] returned. *)
Definition extract_from_excel (now : Z) (df_raw : Frame)
  : result (list CleanRow * ExtractStats) :=
  let initial_count := len (rows df_raw) in
  let df_raw := rename df_raw in
  cleaned ← _clean_data now df_raw;
  let df_clean := fst cleaned in
  frac ← truediv (initial_count - len df_clean) initial_count;
  Ok (df_clean,
      {| cleaning := snd cleaned;
         initial_rows := initial_count;
         final_rows := len df_clean;
         rows_dropped := (initial_count - len df_clean)%Z;
         drop_rate := round2 (frac * 100)%Q |}).

(** The frame handed back by the cleaner, with the columns it added. *)
Definition clean_columns : list string :=
  ["price_flag"; "quantity_flag"; "is_return"; "TotalAmount"; "processed_at"].

Definition as_frame (cols : list string) (df : list CleanRow) : Frame :=
  {| columns := cols ++ clean_columns; rows := List.map base df |}.

End Extract.

(** ** Dimensional transformation and fact load ([retail_transform.py]) *)

Module Transform.

(** A row of [raw_retail_data]. *)
Record StagingRow : Type := {
  invoice : cell;
  stock_code : cell;
  description : option string;
  quantity : option Z;
  invoice_date : option Z;         (* timestamp, seconds *)
  price : option Q;
  customer_id : option Z;
  country : option string
}.

(** [load_to_staging]: the column mapping from the cleaned frame to the
    staging table. *)
Definition to_staging (r : Extract.RawRow) : StagingRow :=
  {| invoice := Extract.InvoiceNo r;
     stock_code := Extract.StockCode r;
     description := Extract.Description r;
     quantity := Extract.Quantity r;
     invoice_date := Extract.InvoiceDate r;
     price := Extract.UnitPrice r;
     customer_id := Extract.CustomerID r;
     country := Extract.Country r |}.

(** The natural-key to surrogate-key dictionaries of [load_dimension]. *)
Record DimensionKeys : Type := {
  time : gmap Z Z;                 (* keyed by calendar date *)
  countries : gmap string Z;
  products : gmap cell Z;
  customers : gmap Z Z
}.

Record FactRow : Type := {
  invoice_no : cell;
  product_key : option Z;
  customer_key : option Z;
  time_key : option Z;
  country_key : option Z;
  fact_quantity : option Z;
  unit_price : option Q;
  total_amount : option Q;
  is_return : bool
}.

(** [Series.map(dict)]: a value that is missing from the dictionary, or
    null, maps to NaN. *)
Definition map_dict {K V} `{Countable K} (d : gmap K V) (x : option K)
  : option V :=
  match x with
  | Some k => d !! k
  | None => None
  end.

(** [pd.to_datetime(invoice_date).dt.date] *)
Definition date_only (ts : Z) : Z := (ts / 86400)%Z.

Definition fact_is_return (r : StagingRow) : bool :=
  startswith "C" (astype_str (invoice r))
  || match quantity r with
     | Some q => (q <? 0)%Z
     | None => false
     end.

Definition fact_row (dimension_keys : DimensionKeys) (r : StagingRow)
  : FactRow :=
  {| invoice_no := invoice r;
     product_key := products dimension_keys !! stock_code r;
     customer_key := map_dict (customers dimension_keys) (customer_id r);
     time_key := map_dict (time dimension_keys) (date_only <$> invoice_date r);
     country_key := map_dict (countries dimension_keys) (country r);
     fact_quantity := quantity r;
     unit_price := price r;
     total_amount :=
       match quantity r, price r with
       | Some q, Some p => Some (inject_Z q * p)%Q
       | _, _ => None
       end;
     is_return := fact_is_return r |}.

(** [dropna(subset=['product_key', 'customer_key', 'time_key'])] *)
Definition keys_present (f : FactRow) : bool :=
  negb (isna (product_key f)) && negb (isna (customer_key f))
  && negb (isna (time_key f)).

Definition fact_unique_key (f : FactRow) : cell * option Z * option Z :=
  (invoice_no f, product_key f, time_key f).

Definition transform_fact_sales (df : list StagingRow)
    (dimension_keys : DimensionKeys) : list FactRow :=
  let fact_df := List.map (fact_row dimension_keys) df in
  let sales_fact := List.filter keys_present fact_df in
  drop_duplicates fact_unique_key sales_fact.

(** *** Product dimension *)

Record ProductRow : Type := {
  dim_stock_code : cell;
  dim_description : option string
}.

(** Order in which [groupby] lists its keys: numbers, then text. *)
Definition cell_leb (a b : cell) : bool :=
  match a, b with
  | CInt x, CInt y => (x <=? y)%Z
  | CInt _, _ => true
  | CStr _, CInt _ => false
  | CStr s, CStr t => String.leb s t
  | CStr _, CNull => true
  | CNull, CNull => true
  | CNull, _ => false
  end.

Definition notna_cell (c : cell) : bool :=
  match c with CNull => false | _ => true end.

(** The keys of [df.groupby('stock_code')]: distinct, null dropped, sorted. *)
Definition group_keys (df : list StagingRow) : list cell :=
  sort_values cell_leb
    (drop_duplicates id (List.filter notna_cell (List.map stock_code df))).

(** The ['description'] column of the group of one key, in row order. *)
Definition group_descriptions (c : cell) (df : list StagingRow)
  : list (option string) :=
  List.map description
    (List.filter (fun r => bool_decide (stock_code r = c)) df).

Definition dropna_values (x : list (option string)) : list string :=
  omap id x.

Definition count (d : string) (vals : list string) : nat :=
  length (List.filter (String.eqb d) vals).

Definition max_count (vals : list string) : nat :=
  List.fold_right Nat.max 0%nat (List.map (fun d => count d vals) vals).

(** [Series.mode()]: the non-null values that occur most often, sorted. *)
Definition mode (x : list (option string)) : list string :=
  let vals := dropna_values x in
  sort_values String.leb
    (List.filter (fun d => Nat.eqb (count d vals) (max_count vals))
       (drop_duplicates id vals)).

(** [lambda x: x.mode().iloc[0] if not x.mode().empty else x.iloc[0]] *)
Definition agg_description (x : list (option string)) : option string :=
  match mode x with
  | d :: _ => Some d
  | [] => List.hd None x
  end.

Definition transform_product_dimension (df : list StagingRow)
  : list ProductRow :=
  List.map
    (fun c => {| dim_stock_code := c;
                 dim_description := agg_description (group_descriptions c df) |})
    (group_keys df).

(** The tie-break as the specification words it: of the values that occur
    most often, the one met first in row order. *)
Definition first_seen_mode (x : list (option string)) : option string :=
  let vals := dropna_values x in
  List.hd_error
    (List.filter (fun d => Nat.eqb (count d vals) (max_count vals)) vals).

(** *** Fact load *)

Inductive if_exists_mode : Type := replace | append | fail.

Section Load.
Variable Row : Type.

Inductive Stmt : Type :=
  | TRUNCATE
  | INSERT (batch : list Row).

(** The target table ([None] when it does not exist) and the statements
    executed so far. *)
Record DB : Type := {
  table : option (list Row);
  executed : list Stmt
}.

(** Whether the warehouse takes a batch, given what the table holds
    (constraints, connectivity). *)
Variable accepts : list Row -> list Row -> bool.

Definition truncate (db : DB) : result unit * DB :=
  match table db with
  | None => (Raise (DatabaseError "relation does not exist"), db)
  | Some _ =>
      (Ok tt, {| table := Some []; executed := executed db ++ [TRUNCATE] |})
  end.

(** [batch_df.to_sql(table_name, engine, if_exists=..., method="multi")]:
    one transaction per call. *)
Definition to_sql (batch : list Row) (if_exists : if_exists_mode) (db : DB)
  : result unit * DB :=
  let insert_into (current : list Row) :=
    if accepts current batch
    then (Ok tt, {| table := Some (current ++ batch);
                    executed := executed db ++ [INSERT batch] |})
    else (Raise (DatabaseError "insert failed"), db) in
  match if_exists, table db with
  | fail, Some _ => (Raise (ValueError ["table already exists"]), db)
  | replace, _ => insert_into []
  | _, None => insert_into []
  | append, Some current => insert_into current
  end.

Definition batch_size : nat := 5000.

(** [range(0, stop, step)] *)
Definition range_step (stop step : nat) : list nat :=
  List.map (fun k => k * step)%nat (seq 0 ((stop + step - 1) / step)).

(** The slices [df.iloc[i:min(i + step, len(df))]] the loop sends. *)
Definition batches (step : nat) (df : list Row) : list (list Row) :=
  List.map (fun i => iloc i (Nat.min (i + step) (length df)) df)
    (range_step (length df) step).

Fixpoint load_batches (starts : list nat) (step : nat) (df : list Row)
    (if_exists : if_exists_mode) (rows_loaded : nat) (db : DB)
  : result nat * DB :=
  match starts with
  | [] => (Ok rows_loaded, db)
  | i :: rest =>
      let batch_end := Nat.min (i + step) (length df) in
      let batch_df := iloc i batch_end df in
      match to_sql batch_df if_exists db with
      | (Ok _, db') =>
          load_batches rest step df if_exists
            (rows_loaded + length batch_df) db'
      | (Raise e, db') => (Raise e, db')
      end
  end.

(** [load_fact]; the result is the ['rows_loaded'] entry of the returned
    statistics. *)
Definition load_fact (df : list Row) (if_exists : if_exists_mode) (db : DB)
  : result nat * DB :=
  let total_rows := length df in
  let cleared :=
    match if_exists with
    | replace =>
        if (0 <? total_rows)%nat
        then match truncate db with
             | (Ok _, db') => (Ok append, db')
             | (Raise e, db') => (Raise e, db')
             end
        else (Ok if_exists, db)
    | _ => (Ok if_exists, db)
    end in
  match cleared with
  | (Raise e, db') => (Raise e, db')
  | (Ok if_exists', db') =>
      match load_batches (range_step total_rows batch_size) batch_size df
              if_exists' 0 db' with
      | (Ok _, db'') => (Ok (length df), db'')
      | (Raise e, db'') => (Raise e, db'')
      end
  end.
End Load.

Arguments TRUNCATE {Row}.
Arguments INSERT {Row} batch.
Arguments table {Row} d.
Arguments executed {Row} d.
Arguments Build_DB {Row} table executed.
Arguments truncate {Row} db.
Arguments to_sql {Row} accepts batch if_exists db.
Arguments batches {Row} step df.
Arguments load_batches {Row} accepts starts step df if_exists rows_loaded db.
Arguments load_fact {Row} accepts df if_exists db.

End Transform.

(** ** Quality rule engine ([data_quality.py]) *)

Module DataQuality.

(** A column of a fetched row: SQL NULL (Python [None]) or a number. *)
Inductive sqlval : Type :=
  | VNull
  | VNum (q : Q).

Record Check : Type := {
  name : string;
  description : string;
  query : string;                  (* SQL text, white space normalised *)
  threshold : Q;
  critical : bool
}.

Definition null_critical_fields : Check :=
  {| name := "null_critical_fields";
     description := "Check for nulls in critical fields";
     query := "SELECT COUNT( * ) as total_rows, COUNT(CASE WHEN customer_id IS NULL THEN 1 END) as null_customer_id, COUNT(CASE WHEN stock_code IS NULL THEN 1 END) as null_stock_code, COUNT(CASE WHEN invoice_date IS NULL THEN 1 END) as null_invoice_date FROM raw_retail_data";
     threshold := 5 # 100;
     critical := true |}.

Definition duplicate_records : Check :=
  {| name := "duplicate_records";
     description := "Check for duplicate records";
     query := "SELECT COUNT( * ) as total_records, COUNT(DISTINCT (invoice, stock_code, invoice_date)) as unique_combinations FROM raw_retail_data";
     threshold := 1 # 100;
     critical := false |}.

Definition data_range_validation : Check :=
  {| name := "data_range_validation";
     description := "Validate data ranges";
     query := "SELECT COUNT( * ) as total_rows, COUNT(CASE WHEN price <= 0 THEN 1 END) as invalid_price, COUNT(CASE WHEN quantity > 1000 THEN 1 END) as suspicious_quantity, COUNT(CASE WHEN quantity = 0 THEN 1 END) as zero_quantity FROM raw_retail_data";
     threshold := 1 # 10;
     critical := false |}.

Definition referential_integrity : Check :=
  {| name := "referential_integrity";
     description := "Check referential integrity";
     query := "SELECT (SELECT COUNT( * ) FROM fact_sales f LEFT JOIN dim_product p ON f.product_key = p.product_key WHERE p.product_key IS NULL) as orphaned_products, (SELECT COUNT( * ) FROM fact_sales f LEFT JOIN dim_customer c ON f.customer_key = c.customer_key WHERE c.customer_key IS NULL) as orphaned_customers, (SELECT COUNT( * ) FROM fact_sales f LEFT JOIN dim_time t ON f.time_key = t.time_key WHERE t.time_key IS NULL) as orphaned_times";
     threshold := 0;
     critical := true |}.

Definition business_logic : Check :=
  {| name := "business_logic";
     description := "Validate business calculations";
     query := "SELECT COUNT( * ) as total_sales, COUNT(CASE WHEN ABS(total_amount - (quantity * unit_price)) > 0.01 THEN 1 END) as calculation_errors, AVG(total_amount) as avg_transaction_value, COUNT(CASE WHEN total_amount < 0 AND is_return = FALSE THEN 1 END) as negative_non_returns FROM fact_sales";
     threshold := 0;
     critical := true |}.

Definition data_freshness : Check :=
  {| name := "data_freshness";
     description := "Check data freshness";
     query := "SELECT MAX(created_at) as last_loaded, EXTRACT(EPOCH FROM (NOW() - MAX(created_at)))/3600 as hours_since_last_load FROM raw_retail_data";
     threshold := 48;
     critical := false |}.

Definition row_count_validation : Check :=
  {| name := "row_count_validation";
     description := "Validate expected row counts";
     query := "SELECT (SELECT COUNT( * ) FROM raw_retail_data) as raw_count, (SELECT COUNT( * ) FROM fact_sales) as fact_count, (SELECT COUNT( * ) FROM dim_customer) as customer_count, (SELECT COUNT( * ) FROM dim_product) as product_count";
     threshold := 95 # 100;
     critical := true |}.

(** [_load_quality_rules], categories in dictionary order. *)
Definition quality_rules : list (string * list Check) :=
  [ ("raw_data_checks",
     [null_critical_fields; duplicate_records; data_range_validation]);
    ("warehouse_checks", [referential_integrity; business_logic]);
    ("performance_checks", [data_freshness; row_count_validation]) ].

(** [result.get(k, dflt)] *)
Definition get (res : gmap string sqlval) (k : string) (dflt : Q) : sqlval :=
  default (VNum dflt) (res !! k).

(** [v == 0]; [None == 0] is False *)
Definition eq_zero (v : sqlval) : bool :=
  match v with
  | VNum q => Qeq_bool q 0
  | VNull => false
  end.

(** A value used in arithmetic or an ordering: [None] raises TypeError. *)
Definition num (v : sqlval) : result Q :=
  match v with
  | VNum q => Ok q
  | VNull => Raise TypeError
  end.

Definition _evaluate_check_result (check : Check) (res : gmap string sqlval)
  : result bool :=
  let check_name := name check in
  let threshold := threshold check in
  if String.eqb check_name "null_critical_fields" then
    let total_rows := get res "total_rows" 0 in
    if eq_zero total_rows then Ok false
    else
      a ← num (get res "null_customer_id" 0);
      b ← num (get res "null_stock_code" 0);
      c ← num (get res "null_invoice_date" 0);
      t ← num total_rows;
      let null_rate := ((a + b + c) / (t * 3))%Q in
      Ok (Qle_bool null_rate threshold)
  else if String.eqb check_name "duplicate_records" then
    let total := get res "total_records" 0 in
    let unique := get res "unique_combinations" 0 in
    if eq_zero total then Ok true
    else
      t ← num total;
      u ← num unique;
      let duplicate_rate := ((t - u) / t)%Q in
      Ok (Qle_bool duplicate_rate threshold)
  else if String.eqb check_name "data_range_validation" then
    let total_rows := get res "total_rows" 0 in
    if eq_zero total_rows then Ok false
    else
      a ← num (get res "invalid_price" 0);
      b ← num (get res "suspicious_quantity" 0);
      t ← num total_rows;
      let invalid_rate := ((a + b) / t)%Q in
      Ok (Qle_bool invalid_rate threshold)
  else if String.eqb check_name "referential_integrity" then
    Ok (eq_zero (get res "orphaned_products" 0)
        && eq_zero (get res "orphaned_customers" 0)
        && eq_zero (get res "orphaned_times" 0))
  else if String.eqb check_name "business_logic" then
    Ok (eq_zero (get res "calculation_errors" 0)
        && eq_zero (get res "negative_non_returns" 0))
  else if String.eqb check_name "data_freshness" then
    hours_old ← num (get res "hours_since_last_load" 999);
    Ok (Qle_bool hours_old threshold)
  else if String.eqb check_name "row_count_validation" then
    let raw_count := get res "raw_count" 0 in
    let fact_count := get res "fact_count" 0 in
    if eq_zero raw_count then Ok false
    else
      f ← num fact_count;
      r ← num raw_count;
      let retention_rate := (f / r)%Q in
      Ok (Qle_bool threshold retention_rate)
  else Ok false.

(** The dictionary returned by [run_quality_check]; the wall-clock
    ['timestamp'] entry is left out. *)
Record CheckResult : Type := {
  check_name : string;
  res_description : string;
  results : gmap string sqlval;
  passed : bool;
  res_critical : bool;
  res_threshold : option Q;
  error : option exn
}.

(** The warehouse as the checks see it: a query either raises or yields
    [fetchone()]'s row, if any.  All the queries are read-only. *)
Definition Conn : Type := string -> result (option (gmap string sqlval)).

Definition run_quality_check (conn : Conn) (check : Check) : CheckResult :=
  let attempt :=
    fetched ← conn (query check);
    let check_result := default ∅ fetched in
    passed ← _evaluate_check_result check check_result;
    Ok (check_result, passed) in
  match attempt with
  | Ok (check_result, passed) =>
      {| check_name := name check;
         res_description := description check;
         results := check_result;
         passed := passed;
         res_critical := critical check;
         res_threshold := Some (threshold check);
         error := None |}
  | Raise e =>
      {| check_name := name check;
         res_description := description check;
         results := ∅;
         passed := false;
         res_critical := critical check;
         res_threshold := None;
         error := Some e |}
  end.

Record Summary : Type := {
  total_checks : nat;
  passed_checks : nat;
  failed_checks : nat;
  critical_failures : nat
}.

Inductive Status : Type := UNKNOWN | CRITICAL_FAILURE | WARNING | PASS.

Record Report : Type := {
  check_categories : list (string * list CheckResult);
  summary : Summary;
  overall_status : Status
}.

Definition update_summary (s : Summary) (r : CheckResult) : Summary :=
  {| total_checks := total_checks s + 1;
     passed_checks := if passed r then passed_checks s + 1 else passed_checks s;
     failed_checks := if passed r then failed_checks s else failed_checks s + 1;
     critical_failures :=
       if passed r then critical_failures s
       else if res_critical r then critical_failures s + 1
       else critical_failures s |}.

(** The inner loop of [run_all_checks] over the checks of one category. *)
Definition run_category (conn : Conn) (checks : list Check) (s : Summary)
  : list CheckResult * Summary :=
  List.fold_left
    (fun acc check =>
       let r := run_quality_check conn check in
       (fst acc ++ [r], update_summary (snd acc) r))
    checks ([], s).

Definition run_all_checks (conn : Conn) : Report :=
  let looped :=
    List.fold_left
      (fun acc cat =>
         let done := run_category conn (snd cat) (snd acc) in
         (fst acc ++ [(fst cat, fst done)], snd done))
      quality_rules
      ([], {| total_checks := 0; passed_checks := 0;
              failed_checks := 0; critical_failures := 0 |}) in
  let s := snd looped in
  {| check_categories := fst looped;
     summary := s;
     overall_status :=
       if (0 <? critical_failures s)%nat then CRITICAL_FAILURE
       else if (0 <? failed_checks s)%nat then WARNING
       else PASS |}.

(** The checks in execution order, and what a failed check looks like. *)
Definition all_checks : list Check :=
  List.concat (List.map snd quality_rules).

Definition failed_result (check : Check) (e : exn) : CheckResult :=
  {| check_name := name check;
     res_description := description check;
     results := ∅;
     passed := false;
     res_critical := critical check;
     res_threshold := None;
     error := Some e |}.

Definition initial_summary : Summary :=
  {| total_checks := 0; passed_checks := 0;
     failed_checks := 0; critical_failures := 0 |}.

End DataQuality.

(** ** Anomaly scorer ([quality_monitoring.py]) *)

Module Monitoring.

Definition Qltb (x y : Q) : bool := negb (Qle_bool y x).

(** [Series.quantile(q)], linear interpolation between the two closest
    ranks of the sorted values; NaN on an empty series. *)
Definition interpolate (s : list Q) (x0 : Q) (q : Q) : Q :=
  let n := Z.of_nat (length s) in
  let h := (q * inject_Z (n - 1))%Q in
  let i := Qfloor h in
  let g := (h - inject_Z i)%Q in
  let lower := nth (Z.to_nat i) s x0 in
  let upper := nth (Z.to_nat (Z.min (i + 1) (n - 1))) s x0 in
  (lower + g * (upper - lower))%Q.

Definition quantile (xs : list Q) (q : Q) : option Q :=
  let s := sort_values Qle_bool xs in
  match s with
  | [] => None
  | x0 :: _ => Some (interpolate s x0 q)
  end.

(** A row of the daily aggregate; the other selected columns pass through
    unread. *)
Record DailyRow : Type := {
  date_value : Z;
  daily_sales : Q
}.

Inductive OutlierType : Type := Low | High | Normal.

(** The columns added by [check_daily_sales_range] that feed the score;
    mean, standard deviation and z-score are attached afterwards and read
    by nothing here. *)
Record ScoredDay : Type := {
  day : DailyRow;
  is_outlier : bool;
  outlier_type : OutlierType;
  quality_score : Z
}.

Definition bounds (sales : list Q) : option (Q * Q) :=
  match quantile sales (25 # 100), quantile sales (75 # 100) with
  | Some q25, Some q75 =>
      let iqr := (q75 - q25)%Q in
      let lower_bound := (q25 - (15 # 10) * iqr)%Q in
      let upper_bound := (q75 + (15 # 10) * iqr)%Q in
      Some (lower_bound, upper_bound)
  | _, _ => None
  end.

Definition score_day (lower_bound upper_bound : Q) (row : DailyRow)
  : ScoredDay :=
  let outlier :=
    Qltb (daily_sales row) lower_bound || Qltb upper_bound (daily_sales row) in
  {| day := row;
     is_outlier := outlier;
     outlier_type :=
       if Qltb (daily_sales row) lower_bound then Low
       else if Qltb upper_bound (daily_sales row) then High
       else Normal;
     quality_score := if outlier then 85 else 100 |}.

(** The scored frame.  On an empty frame the quantiles are NaN and what
    [DataFrame.apply] hands back for no row depends on the pandas version:
    that case is left unmodelled ([None]). *)
Definition check_daily_sales_range (df : list DailyRow)
  : option (list ScoredDay) :=
  match bounds (List.map daily_sales df) with
  | Some (lower_bound, upper_bound) =>
      Some (List.map (score_day lower_bound upper_bound) df)
  | None => None
  end.

(** *** Missing customer rate *)

(** PostgreSQL [ROUND(x, 2)] on numeric: ties away from zero. *)
Definition sql_round2 (x : Q) : Q :=
  let y := (Qabs x * 100 + (1 # 2))%Q in
  let m := inject_Z (Qfloor y) in
  if Qltb x 0 then (- (m / 100))%Q else (m / 100)%Q.

Record CustomerRateRow : Type := {
  rate_date : Z;
  total_transactions : Z;
  transactions_with_customer : Z;
  missing_customers : Z;
  missing_customer_rate : Q
}.

(** One group of the query, from its row count and its count of non-null
    customer keys, with the derived columns. *)
Definition customer_rate_row (date total with_customer : Z)
  : CustomerRateRow :=
  {| rate_date := date;
     total_transactions := total;
     transactions_with_customer := with_customer;
     missing_customers := total - with_customer;
     missing_customer_rate :=
       sql_round2 (inject_Z (total - with_customer) * 100 / inject_Z total) |}.

Inductive QualityStatus : Type := Good | Warning | Critical.

Definition threshold : Q := 5.

(** Python's [max(a, b)]: [b] only when it is strictly larger. *)
Definition py_max (a b : Q) : Q := if Qltb a b then b else a.

Definition quality_status (x : Q) : QualityStatus :=
  if Qle_bool x threshold then Good
  else if Qle_bool x (threshold * 2) then Warning
  else Critical.

Definition rate_quality_score (x : Q) : Q :=
  if Qle_bool x threshold then 100
  else py_max 50 (100 - (x - threshold) * 10).

Record ScoredRate : Type := {
  rate_row : CustomerRateRow;
  rate_status : QualityStatus;
  rate_score : Q
}.

Definition check_missing_customer_rate (df : list CustomerRateRow)
  : list ScoredRate :=
  List.map
    (fun r => {| rate_row := r;
                 rate_status := quality_status (missing_customer_rate r);
                 rate_score := rate_quality_score (missing_customer_rate r) |})
    df.

End Monitoring.

(** ** Staging load ([retail_extract.py], [load_to_staging]) *)

Module Staging.

Definition column_mapping (c : string) : string :=
  if String.eqb c "InvoiceNo" then "invoice"
  else if String.eqb c "StockCode" then "stock_code"
  else if String.eqb c "Description" then "description"
  else if String.eqb c "Quantity" then "quantity"
  else if String.eqb c "InvoiceDate" then "invoice_date"
  else if String.eqb c "UnitPrice" then "price"
  else if String.eqb c "CustomerID" then "customer_id"
  else if String.eqb c "Country" then "country"
  else c.

Definition db_columns : list string :=
  ["invoice"; "stock_code"; "description"; "quantity"; "invoice_date";
   "price"; "customer_id"; "country"].

(** [df_db[db_columns]] raises KeyError naming the absent columns. *)
Definition missing_db_columns (df : Extract.Frame) : list string :=
  let renamed := List.map column_mapping (Extract.columns df) in
  List.filter (fun c => negb (bool_decide (c ∈ renamed))) db_columns.

(** [load_to_staging] on the cleaned frame; the result is the
    ['rows_loaded'] entry of the returned statistics. *)
Definition load_to_staging
    (accepts : list Transform.StagingRow -> list Transform.StagingRow -> bool)
    (df : Extract.Frame) (db : Transform.DB Transform.StagingRow)
  : result nat * Transform.DB Transform.StagingRow :=
  match missing_db_columns df with
  | _ :: _ => (Raise (KeyError (String.concat ", " (missing_db_columns df))), db)
  | [] =>
      let df_db := List.map Transform.to_staging (Extract.rows df) in
      let total_rows := length df_db in
      let cleared :=
        if (0 <? total_rows)%nat then Transform.truncate db else (Ok tt, db) in
      match cleared with
      | (Raise e, db') => (Raise e, db')
      | (Ok _, db') =>
          match Transform.load_batches accepts
                  (Transform.range_step total_rows Transform.batch_size)
                  Transform.batch_size df_db Transform.append 0 db' with
          | (Ok _, db'') => (Ok (length df_db), db'')
          | (Raise e, db'') => (Raise e, db'')
          end
      end
  end.

(** The key on which the staging table is meant to be unique. *)
Definition staging_key (r : Transform.StagingRow) : cell * cell * option Z :=
  (Transform.invoice r, Transform.stock_code r, Transform.invoice_date r).

End Staging.

(** ** Country and customer dimensions ([retail_transform.py]) *)

Module Dimensions.

(** [df['country'].dropna().unique()]: distinct values in order of first
    appearance. *)
Definition transform_country_dimension (df : list Transform.StagingRow)
  : list string :=
  drop_duplicates id (omap id (List.map Transform.country df)).

Record CustomerRow : Type := {
  dim_customer_id : Z;
  dim_country_key : option Z
}.

(** [drop_duplicates(subset=['customer_id'])], then
    [dropna(subset=['customer_id'])], then the country looked up in the
    country keys. *)
Definition transform_customer_dimension (df : list Transform.StagingRow)
    (country_keys : gmap string Z) : list CustomerRow :=
  let customers := drop_duplicates Transform.customer_id df in
  let customers :=
    List.filter (fun r => negb (isna (Transform.customer_id r))) customers in
  omap (fun r =>
          match Transform.customer_id r with
          | Some c =>
              Some {| dim_customer_id := c;
                      dim_country_key :=
                        Transform.map_dict country_keys (Transform.country r) |}
          | None => None
          end)
       customers.

End Dimensions.

(** ** Quality dashboard ([data_quality.py]) *)

Module Dashboard.
Import DataQuality.

(** SQL text of [get_quality_metrics], white space normalised and SQL
    comments left out. *)
Definition metrics_query : string :=
  "SELECT (SELECT COUNT( * ) FROM raw_retail_data) as raw_data_count, (SELECT COUNT(DISTINCT customer_id) FROM raw_retail_data WHERE customer_id IS NOT NULL) as unique_customers_raw, (SELECT COUNT( * ) FROM fact_sales) as fact_sales_count, (SELECT COUNT( * ) FROM dim_customer) as dim_customers_count, (SELECT COUNT( * ) FROM dim_product) as dim_products_count, (SELECT COUNT( * ) FROM dim_country) as dim_countries_count, (SELECT COUNT( * ) FROM fact_sales WHERE is_return = TRUE) as return_transactions, (SELECT ROUND(AVG(total_amount), 2) FROM fact_sales WHERE is_return = FALSE) as avg_transaction_value, (SELECT SUM(total_amount) FROM fact_sales WHERE is_return = FALSE) as total_revenue, (SELECT MAX(created_at) FROM raw_retail_data) as last_raw_load, (SELECT MAX(created_at) FROM fact_sales) as last_warehouse_load".

(** No [try] here: an exception of the query leaves the function. *)
Definition get_quality_metrics (conn : Conn) : result (gmap string sqlval) :=
  fetched ← conn metrics_query;
  Ok (default ∅ fetched).

Record FailedCheck : Type := {
  fc_category : string;
  fc_name : string;
  fc_description : string;
  fc_critical : bool
}.

(** The dashboard dictionary; the wall-clock ['last_check_time'] entry is
    left out. *)
Record DashboardData : Type := {
  quality_score : Q;
  dash_status : Status;
  metrics : gmap string sqlval;
  check_summary : Summary;
  failed_checks_list : list FailedCheck
}.

(** [round(x, 1)] *)
Definition round1 (x : Q) : Q :=
  (inject_Z (Extract.round_half_even (x * 10)) / 10)%Q.

(** The failed checks of one category, in order. *)
Definition failed_of_category (cat : string * list CheckResult)
  : list FailedCheck :=
  List.map
    (fun r => {| fc_category := fst cat;
                 fc_name := check_name r;
                 fc_description := res_description r;
                 fc_critical := res_critical r |})
    (List.filter (fun r => negb (passed r)) (snd cat)).

Definition generate_quality_dashboard_data (conn : Conn)
  : result DashboardData :=
  let quality_report := run_all_checks conn in
  metrics ← get_quality_metrics conn;
  let total_checks := total_checks (summary quality_report) in
  let passed_checks := passed_checks (summary quality_report) in
  let quality_score :=
    if (0 <? total_checks)%nat
    then (inject_Z (Z.of_nat passed_checks) / inject_Z (Z.of_nat total_checks)
          * 100)%Q
    else 0%Q in
  Ok {| quality_score := round1 quality_score;
        dash_status := overall_status quality_report;
        metrics := metrics;
        check_summary := summary quality_report;
        failed_checks_list :=
          List.concat
            (List.map failed_of_category (check_categories quality_report)) |}.

End Dashboard.

(** ** Post-load validation ([retail_load.py]) *)

Module Loader.
Import DataQuality.

(** [conn.execute(text(q)).scalar()]: raises, or yields the first column of
    the first row ([None] when there is none or it is NULL). *)
Definition ScalarConn : Type := string -> result sqlval.

Definition orphaned_products_query : string :=
  "SELECT COUNT( * ) FROM fact_sales f LEFT JOIN dim_product p ON f.product_key = p.product_key WHERE p.product_key IS NULL".
Definition orphaned_customers_query : string :=
  "SELECT COUNT( * ) FROM fact_sales f LEFT JOIN dim_customer c ON f.customer_key = c.customer_key WHERE c.customer_key IS NULL".
Definition orphaned_times_query : string :=
  "SELECT COUNT( * ) FROM fact_sales f LEFT JOIN dim_time t ON f.time_key = t.time_key WHERE t.time_key IS NULL".
Definition orphaned_countries_query : string :=
  "SELECT COUNT( * ) FROM fact_sales f LEFT JOIN dim_country co ON f.country_key = co.country_key WHERE co.country_key IS NULL".

Definition validation_queries : list (string * string) :=
  [ ("orphaned_products", orphaned_products_query);
    ("orphaned_customers", orphaned_customers_query);
    ("orphaned_times", orphaned_times_query);
    ("orphaned_countries", orphaned_countries_query) ].

(** One turn of the loop of [validate_referential_integrity]: the count is
    stored, then compared with 0 for the log, which raises TypeError on
    [None]. *)
Definition integrity_step (conn : ScalarConn) (entry : string * string)
  : result (string * Q) :=
  v ← conn (snd entry);
  q ← num v;
  Ok (fst entry, q).

(** The loops over a dictionary of queries: the first exception stops them. *)
Fixpoint for_each {A B} (f : A -> result B) (l : list A) : result (list B) :=
  match l with
  | [] => Ok []
  | a :: rest =>
      b ← f a;
      bs ← for_each f rest;
      Ok (b :: bs)
  end.

Definition validate_referential_integrity (conn : ScalarConn)
  : result (list (string * Q)) :=
  for_each (integrity_step conn) validation_queries.

Definition business_checks : list (string * string) :=
  [ ("calculation_errors",
     "SELECT COUNT( * ) FROM fact_sales WHERE ABS(total_amount - (quantity * unit_price)) > 0.01");
    ("negative_quantities_non_returns",
     "SELECT COUNT( * ) FROM fact_sales WHERE quantity < 0 AND is_return = FALSE");
    ("zero_unit_price",
     "SELECT COUNT( * ) FROM fact_sales WHERE unit_price <= 0");
    ("extreme_quantities",
     "SELECT COUNT( * ) FROM fact_sales WHERE ABS(quantity) > 10000");
    ("future_dates",
     "SELECT COUNT( * ) FROM fact_sales f JOIN dim_time t ON f.time_key = t.time_key WHERE t.date_value > CURRENT_DATE");
    ("total_sales_amount",
     "SELECT SUM(total_amount) FROM fact_sales WHERE is_return = FALSE");
    ("total_returns_amount",
     "SELECT SUM(ABS(total_amount)) FROM fact_sales WHERE is_return = TRUE") ].

(** [float(result) if result is not None else 0] *)
Definition business_step (conn : ScalarConn) (entry : string * string)
  : result (string * Q) :=
  v ← conn (snd entry);
  Ok (fst entry, match v with VNum q => q | VNull => 0%Q end).

Definition validate_business_rules (conn : ScalarConn)
  : result (list (string * Q)) :=
  for_each (business_step conn) business_checks.

(** Dates are read as day numbers. *)
Definition summary_queries : list (string * string) :=
  [ ("total_transactions", "SELECT COUNT( * ) FROM fact_sales");
    ("unique_customers", "SELECT COUNT( * ) FROM dim_customer");
    ("unique_products", "SELECT COUNT( * ) FROM dim_product");
    ("unique_countries", "SELECT COUNT( * ) FROM dim_country");
    ("date_range_start", "SELECT MIN(date_value) FROM dim_time");
    ("date_range_end", "SELECT MAX(date_value) FROM dim_time");
    ("total_revenue",
     "SELECT SUM(total_amount) FROM fact_sales WHERE is_return = FALSE");
    ("total_returns",
     "SELECT SUM(ABS(total_amount)) FROM fact_sales WHERE is_return = TRUE");
    ("return_rate",
     "SELECT ROUND( COUNT(CASE WHEN is_return = TRUE THEN 1 END) * 100.0 / COUNT( * ), 2 ) FROM fact_sales") ].

Definition summary_step (conn : ScalarConn) (entry : string * string)
  : result (string * sqlval) :=
  v ← conn (snd entry);
  Ok (fst entry, v).

Definition get_data_summary (conn : ScalarConn)
  : result (list (string * sqlval)) :=
  for_each (summary_step conn) summary_queries.

Definition top_countries_query : string :=
  "SELECT c.country_name, SUM(f.total_amount) as revenue FROM fact_sales f JOIN dim_country c ON f.country_key = c.country_key WHERE f.is_return = FALSE GROUP BY c.country_name ORDER BY revenue DESC LIMIT 5".
Definition top_products_query : string :=
  "SELECT p.stock_code, p.description, SUM(f.quantity) as total_quantity FROM fact_sales f JOIN dim_product p ON f.product_key = p.product_key WHERE f.is_return = FALSE GROUP BY p.stock_code, p.description ORDER BY total_quantity DESC LIMIT 10".
Definition monthly_trend_query : string :=
  "SELECT t.year, t.month, SUM(f.total_amount) as monthly_revenue FROM fact_sales f JOIN dim_time t ON f.time_key = t.time_key WHERE f.is_return = FALSE GROUP BY t.year, t.month ORDER BY t.year, t.month".

Section Report.
(** A fetched row of the top-metrics queries, whatever its columns hold. *)
Variable MetricRow : Type.

(** [conn.execute(text(q)).fetchall()] *)
Definition RowsConn : Type := string -> result (list MetricRow).

Record TopMetrics : Type := {
  top_countries : list MetricRow;
  top_products : list MetricRow;
  monthly_trend : list MetricRow
}.

Definition get_top_metrics (rows : RowsConn) : result TopMetrics :=
  countries ← rows top_countries_query;
  products ← rows top_products_query;
  trend ← rows monthly_trend_query;
  Ok {| top_countries := countries; top_products := products;
        monthly_trend := trend |}.

Inductive LoadStatus : Type := PASS | FAIL.

(** The report dictionary; the wall-clock ['validation_timestamp'] entry is
    left out. *)
Record DQReport : Type := {
  referential_integrity : list (string * Q);
  business_rules : list (string * Q);
  data_summary : list (string * sqlval);
  top_metrics : TopMetrics;
  overall_status : LoadStatus
}.

(** [sum(values)] *)
Definition Qsum (l : list Q) : Q := List.fold_left Qplus l 0%Q.

(** [d[k]] on a dictionary kept as its items; KeyError when absent. *)
Definition item (d : list (string * Q)) (k : string) : result Q :=
  match List.find (fun e => String.eqb (fst e) k) d with
  | Some e => Ok (snd e)
  | None => Raise (KeyError k)
  end.

Definition run_data_quality_checks (conn : ScalarConn) (rows : RowsConn)
  : result DQReport :=
  integrity_results ← validate_referential_integrity conn;
  business_results ← validate_business_rules conn;
  summary_results ← get_data_summary conn;
  top ← get_top_metrics rows;
  let integrity_issues := Qsum (List.map snd integrity_results) in
  calculation_errors ← item business_results "calculation_errors";
  negative_quantities ← item business_results "negative_quantities_non_returns";
  future_dates ← item business_results "future_dates";
  let business_issues :=
    Qsum [calculation_errors; negative_quantities; future_dates] in
  _ ← item business_results "zero_unit_price";
  _ ← item business_results "extreme_quantities";
  Ok {| referential_integrity := integrity_results;
        business_rules := business_results;
        data_summary := summary_results;
        top_metrics := top;
        overall_status :=
          if Monitoring.Qltb 0 integrity_issues || Monitoring.Qltb 0 business_issues
          then FAIL else PASS |}.
End Report.

Arguments run_data_quality_checks {MetricRow} conn rows.
Arguments get_top_metrics {MetricRow} rows.
Arguments referential_integrity {MetricRow} d.
Arguments business_rules {MetricRow} d.
Arguments overall_status {MetricRow} d.

End Loader.

(** ** Product completeness ([quality_monitoring.py]) *)

Module ProductQuality.

(** A row of the product query with its two issue flags, as the CASE
    expressions compute them (stock codes are ASCII, so [LENGTH] is the
    string length). *)
Record ProductRow : Type := {
  stock_code : string;
  description : option string;
  transaction_count : Z;
  total_revenue : option Q;
  missing_description : Z;
  invalid_stock_code : Z
}.

Definition product_row (code : string) (desc : option string)
    (count : Z) (revenue : option Q) : ProductRow :=
  {| stock_code := code;
     description := desc;
     transaction_count := count;
     total_revenue := revenue;
     missing_description :=
       match desc with
       | None => 1
       | Some d => if String.eqb d "" then 1 else 0
       end;
     invalid_stock_code := if (String.length code <? 3)%nat then 1 else 0 |}.

Record ScoredProduct : Type := {
  product : ProductRow;
  quality_issues : Z;
  quality_score : Z
}.

Definition score_product (r : ProductRow) : ScoredProduct :=
  let issues := (missing_description r + invalid_stock_code r)%Z in
  {| product := r;
     quality_issues := issues;
     quality_score :=
       if (issues =? 0)%Z then 100
       else if (issues =? 1)%Z then 75
       else 50 |}.

Definition check_product_data_quality (df : list ProductRow)
  : list ScoredProduct :=
  List.map score_product df.

End ProductQuality.

(** ** Missing customer rate over a fact table *)

Module CustomerRate.

(** One group of the missing-customer query over the fact rows of a date:
    the row count and the count of non-null customer keys. *)
Definition rate_of_group (date : Z) (group : list Transform.FactRow)
  : Monitoring.CustomerRateRow :=
  Monitoring.customer_rate_row date
    (Z.of_nat (length group))
    (Z.of_nat (length (List.filter
                         (fun f => negb (isna (Transform.customer_key f)))
                         group))).

End CustomerRate.

(** ** Time dimension ([retail_transform.py]) *)

Module TimeDimension.

(** The pandas date accessors the builder calls, taken as given:
    [dayofweek] counts from Monday = 0. *)
Record Calendar : Type := {
  dt_year : Z -> Z;
  dt_month : Z -> Z;
  dt_month_name : Z -> string;
  dt_quarter : Z -> Z;
  dt_day : Z -> Z;
  dt_dayofweek : Z -> Z;
  dt_day_name : Z -> string
}.

(** A row of the time dimension; every part is NaN/NaT on a null date. *)
Record TimeRow : Type := {
  date_value : option Z;
  year : option Z;
  month : option Z;
  month_name : option string;
  quarter : option Z;
  day_of_month : option Z;
  day_of_week : option Z;
  day_name : option string;
  is_weekend : bool
}.

(** [Series.isin([6, 7])]; NaN is in no list. *)
Definition isin_6_7 (x : option Z) : bool :=
  match x with
  | Some v => (v =? 6)%Z || (v =? 7)%Z
  | None => false
  end.

Definition time_row (cal : Calendar) (d : option Z) : TimeRow :=
  let day_of_week := (fun v => dt_dayofweek cal v + 1)%Z <$> d in
  {| date_value := d;
     year := dt_year cal <$> d;
     month := dt_month cal <$> d;
     month_name := dt_month_name cal <$> d;
     quarter := dt_quarter cal <$> d;
     day_of_month := dt_day cal <$> d;
     day_of_week := day_of_week;
     day_name := dt_day_name cal <$> d;
     is_weekend := isin_6_7 day_of_week |}.

(** [pd.to_datetime(df['invoice_date']).dt.date.unique()], then one row of
    date parts per date. *)
Definition transform_time_dimension (cal : Calendar)
    (df : list Transform.StagingRow) : list TimeRow :=
  let dates :=
    drop_duplicates id
      (List.map (fun r => Transform.date_only <$> Transform.invoice_date r) df) in
  List.map (time_row cal) dates.

End TimeDimension.

(** ** Concrete inputs used below *)

Definition dup_row (d : string) : Extract.RawRow :=
  {| Extract.InvoiceNo := CInt 536365; Extract.StockCode := CStr "85123A";
     Extract.Description := Some d; Extract.Quantity := Some 6%Z;
     Extract.InvoiceDate := Some 1291191960%Z; Extract.UnitPrice := Some (255 # 100);
     Extract.CustomerID := Some 17850%Z; Extract.Country := Some "United Kingdom" |}.

Definition hd_dup_row : Extract.RawRow := dup_row "WHITE HANGING HEART".

(** Two lines of invoice 536365 that differ in their description only. *)
Definition dup_frame : Extract.Frame :=
  {| Extract.columns :=
       ["InvoiceNo"; "StockCode"; "Description"; "Quantity"; "InvoiceDate";
        "UnitPrice"; "CustomerID"; "Country"];
     Extract.rows := [hd_dup_row; dup_row "CREAM HANGING HEART"] |}.

(** The same two lines under the headers of the Online Retail II sheet. *)
Definition retail_sheet : Extract.Frame :=
  {| Extract.columns :=
       ["Invoice"; "StockCode"; "Description"; "Quantity"; "InvoiceDate";
        "Price"; "Customer ID"; "Country"];
     Extract.rows := Extract.rows dup_frame |}.

(** A staged line whose country is NULL, and the key dictionaries of a run
    over it: [transform_country_dimension] drops null countries, so no
    country key exists for it. *)
Definition no_country_row : Transform.StagingRow :=
  {| Transform.invoice := CStr "536365"; Transform.stock_code := CStr "85123A";
     Transform.description := Some "WHITE HANGING HEART";
     Transform.quantity := Some 6%Z;
     Transform.invoice_date := Some 1291191960%Z;
     Transform.price := Some (255 # 100);
     Transform.customer_id := Some 17850%Z; Transform.country := None |}.

Definition run_keys : Transform.DimensionKeys :=
  {| Transform.time := {[ 14944%Z := 1%Z ]};
     Transform.countries := ∅;
     Transform.products := {[ CStr "85123A" := 1%Z ]};
     Transform.customers := {[ 17850%Z := 1%Z ]} |}.

(** Two lines of one stock code whose descriptions occur once each, the
    later one sorting first. *)
Definition described (code d : string) : Transform.StagingRow :=
  {| Transform.invoice := CStr "536365"; Transform.stock_code := CStr code;
     Transform.description := Some d; Transform.quantity := Some 1%Z;
     Transform.invoice_date := Some 1291191960%Z;
     Transform.price := Some 1%Q;
     Transform.customer_id := Some 17850%Z;
     Transform.country := Some "United Kingdom" |}.

Definition tied_rows : list Transform.StagingRow :=
  [described "A1" "B"; described "A1" "A"].

(** A fact table left by an earlier run. *)
Definition old_fact : Transform.FactRow :=
  Transform.fact_row run_keys no_country_row.

Definition loaded_db : Transform.DB Transform.FactRow :=
  {| Transform.table := Some [old_fact]; Transform.executed := [] |}.

Definition accept_all {Row : Type} (current batch : list Row) : bool := true.

(** The row the row-count query fetches when 940 of 1000 staged rows reached
    the fact table. *)
Definition counts_940_of_1000 : gmap string DataQuality.sqlval :=
  {[ "raw_count" := DataQuality.VNum 1000; "fact_count" := DataQuality.VNum 940;
     "customer_count" := DataQuality.VNum 12; "product_count" := DataQuality.VNum 30 ]}.

(** A warehouse that answers the row-count query with that row and every
    other query with no row. *)
Definition conn_940_of_1000 : DataQuality.Conn :=
  fun q =>
    if String.eqb q (DataQuality.query DataQuality.row_count_validation)
    then Ok (Some counts_940_of_1000)
    else Ok None.

(** A warehouse that fails the freshness query and answers every other query
    with no row. *)
Definition conn_freshness_down : DataQuality.Conn :=
  fun q =>
    if String.eqb q (DataQuality.query DataQuality.data_freshness)
    then Raise (DatabaseError "connection lost")
    else Ok None.

(** Six days with net sales 10, 12, 11, 13, 9 and 100. *)
Definition six_days : list Monitoring.DailyRow :=
  List.map (fun p => {| Monitoring.date_value := fst p; Monitoring.daily_sales := snd p |})
    [(1%Z, 10%Q); (2%Z, 12%Q); (3%Z, 11%Q); (4%Z, 13%Q); (5%Z, 9%Q); (6%Z, 100%Q)].

(** Rows fetched by the staging checks on a table of 200 rows. *)
Definition null_counts : gmap string DataQuality.sqlval :=
  {[ "total_rows" := DataQuality.VNum 200; "null_customer_id" := DataQuality.VNum 30;
     "null_stock_code" := DataQuality.VNum 0; "null_invoice_date" := DataQuality.VNum 0 ]}.

Definition range_counts : gmap string DataQuality.sqlval :=
  {[ "total_rows" := DataQuality.VNum 200; "invalid_price" := DataQuality.VNum 4;
     "suspicious_quantity" := DataQuality.VNum 5; "zero_quantity" := DataQuality.VNum 90 ]}.

Definition duplicate_counts : gmap string DataQuality.sqlval :=
  {[ "total_records" := DataQuality.VNum 200;
     "unique_combinations" := DataQuality.VNum 199 ]}.

(** The freshness row of an empty staging table. *)
Definition never_loaded : gmap string DataQuality.sqlval :=
  {[ "last_loaded" := DataQuality.VNull;
     "hours_since_last_load" := DataQuality.VNull ]}.

(** A warehouse in which one fact row has no matching country and every
    other validation count is zero. *)
Definition conn_orphan_country : Loader.ScalarConn :=
  fun q =>
    if String.eqb q Loader.orphaned_countries_query
    then Ok (DataQuality.VNum 1)
    else Ok (DataQuality.VNum 0).

Definition no_metric_rows : Loader.RowsConn unit := fun _ => Ok [].

(** The proleptic Gregorian calendar on day numbers counted from
    1970-01-01, a Thursday. *)
Definition civil_from_days (d : Z) : Z * Z * Z :=
  let z := (d + 719468)%Z in
  let era := (z / 146097)%Z in
  let doe := (z - era * 146097)%Z in
  let yoe := ((doe - doe / 1460 + doe / 36524 - doe / 146096) / 365)%Z in
  let doy := (doe - (365 * yoe + yoe / 4 - yoe / 100))%Z in
  let mp := ((5 * doy + 2) / 153)%Z in
  let day := (doy - (153 * mp + 2) / 5 + 1)%Z in
  let m := (if mp <? 10 then mp + 3 else mp - 9)%Z in
  let y := (yoe + era * 400 + (if m <=? 2 then 1 else 0))%Z in
  (y, m, day).

Definition gregorian : TimeDimension.Calendar :=
  let month_of d := snd (fst (civil_from_days d)) in
  let weekday d := ((d + 3) mod 7)%Z in
  {| TimeDimension.dt_year := fun d => fst (fst (civil_from_days d));
     TimeDimension.dt_month := month_of;
     TimeDimension.dt_month_name := fun d =>
       nth (Z.to_nat (month_of d - 1))
         ["January"; "February"; "March"; "April"; "May"; "June"; "July";
          "August"; "September"; "October"; "November"; "December"] "";
     TimeDimension.dt_quarter := fun d => ((month_of d - 1) / 3 + 1)%Z;
     TimeDimension.dt_day := fun d => snd (civil_from_days d);
     TimeDimension.dt_dayofweek := weekday;
     TimeDimension.dt_day_name := fun d =>
       nth (Z.to_nat (weekday d))
         ["Monday"; "Tuesday"; "Wednesday"; "Thursday"; "Friday"; "Saturday";
          "Sunday"] "" |}.

(** * Verified properties *)

(** ** Deduplication keeps first occurrences and is idempotent *)

Section DropDuplicatesFacts.
Context {A K : Type} `{EqDecision K}.
Variable key : A -> K.

Lemma drop_seen_sublist (seen : list K) (df : list A) :
  sublist (drop_seen key seen df) df.
Proof.
  revert seen; induction df as [|r rest IH]; intros seen; simpl.
  - constructor.
  - destruct (decide (key r ∈ seen)).
    + apply sublist_cons, IH.
    + apply sublist_skip, IH.
Qed.

Lemma drop_seen_fresh (seen : list K) (df : list A) (r : A) :
  r ∈ drop_seen key seen df -> key r ∉ seen.
Proof.
  revert seen; induction df as [|x rest IH]; intros seen; simpl.
  - intros Hin; inversion Hin.
  - destruct (decide (key x ∈ seen)) as [Hx|Hx].
    + apply IH.
    + intros Hin. apply elem_of_cons in Hin as [->|Hin]; [exact Hx|].
      apply IH in Hin. intros Hs. apply Hin. now apply elem_of_cons; right.
Qed.

Lemma drop_seen_NoDup (seen : list K) (df : list A) :
  NoDup (List.map key (drop_seen key seen df)).
Proof.
  revert seen; induction df as [|x rest IH]; intros seen; simpl.
  - constructor.
  - destruct (decide (key x ∈ seen)) as [Hx|Hx]; [apply IH|].
    simpl. constructor; [|apply IH].
    intros Hin. apply list_elem_of_In, in_map_iff in Hin as (y & Hy & Hin).
    apply list_elem_of_In, drop_seen_fresh in Hin.
    apply Hin. rewrite Hy. now apply elem_of_cons; left.
Qed.

(** For each key, the row kept is the first row of the input with that key
    (none when the key was seen before the input started). *)
Lemma drop_seen_find (seen : list K) (df : list A) (k : K) :
  List.find (has_key key k) (drop_seen key seen df)
  = if decide (k ∈ seen) then None else List.find (has_key key k) df.
Proof.
  revert seen; induction df as [|x rest IH]; intros seen; simpl.
  - now destruct (decide (k ∈ seen)).
  - unfold has_key at 2.
    destruct (decide (key x ∈ seen)) as [Hx|Hx].
    + rewrite IH. destruct (decide (k ∈ seen)) as [Hk|Hk]; [reflexivity|].
      case_bool_decide; [subst; contradiction|reflexivity].
    + simpl. unfold has_key at 1.
      case_bool_decide as Hxk.
      * subst k. now destruct (decide (key x ∈ seen)).
      * rewrite IH.
        destruct (decide (k ∈ key x :: seen)) as [Hk|Hk];
          destruct (decide (k ∈ seen)) as [Hk'|Hk']; try reflexivity.
        -- apply elem_of_cons in Hk as [->|Hk]; [now contradict Hxk|contradiction].
        -- exfalso. apply Hk. now apply elem_of_cons; right.
Qed.

Lemma drop_seen_idem (seen : list K) (df : list A) :
  drop_seen key seen (drop_seen key seen df) = drop_seen key seen df.
Proof.
  revert seen; induction df as [|x rest IH]; intros seen; simpl.
  - reflexivity.
  - destruct (decide (key x ∈ seen)) as [Hx|Hx]; [apply IH|].
    simpl. destruct (decide (key x ∈ seen)); [contradiction|].
    now rewrite IH.
Qed.

Lemma drop_duplicates_sublist (df : list A) :
  sublist (drop_duplicates key df) df.
Proof. apply drop_seen_sublist. Qed.

Lemma drop_duplicates_NoDup (df : list A) :
  NoDup (List.map key (drop_duplicates key df)).
Proof. apply drop_seen_NoDup. Qed.

Lemma drop_duplicates_first (df : list A) (k : K) :
  List.find (has_key key k) (drop_duplicates key df) = List.find (has_key key k) df.
Proof.
  unfold drop_duplicates. rewrite drop_seen_find.
  destruct (decide (k ∈ [])) as [Hk|]; [inversion Hk|reflexivity].
Qed.

Lemma drop_duplicates_idem (df : list A) :
  drop_duplicates key (drop_duplicates key df) = drop_duplicates key df.
Proof. apply drop_seen_idem. Qed.
End DropDuplicatesFacts.

Lemma filter_sublist_id {A} (f : A -> bool) (l l' : list A) :
  sublist l' (List.filter f l) -> List.filter f l' = l'.
Proof.
  intros Hsub.
  assert (Hall : forall x, In x l' -> f x = true).
  { intros x Hx. apply list_elem_of_In in Hx.
    apply (elem_of_sublist _ _ _ Hx) in Hsub as Hx'.
    rename Hx' into Hy. clear Hx. rename Hy into Hx.
    apply list_elem_of_In, filter_In in Hx. tauto. }
  clear Hsub. induction l' as [|x l' IH]; simpl; [reflexivity|].
  rewrite (Hall x (or_introl eq_refl)). f_equal. apply IH.
  intros y Hy. apply Hall. now right.
Qed.

Section CleanerFacts.
Import Extract.

Lemma filter_missing_nil (df : Frame) (cols : list string) :
  List.filter (fun c => negb (has_col df c)) cols = []
  <-> Forall (fun c => has_col df c = true) cols.
Proof.
  induction cols as [|c cs IH]; simpl.
  - split; [constructor|reflexivity].
  - destruct (has_col df c) eqn:Hc; simpl.
    + split.
      * intros Hnil. constructor; [exact Hc|now apply IH].
      * inversion 1; subst. now apply IH.
    + split; [discriminate|]. inversion 1; congruence.
Qed.

Lemma has_col_as_frame (df : Frame) (out : list CleanRow) (c : string) :
  has_col df c = true -> has_col (as_frame (columns df) out) c = true.
Proof.
  unfold has_col, as_frame; simpl. intros Hc.
  apply bool_decide_eq_true in Hc. apply bool_decide_eq_true.
  apply elem_of_app. now left.
Qed.

(** What a successful run of the cleaner returns. *)
Lemma _clean_data_ok (now : Z) (df : Frame) out st :
  _clean_data now df = Ok (out, st) ->
  Forall (fun c => has_col df c = true) required_cols
  /\ has_col df "UnitPrice" = true /\ has_col df "Quantity" = true
  /\ out = List.map (flag_row now)
             (drop_duplicates DEDUP_KEYS (List.filter critical_present (rows df)))
  /\ duplicates_removed st
     = (len (List.filter critical_present (rows df)) - len out)%Z
  /\ null_drops st
     = (len (rows df) - len (List.filter critical_present (rows df)))%Z.
Proof.
  unfold _clean_data.
  destruct (List.filter _ required_cols) eqn:Hreq; [|discriminate].
  apply filter_missing_nil in Hreq.
  unfold getitem.
  destruct (has_col df "UnitPrice") eqn:HU; [|discriminate].
  destruct (has_col df "Quantity") eqn:HQ; [|discriminate].
  simpl. intros [= <- <-]. simpl.
  repeat split; try assumption.
  unfold len. now rewrite length_map.
Qed.

Lemma _clean_data_run (now : Z) (df : Frame) :
  Forall (fun c => has_col df c = true) required_cols ->
  has_col df "UnitPrice" = true -> has_col df "Quantity" = true ->
  exists st,
    _clean_data now df
    = Ok (List.map (flag_row now)
            (drop_duplicates DEDUP_KEYS (List.filter critical_present (rows df))),
          st)
    /\ duplicates_removed st
       = (len (List.filter critical_present (rows df))
          - len (drop_duplicates DEDUP_KEYS
                   (List.filter critical_present (rows df))))%Z
    /\ null_drops st
       = (len (rows df) - len (List.filter critical_present (rows df)))%Z.
Proof.
  intros Hreq HU HQ. unfold _clean_data.
  apply filter_missing_nil in Hreq. rewrite Hreq.
  unfold getitem. rewrite HU, HQ. simpl.
  eexists. split; [reflexivity|]. simpl. split; reflexivity.
Qed.

Lemma map_base_flag_row (now : Z) (l : list RawRow) :
  List.map base (List.map (flag_row now) l) = l.
Proof. induction l; simpl; congruence. Qed.
End CleanerFacts.

Section CleanerTheorems.
Import Extract.

(** C3: on every input the cleaner accepts, the rows it keeps are the
    rows that survive the null filter deduplicated on (InvoiceNo,
    StockCode, InvoiceDate): a subsequence in input order, with pairwise
    distinct key triples, holding for each key triple the first input row
    that carries it; [duplicates_removed] counts the difference.  The
    deduplication is idempotent, and the cleaner run again on its own
    output succeeds, keeps the same rows and reports
    [duplicates_removed = 0]. *)
Theorem clean_data_dedup_first_idempotent
    (now : Z) (df : Frame) (out : list CleanRow) (st : CleanStats) :
  _clean_data now df = Ok (out, st) ->
  let df_work := List.filter critical_present (rows df) in
  let kept := List.map base out in
  kept = drop_duplicates DEDUP_KEYS df_work
  /\ sublist kept df_work
  /\ NoDup (List.map DEDUP_KEYS kept)
  /\ (forall k, List.find (has_key DEDUP_KEYS k) kept
                = List.find (has_key DEDUP_KEYS k) df_work)
  /\ duplicates_removed st = (len df_work - len kept)%Z
  /\ drop_duplicates DEDUP_KEYS kept = kept
  /\ forall now', exists st',
       _clean_data now' (as_frame (columns df) out)
       = Ok (List.map (flag_row now') kept, st')
       /\ duplicates_removed st' = 0%Z.
Proof.
  intros Hrun df_work kept.
  apply _clean_data_ok in Hrun as (Hreq & HU & HQ & Hout & Hdup & _).
  assert (Hkept : kept = drop_duplicates DEDUP_KEYS df_work).
  { unfold kept. rewrite Hout. apply map_base_flag_row. }
  split; [exact Hkept|].
  rewrite Hkept.
  split; [apply drop_duplicates_sublist|].
  split; [apply drop_duplicates_NoDup|].
  split; [intros k; apply drop_duplicates_first|].
  split.
  { rewrite Hdup. unfold len. rewrite Hout, length_map. reflexivity. }
  split; [apply drop_duplicates_idem|].
  intros now'.
  destruct (_clean_data_run now' (as_frame (columns df) out))
    as (st' & Hrun' & Hdup' & _).
  - eapply Forall_impl; [exact Hreq|]. intros c. apply has_col_as_frame.
  - now apply has_col_as_frame.
  - now apply has_col_as_frame.
  - assert (Hrows : List.filter critical_present (rows (as_frame (columns df) out))
                    = drop_duplicates DEDUP_KEYS df_work).
    { simpl. fold kept. rewrite Hkept.
      apply (filter_sublist_id _ (rows df)). apply drop_duplicates_sublist. }
    rewrite Hrows in Hrun', Hdup'. rewrite drop_duplicates_idem in Hrun', Hdup'.
    exists st'. split; [exact Hrun'|]. rewrite Hdup'. lia.
Qed.

Lemma clean_data_dedup_witness :
  exists out st,
    _clean_data 0 dup_frame = Ok (out, st)
    /\ length out = 1%nat
    /\ duplicates_removed st = 1%Z
    /\ forall now', exists st',
         _clean_data now' (as_frame (columns dup_frame) out)
         = Ok (List.map (flag_row now') (List.map base out), st')
         /\ duplicates_removed st' = 0%Z.
Proof.
  eexists; eexists.
  split; [vm_compute; reflexivity|].
  split; [reflexivity|].
  split; [reflexivity|].
  eapply (clean_data_dedup_first_idempotent 0 dup_frame).
  vm_compute; reflexivity.
Defined.

(** The flag does not depend on whether the warehouse hands the invoice back
    as the cell that was written or as its text. *)
Lemma fact_is_return_text_storage (r : Transform.StagingRow) :
  Transform.fact_is_return
    {| Transform.invoice := CStr (astype_str (Transform.invoice r));
       Transform.stock_code := Transform.stock_code r;
       Transform.description := Transform.description r;
       Transform.quantity := Transform.quantity r;
       Transform.invoice_date := Transform.invoice_date r;
       Transform.price := Transform.price r;
       Transform.customer_id := Transform.customer_id r;
       Transform.country := Transform.country r |}
  = Transform.fact_is_return r.
Proof. reflexivity. Qed.

(** C2: for every row, the [is_return] flag the fact builder computes on
    the row as staged equals the flag the staging cleaner computed on it,
    and the flag is true exactly when the invoice identifier converted to
    a string starts with the letter C or the quantity is strictly
    negative. *)
Theorem is_return_consistent
    (now : Z) (dimension_keys : Transform.DimensionKeys) (r : RawRow) :
  Transform.is_return (Transform.fact_row dimension_keys (Transform.to_staging r))
  = is_return (flag_row now r)
  /\ (is_return (flag_row now r) = true
      <-> (exists rest, astype_str (InvoiceNo r) = String "C" rest)
          \/ (exists q, Quantity r = Some q /\ (q < 0)%Z)).
Proof.
  split; [reflexivity|].
  simpl. unfold return_mask, startswith.
  rewrite orb_true_iff.
  assert (Hprefix : String.prefix "C" (astype_str (InvoiceNo r)) = true
                    <-> exists rest, astype_str (InvoiceNo r) = String "C" rest).
  { destruct (astype_str (InvoiceNo r)) as [|a s].
    - split; [discriminate|]. intros [rest Hrest]; discriminate.
    - change (String.prefix "C" (String a s))
        with (if ascii_dec "C" a then String.prefix "" s else false).
      destruct (ascii_dec "C" a) as [<-|Hne].
      + split; [eauto|]. intros _. now destruct s.
      + split; [discriminate|]. intros [rest [= Ha _]]. now contradict Hne. }
  assert (Hneg : match Quantity r with Some q => (q <? 0)%Z | None => false end = true
                 <-> exists q, Quantity r = Some q /\ (q < 0)%Z).
  { destruct (Quantity r) as [q|].
    - rewrite Z.ltb_lt. split; [eauto|]. now intros (q' & [= <-] & Hq).
    - split; [discriminate|]. intros (q' & Hq & _); discriminate. }
  tauto.
Qed.
End CleanerTheorems.

(** ** The drop-rate statistic of the extraction *)

Section DropRate.
Import Extract.

Lemma round_half_even_close (y : Q) :
  (Qabs (inject_Z (round_half_even y) - y) <= 1 # 2)%Q.
Proof.
  unfold round_half_even.
  pose proof (Qfloor_le y) as Hlo.
  pose proof (Qlt_floor y) as Hhi.
  rewrite inject_Z_plus in Hhi.
  change (inject_Z 1) with 1%Q in Hhi.
  apply Qabs_Qle_condition.
  destruct (Qcompare_spec (y - inject_Z (Qfloor y)) (1 # 2)) as [He|Hl|Hg].
  - destruct (Z.even (Qfloor y)).
    + split; lra.
    + rewrite inject_Z_plus. change (inject_Z 1) with 1%Q. split; lra.
  - split; lra.
  - rewrite inject_Z_plus. change (inject_Z 1) with 1%Q. split; lra.
Qed.

Lemma round2_close (x : Q) : (Qabs (round2 x - x) <= 1 # 200)%Q.
Proof.
  unfold round2.
  pose proof (round_half_even_close (x * 100)) as H.
  apply Qabs_Qle_condition in H. apply Qabs_Qle_condition.
  set (n := inject_Z (round_half_even (x * 100))) in *.
  unfold Qdiv. change (/ 100)%Q with (1 # 100)%Q.
  split; lra.
Qed.

Lemma extract_from_excel_ok (now : Z) (df_raw : Frame) out st :
  rows df_raw <> [] ->
  _clean_data now (rename df_raw) = Ok (out, st) ->
  extract_from_excel now df_raw
  = Ok (out,
        {| cleaning := st;
           initial_rows := len (rows df_raw);
           final_rows := len out;
           rows_dropped := (len (rows df_raw) - len out)%Z;
           drop_rate :=
             round2 (inject_Z (len (rows df_raw) - len out)
                     / inject_Z (len (rows df_raw)) * 100)%Q |}).
Proof.
  intros Hne Hclean. unfold extract_from_excel.
  rewrite Hclean. simpl. unfold truediv.
  destruct (Z.eqb_spec (len (rows df_raw)) 0) as [H0|H0]; [|reflexivity].
  unfold len in H0. destruct (rows df_raw); [contradiction|discriminate].
Qed.

Lemma extract_from_excel_empty (now : Z) (df_raw : Frame) out st :
  rows df_raw = [] ->
  _clean_data now (rename df_raw) = Ok (out, st) ->
  extract_from_excel now df_raw = Raise ZeroDivisionError.
Proof.
  intros Hnil Hclean. unfold extract_from_excel.
  rewrite Hclean, Hnil. reflexivity.
Qed.


End DropRate.

(** ** Fact builder: which unresolved keys drop a row *)

Section FactKeys.
Import Transform.

(** Rows that reach the fact table have their product, customer and time
    keys resolved. *)
Lemma transform_fact_sales_resolved df dimension_keys f :
  In f (transform_fact_sales df dimension_keys) ->
  is_Some (product_key f) /\ is_Some (customer_key f) /\ is_Some (time_key f).
Proof.
  unfold transform_fact_sales. intros Hin.
  apply list_elem_of_In in Hin.
  eapply elem_of_sublist in Hin; [|apply drop_duplicates_sublist].
  apply list_elem_of_In, filter_In in Hin as [_ Hkeys].
  unfold keys_present in Hkeys.
  destruct (product_key f), (customer_key f), (time_key f);
    try discriminate; eauto.
Qed.

(** C1: a staged line whose country has no entry in the country
    dictionary, its three other keys resolving, is not dropped: the fact
    builder returns it with a null [country_key]. *)
Theorem fact_keeps_unresolved_country :
  map_dict (countries run_keys) (country no_country_row) = None
  /\ exists f,
       transform_fact_sales [no_country_row] run_keys = [f]
       /\ f = fact_row run_keys no_country_row
       /\ country_key f = None
       /\ product_key f = Some 1%Z /\ customer_key f = Some 1%Z
       /\ time_key f = Some 1%Z.
Proof.
  split; [reflexivity|].
  eexists. split; [vm_compute; reflexivity|].
  repeat split; vm_compute; reflexivity.
Qed.
End FactKeys.

(** ** Product dimension: the description of a stock code *)

Section SortFacts.
Context {A : Type}.
Variable leb : A -> A -> bool.

Lemma insert_sorted_In (x y : A) (l : list A) :
  In y (insert_sorted leb x l) <-> y = x \/ In y l.
Proof.
  induction l as [|z l IH]; simpl.
  - intuition.
  - destruct (leb x z); simpl; [intuition|]. rewrite IH. intuition.
Qed.

Lemma sort_values_In (y : A) (l : list A) :
  In y (sort_values leb l) <-> In y l.
Proof.
  induction l as [|x l IH]; simpl; [reflexivity|].
  rewrite insert_sorted_In, IH. intuition.
Qed.

Hypothesis leb_total : forall a b, leb a b = true \/ leb b a = true.
Hypothesis leb_trans :
  forall a b c, leb a b = true -> leb b c = true -> leb a c = true.

(** The first value of a sorted column is a least one. *)
Lemma sort_values_head_least (l : list A) (h : A) (t : list A) :
  sort_values leb l = h :: t -> forall x, In x l -> leb h x = true.
Proof.
  revert h t; induction l as [|a l IH]; intros h t Hs x Hx; [inversion Hx|].
  simpl in Hs.
  destruct (sort_values leb l) as [|h' t'] eqn:Hsl.
  - assert (Hl : l = []).
    { destruct l as [|b l']; [reflexivity|].
      assert (Hb : In b (sort_values leb (b :: l'))).
      { apply sort_values_In. now left. }
      rewrite Hsl in Hb. inversion Hb. }
    subst l. simpl in Hs. injection Hs as <- <-.
    destruct Hx as [<-|[]]. destruct (leb_total a a); assumption.
  - simpl in Hs. destruct (leb a h') eqn:Hah; injection Hs as <- <-.
    + destruct Hx as [<-|Hx].
      * destruct (leb_total a a); assumption.
      * eapply leb_trans; [exact Hah|]. eapply IH; eauto.
    + destruct Hx as [<-|Hx].
      * destruct (leb_total h' a) as [H|H]; [exact H|congruence].
      * eapply IH; eauto.
Qed.
End SortFacts.

Lemma string_leb_trans (a b c : string) :
  String.leb a b = true -> String.leb b c = true -> String.leb a c = true.
Proof.
  assert (Hrefl : forall s, String.compare s s = Eq).
  { intros s. now apply String_as_OT.cmp_eq. }
  unfold String.leb. intros Hab Hbc.
  destruct (String.compare a b) eqn:Eab; [| |discriminate];
    destruct (String.compare b c) eqn:Ebc; try discriminate.
  - apply String_as_OT.cmp_eq in Eab, Ebc. subst. now rewrite Hrefl.
  - apply String_as_OT.cmp_eq in Eab. subst. now rewrite Ebc.
  - apply String_as_OT.cmp_eq in Ebc. subst. now rewrite Eab.
  - apply String_as_OT.cmp_lt in Eab, Ebc.
    pose proof (String_as_OT.lt_trans _ _ _ Eab Ebc) as Hac.
    apply String_as_OT.cmp_lt in Hac. unfold String_as_OT.cmp in Hac.
    now rewrite Hac.
Qed.

Section ModeFacts.
Import Transform.

Lemma drop_seen_id_In {K} `{EqDecision K} (seen l : list K) (x : K) :
  In x (drop_seen id seen l) <-> In x l /\ x ∉ seen.
Proof.
  revert seen; induction l as [|y l IH]; intros seen; simpl.
  - tauto.
  - unfold id at 1. destruct (decide (y ∈ seen)) as [Hy|Hy].
    + rewrite IH. split.
      * intros [H1 H2]. tauto.
      * intros [[<-|H1] H2]; [contradiction|tauto].
    + simpl. rewrite IH. unfold id. split.
      * intros [<-|[H1 H2]]; [tauto|].
        split; [tauto|]. intros Hs. apply H2. now apply elem_of_cons; right.
      * intros [[<-|H1] H2]; [tauto|].
        destruct (decide (x = y)) as [->|Hne]; [tauto|].
        right. split; [exact H1|].
        intros Hs. apply elem_of_cons in Hs as [?|?]; contradiction.
Qed.

Lemma drop_duplicates_id_In {K} `{EqDecision K} (l : list K) (x : K) :
  In x (drop_duplicates id l) <-> In x l.
Proof.
  unfold drop_duplicates. rewrite drop_seen_id_In.
  split; [tauto|]. intros Hx. split; [exact Hx|]. inversion 1.
Qed.

Lemma max_fold_upper {B} (f : B -> nat) (l : list B) (x : B) :
  In x l -> f x <= List.fold_right Nat.max 0 (List.map f l).
Proof.
  induction l as [|y l IH]; simpl; [tauto|].
  intros [<-|Hx]; [lia|]. specialize (IH Hx). lia.
Qed.

Lemma max_fold_attained {B} (f : B -> nat) (l : list B) :
  l <> [] -> exists x, In x l /\ f x = List.fold_right Nat.max 0 (List.map f l).
Proof.
  induction l as [|y l IH]; [congruence|]. intros _. simpl.
  destruct l as [|z l'].
  - exists y. split; [now left|]. simpl. lia.
  - destruct IH as (x & Hx & Hfx); [discriminate|].
    destruct (Nat.le_gt_cases (f y) (f x)) as [Hle|Hgt].
    + exists x. split; [now right|]. rewrite <- Hfx. lia.
    + exists y. split; [now left|]. rewrite <- Hfx. lia.
Qed.

Lemma count_pos (d : string) (vals : list string) :
  In d vals <-> 0 < count d vals.
Proof.
  unfold count. induction vals as [|v vals IH]; simpl.
  - split; [tauto|lia].
  - destruct (String.eqb_spec d v) as [->|Hne]; simpl.
    + split; [lia|tauto].
    + rewrite <- IH. split; [intros [?|?]; [congruence|assumption]|tauto].
Qed.

Lemma count_le_max (d : string) (vals : list string) :
  count d vals <= max_count vals.
Proof.
  destruct (in_dec string_dec d vals) as [Hin|Hout].
  - unfold max_count. now apply (max_fold_upper (fun d => count d vals)).
  - destruct (count d vals) eqn:Hc; [lia|].
    exfalso. apply Hout, count_pos. lia.
Qed.

(** The values [mode] selects before sorting. *)
Lemma mode_In (x : list (option string)) (d : string) :
  In d (mode x)
  <-> In d (dropna_values x)
      /\ count d (dropna_values x) = max_count (dropna_values x).
Proof.
  unfold mode. rewrite sort_values_In, filter_In, drop_duplicates_id_In.
  now rewrite Nat.eqb_eq.
Qed.

Lemma mode_nonempty (x : list (option string)) :
  dropna_values x <> [] -> mode x <> [].
Proof.
  intros Hne.
  destruct (max_fold_attained (fun d => count d (dropna_values x)) _ Hne)
    as (d & Hd & Hmax).
  assert (Hin : In d (mode x)) by (apply mode_In; split; assumption).
  intros Hnil. rewrite Hnil in Hin. inversion Hin.
Qed.

Lemma agg_description_mode (x : list (option string)) :
  dropna_values x <> [] ->
  exists d,
    agg_description x = Some d
    /\ In d (dropna_values x)
    /\ (forall d', count d' (dropna_values x) <= count d (dropna_values x))
    /\ (forall d', count d' (dropna_values x) = count d (dropna_values x) ->
                   String.leb d d' = true).
Proof.
  intros Hne. unfold agg_description.
  destruct (mode x) as [|d t] eqn:Hmode; [now apply mode_nonempty in Hne|].
  assert (Hd : In d (mode x)) by (rewrite Hmode; now left).
  apply mode_In in Hd as [Hdin Hdmax].
  exists d. split; [reflexivity|]. split; [exact Hdin|]. split.
  - intros d'. rewrite Hdmax. apply count_le_max.
  - intros d' Hd'.
    assert (Hd'in : In d' (mode x)).
    { apply mode_In. split; [|congruence].
      apply count_pos. rewrite Hd'. now apply count_pos. }
    unfold mode in Hmode, Hd'in.
    apply sort_values_In in Hd'in.
    eapply (sort_values_head_least String.leb String.leb_total string_leb_trans);
      eassumption.
Qed.

Lemma agg_description_all_null (x : list (option string)) :
  dropna_values x = [] -> agg_description x = None.
Proof.
  intros Hnil. unfold agg_description.
  destruct (mode x) as [|d t] eqn:Hmode.
  - destruct x as [|[v|] x']; [reflexivity|discriminate|reflexivity].
  - assert (Hd : In d (mode x)) by (rewrite Hmode; now left).
    apply mode_In in Hd as [Hd _]. rewrite Hnil in Hd. inversion Hd.
Qed.

Lemma group_keys_In (df : list StagingRow) (c : cell) :
  In c (group_keys df) <-> c <> CNull /\ In c (List.map stock_code df).
Proof.
  unfold group_keys.
  rewrite sort_values_In, drop_duplicates_id_In, filter_In.
  destruct c; simpl; intuition congruence.
Qed.

(** C4 (as the code has it): every non-null stock code of the staging rows
    has its row in the product dimension, and every row of that code
    carries the description aggregated over the rows of the code: when
    some description is non-null, one that occurs most often among them,
    and, of those that occur equally often, the least in string order;
    null when every description of the code is null. *)
Theorem product_description_is_least_mode
    (df : list StagingRow) (c : cell) :
  c <> CNull -> In c (List.map stock_code df) ->
  let x := group_descriptions c df in
  let vals := dropna_values x in
  (exists p, In p (transform_product_dimension df) /\ dim_stock_code p = c)
  /\ (forall p, In p (transform_product_dimension df) ->
                dim_stock_code p = c -> dim_description p = agg_description x)
  /\ (vals = [] -> agg_description x = None)
  /\ (vals <> [] ->
      exists d,
        agg_description x = Some d
        /\ In d vals
        /\ (forall d', count d' vals <= count d vals)
        /\ (forall d', count d' vals = count d vals -> String.leb d d' = true)).
Proof.
  intros Hc Hin x vals. split; [|split; [|split]].
  - exists {| dim_stock_code := c; dim_description := agg_description x |}.
    split; [|reflexivity].
    unfold transform_product_dimension. apply in_map_iff.
    exists c. split; [reflexivity|]. apply group_keys_In. now split.
  - intros p Hp Hpc. unfold transform_product_dimension in Hp.
    apply in_map_iff in Hp as (c' & <- & _). simpl in Hpc. now subst c'.
  - apply agg_description_all_null.
  - apply agg_description_mode.
Qed.

Lemma product_description_witness :
  exists d,
    agg_description (group_descriptions (CStr "A1") tied_rows) = Some d
    /\ String.leb d "B" = true.
Proof.
  destruct (product_description_is_least_mode tied_rows (CStr "A1"))
    as (_ & _ & _ & Hmode).
  - discriminate.
  - vm_compute. now left.
  - destruct Hmode as (d & Hd & _ & _ & Hleast); [discriminate|].
    exists d. split; [exact Hd|]. apply Hleast.
    vm_compute in Hd. injection Hd as <-.
    vm_compute. reflexivity.
Defined.

(** C4 as stated fails: with two descriptions tied, the product dimension
    takes the one that sorts first, not the one seen first. *)
Lemma product_description_not_first_seen :
  ~ (forall (df : list StagingRow) (c : cell),
       c <> CNull -> In c (List.map stock_code df) ->
       forall p, In p (transform_product_dimension df) ->
                 dim_stock_code p = c ->
                 dim_description p
                 = first_seen_mode (group_descriptions c df)).
Proof.
  intros H.
  specialize (H tied_rows (CStr "A1")).
  assert (Hp : In {| dim_stock_code := CStr "A1"; dim_description := Some "A" |}
                  (transform_product_dimension tied_rows)).
  { vm_compute. now left. }
  specialize (H ltac:(discriminate) ltac:(vm_compute; now left) _ Hp eq_refl).
  vm_compute in H. discriminate.
Qed.
End ModeFacts.

(** ** Fact load: truncate, then append in batches *)

Section LoadFacts.
Import Transform.
Context {Row : Type}.
Variable accepts : list Row -> list Row -> bool.

Lemma firstn_min_length (n : nat) (l : list Row) :
  firstn (Nat.min n (length l)) l = firstn n l.
Proof.
  revert n; induction l as [|x l IH]; intros [|n]; simpl; try reflexivity.
  now rewrite IH.
Qed.

Lemma firstn_iloc (df : list Row) (a s : nat) :
  firstn a df ++ iloc a (Nat.min (a + s) (length df)) df = firstn (a + s) df.
Proof.
  revert a; induction df as [|x l IH]; intros a.
  - unfold iloc. simpl. now rewrite !firstn_nil, skipn_nil, firstn_nil.
  - destruct a as [|a].
    + unfold iloc. rewrite Nat.sub_0_r. simpl firstn at 1. simpl skipn.
      simpl app. exact (firstn_min_length s (x :: l)).
    + simpl. f_equal. rewrite <- IH. f_equal.
Qed.

Lemma concat_slices (df : list Row) (step n : nat) :
  concat (List.map (fun i => iloc i (Nat.min (i + step) (length df)) df)
            (List.map (fun k => k * step) (seq 0 n)))
  = firstn (n * step) df.
Proof.
  induction n as [|n IH].
  - reflexivity.
  - rewrite seq_S, !map_app, concat_app, IH. simpl.
    rewrite app_nil_r, firstn_iloc. f_equal. lia.
Qed.

Lemma range_step_covers (stop step : nat) :
  0 < step -> stop <= (stop + step - 1) / step * step.
Proof.
  intros Hstep.
  pose proof (Nat.div_mod (stop + step - 1) step ltac:(lia)) as Hdm.
  pose proof (Nat.mod_upper_bound (stop + step - 1) step ltac:(lia)) as Hlt.
  nia.
Qed.

(** The batches, put end to end, are the data set. *)
Lemma concat_batches (df : list Row) (step : nat) :
  0 < step -> concat (batches step df) = df.
Proof.
  intros Hstep. unfold batches, range_step.
  rewrite concat_slices. apply firstn_all2. now apply range_step_covers.
Qed.

Lemma load_batches_append (starts : list nat) (step : nat) (df : list Row) :
  forall (loaded : nat) (db db' : DB Row) (current : list Row) (r : nat),
    table db = Some current ->
    load_batches accepts starts step df append loaded db = (Ok r, db') ->
    let sent :=
      List.map (fun i => iloc i (Nat.min (i + step) (length df)) df) starts in
    table db' = Some (current ++ concat sent)
    /\ executed db' = executed db ++ List.map INSERT sent
    /\ r = loaded + length (concat sent).
Proof.
  induction starts as [|i rest IH]; intros loaded db db' current r Htab Hrun.
  - simpl in Hrun. injection Hrun as <- <-. simpl.
    rewrite !app_nil_r. repeat split; [exact Htab|lia].
  - simpl in Hrun. unfold to_sql in Hrun. rewrite Htab in Hrun.
    destruct (accepts current _) eqn:Hacc; [|discriminate].
    apply (IH _ _ _ (current ++ iloc i (Nat.min (i + step) (length df)) df))
      in Hrun as (Ht & He & Hr); [|reflexivity].
    simpl in *. rewrite Ht, He, Hr.
    rewrite <- !app_assoc, length_app. simpl. repeat split. lia.
Qed.

Lemma load_batches_accepted (starts : list nat) (step : nat) (df : list Row) :
  (forall current batch, accepts current batch = true) ->
  forall (loaded : nat) (db : DB Row),
    table db <> None ->
    exists r db', load_batches accepts starts step df append loaded db = (Ok r, db').
Proof.
  intros Hacc. induction starts as [|i rest IH]; intros loaded db Htab.
  - simpl. eauto.
  - simpl. unfold to_sql.
    destruct (table db) as [current|] eqn:Ht; [|congruence].
    rewrite Hacc. apply IH. simpl. discriminate.
Qed.

(** C9 (as the code has it): a non-empty data set loaded with replace
    semantics first truncates the table and then appends the batches, in
    order; whenever the call returns, the table holds exactly the rows of
    the data set and nothing of what it held before, and the call does
    return when the table exists and the warehouse takes every batch.  An
    empty data set is guarded out: nothing is executed and the table is
    left as it was. *)
Theorem load_fact_replace (df : list Row) (db : DB Row) :
  (df <> [] ->
   (forall n db',
       load_fact accepts df replace db = (Ok n, db') ->
       table db' = Some df
       /\ n = length df
       /\ executed db'
          = executed db ++ TRUNCATE :: List.map INSERT (batches batch_size df)
       /\ concat (batches batch_size df) = df)
   /\ (table db <> None ->
       (forall current batch, accepts current batch = true) ->
       exists db', load_fact accepts df replace db = (Ok (length df), db')))
  /\ (df = [] -> load_fact accepts df replace db = (Ok 0, db)).
Proof.
  split.
  - intros Hne.
    assert (Hlen : (0 <? length df)%nat = true).
    { apply Nat.ltb_lt. destruct df; [congruence|simpl; lia]. }
    split.
    + intros n db' Hrun. unfold load_fact in Hrun. rewrite Hlen in Hrun.
      unfold truncate in Hrun.
      destruct (table db) as [old|] eqn:Hold; [|discriminate].
      destruct (load_batches _ _ _ _ _ _ _) as [[r|e] db''] eqn:Hloop;
        [|discriminate].
      injection Hrun as <- <-.
      apply (load_batches_append _ _ _ _ _ _ []) in Hloop
        as (Ht & He & _); [|reflexivity].
      fold (batches batch_size df) in Ht, He.
      rewrite concat_batches in Ht by (unfold batch_size; lia).
      simpl in Ht, He. rewrite <- app_assoc in He. simpl in He.
      repeat split; try assumption.
      apply concat_batches. unfold batch_size; lia.
    + intros Htab Hacc. unfold load_fact. rewrite Hlen. unfold truncate.
      destruct (table db) as [old|] eqn:Hold; [|congruence].
      destruct (load_batches_accepted (range_step (length df) batch_size)
                  batch_size df Hacc 0
                  {| table := Some []; executed := executed db ++ [TRUNCATE] |})
        as (r & db' & Hloop); [discriminate|].
      rewrite Hloop. eauto.
  - intros ->. reflexivity.
Qed.
End LoadFacts.

Lemma load_fact_replace_witness :
  exists db',
    Transform.load_fact accept_all [old_fact; old_fact] Transform.replace loaded_db
    = (Ok 2, db')
    /\ Transform.table db' = Some [old_fact; old_fact].
Proof.
  destruct (proj1 (load_fact_replace accept_all [old_fact; old_fact] loaded_db))
    as [Hpost Hruns]; [discriminate|].
  destruct Hruns as [db' Hrun]; [discriminate|reflexivity|].
  exists db'. split; [exact Hrun|]. now apply Hpost in Hrun.
Defined.

(** C9 as stated fails on the empty data set: the load returns normally and
    the table still holds the earlier rows. *)
Lemma load_fact_empty_keeps_old :
  ~ (forall (df : list Transform.FactRow) (db db' : Transform.DB Transform.FactRow)
            (n : nat),
        Transform.load_fact accept_all df Transform.replace db = (Ok n, db') ->
        Transform.table db' = Some df).
Proof.
  intros H.
  specialize (H [] loaded_db loaded_db 0 eq_refl).
  discriminate.
Qed.

(** ** Quality rule engine *)

Section QualityChecks.
Import DataQuality.

Lemma run_category_spec (conn : Conn) (checks : list Check) (s : Summary) :
  run_category conn checks s
  = (List.map (run_quality_check conn) checks,
     List.fold_left update_summary (List.map (run_quality_check conn) checks) s).
Proof.
  unfold run_category.
  enough (Hgen : forall acc s0,
             List.fold_left
               (fun acc check =>
                  let r := run_quality_check conn check in
                  (fst acc ++ [r], update_summary (snd acc) r))
               checks (acc, s0)
             = (acc ++ List.map (run_quality_check conn) checks,
                List.fold_left update_summary
                  (List.map (run_quality_check conn) checks) s0))
    by apply (Hgen [] s).
  induction checks as [|c cs IH]; intros acc s0; simpl.
  - now rewrite app_nil_r.
  - rewrite IH. now rewrite <- app_assoc.
Qed.

(** The report lists, category by category and in order, the result of
    every check; the summary folds over all of them. *)
Lemma run_all_checks_spec (conn : Conn) :
  check_categories (run_all_checks conn)
  = List.map (fun cat => (fst cat, List.map (run_quality_check conn) (snd cat)))
      quality_rules
  /\ summary (run_all_checks conn)
     = List.fold_left update_summary
         (List.map (run_quality_check conn) all_checks) initial_summary.
Proof.
  enough (Hgen : forall (rules : list (string * list Check))
                        (acc : list (string * list CheckResult)) (s0 : Summary),
             List.fold_left
               (fun acc cat =>
                  let done := run_category conn (snd cat) (snd acc) in
                  (fst acc ++ [(fst cat, fst done)], snd done))
               rules (acc, s0)
             = (acc ++ List.map
                  (fun cat => (fst cat, List.map (run_quality_check conn) (snd cat)))
                  rules,
                List.fold_left update_summary
                  (List.map (run_quality_check conn)
                     (List.concat (List.map snd rules))) s0)).
  { pose proof (Hgen quality_rules [] initial_summary) as H.
    unfold run_all_checks, initial_summary in *.
    cbv zeta in H |- *. cbn [check_categories summary].
    rewrite H. split; reflexivity. }
  induction rules as [|cat rules IH]; intros acc s0; simpl.
  - now rewrite app_nil_r.
  - rewrite run_category_spec. simpl. rewrite IH.
    rewrite <- app_assoc, map_app, fold_left_app. reflexivity.
Qed.

Lemma update_summary_total (rs : list CheckResult) (s : Summary) :
  total_checks (List.fold_left update_summary rs s) = total_checks s + length rs.
Proof.
  revert s; induction rs as [|r rs IH]; intros s; simpl; [lia|].
  rewrite IH. simpl. lia.
Qed.

Lemma critical_failures_mono (rs : list CheckResult) (s : Summary) :
  critical_failures s <= critical_failures (List.fold_left update_summary rs s).
Proof.
  revert s; induction rs as [|r rs IH]; intros s; simpl; [lia|].
  etransitivity; [|apply IH]. simpl.
  destruct (passed r), (res_critical r); lia.
Qed.

Lemma critical_failure_counted (rs : list CheckResult) (s : Summary) (r : CheckResult) :
  In r rs -> passed r = false -> res_critical r = true ->
  0 < critical_failures (List.fold_left update_summary rs s).
Proof.
  revert s; induction rs as [|r' rs IH]; intros s Hin Hp Hc; [inversion Hin|].
  simpl. destruct Hin as [->|Hin]; [|now apply IH].
  eapply Nat.lt_le_trans; [|apply critical_failures_mono].
  simpl. rewrite Hp, Hc. lia.
Qed.

Lemma run_quality_check_labels (conn : Conn) (check : Check) :
  check_name (run_quality_check conn check) = name check
  /\ res_critical (run_quality_check conn check) = critical check.
Proof.
  unfold run_quality_check.
  destruct (conn (query check)) as [fetched|e]; simpl; [|now split].
  destruct (_evaluate_check_result check (default ∅ fetched)); now split.
Qed.

Lemma run_quality_check_raises (conn : Conn) (check : Check) (e : exn) :
  conn (query check) = Raise e ->
  run_quality_check conn check = failed_result check e.
Proof. intros Hq. unfold run_quality_check. now rewrite Hq. Qed.

Lemma run_quality_check_eval_raises (conn : Conn) (check : Check) fetched (e : exn) :
  conn (query check) = Ok fetched ->
  _evaluate_check_result check (default ∅ fetched) = Raise e ->
  run_quality_check conn check = failed_result check e.
Proof.
  intros Hq He. unfold run_quality_check. rewrite Hq. simpl.
  now rewrite He.
Qed.

(** C8: a check whose query raises, or whose evaluation raises, is
    recorded as failed with its name, its critical flag and the error; and
    [run_all_checks] returns a report that holds, category by category, the
    result of each of the seven checks, whatever any of them raised. *)
Theorem failing_check_recorded_batch_completes (conn : Conn) :
  (forall check e,
      conn (query check) = Raise e ->
      let r := run_quality_check conn check in
      r = failed_result check e
      /\ check_name r = name check /\ passed r = false
      /\ res_critical r = critical check /\ error r = Some e)
  /\ (forall check fetched e,
        conn (query check) = Ok fetched ->
        _evaluate_check_result check (default ∅ fetched) = Raise e ->
        run_quality_check conn check = failed_result check e)
  /\ check_categories (run_all_checks conn)
     = List.map (fun cat => (fst cat, List.map (run_quality_check conn) (snd cat)))
         quality_rules
  /\ total_checks (summary (run_all_checks conn)) = 7
  /\ length all_checks = 7.
Proof.
  split; [|split; [|split; [|split]]].
  - intros check e Hq r. unfold r.
    rewrite (run_quality_check_raises _ _ _ Hq). repeat split.
  - apply run_quality_check_eval_raises.
  - apply run_all_checks_spec.
  - rewrite (proj2 (run_all_checks_spec conn)), update_summary_total.
    rewrite length_map. reflexivity.
  - reflexivity.
Qed.

Lemma failing_check_recorded_witness :
  passed (run_quality_check conn_freshness_down data_freshness) = false
  /\ error (run_quality_check conn_freshness_down data_freshness)
     = Some (DatabaseError "connection lost")
  /\ total_checks (summary (run_all_checks conn_freshness_down)) = 7.
Proof.
  destruct (failing_check_recorded_batch_completes conn_freshness_down)
    as (Hraise & _ & _ & Htotal & _).
  destruct (Hraise data_freshness (DatabaseError "connection lost") eq_refl)
    as (_ & _ & Hp & _ & He).
  split; [exact Hp|]. split; [exact He|exact Htotal].
Defined.

Lemma row_count_get (res : gmap string sqlval) (k : string) (v : sqlval) :
  res !! k = Some v -> get res k 0 = v.
Proof. intros H. unfold get. now rewrite H. Qed.

Lemma row_count_evaluate (res : gmap string sqlval) (raw fact : Q) :
  res !! "raw_count" = Some (VNum raw) ->
  res !! "fact_count" = Some (VNum fact) ->
  (0 < raw)%Q ->
  _evaluate_check_result row_count_validation res
  = Ok (Qle_bool (95 # 100) (fact / raw)).
Proof.
  intros Hraw Hfact Hpos.
  unfold _evaluate_check_result. simpl name. simpl String.eqb. cbv iota.
  rewrite (row_count_get _ _ _ Hraw), (row_count_get _ _ _ Hfact).
  simpl eq_zero.
  destruct (Qeq_bool raw 0) eqn:Hz.
  - apply Qeq_bool_iff in Hz. rewrite Hz in Hpos. now apply Qlt_irrefl in Hpos.
  - reflexivity.
Qed.

(** C7: with a positive raw row count the row-count-validation check
    passes if and only if fact_row_count / raw_row_count >= 0.95; with
    1000 raw rows and 940 fact rows it fails, and, the check being
    critical, the report of [run_all_checks] has overall status
    CRITICAL_FAILURE. *)
Theorem row_count_validation_rule
    (res : gmap string sqlval) (raw fact : Q) :
  res !! "raw_count" = Some (VNum raw) ->
  res !! "fact_count" = Some (VNum fact) ->
  (0 < raw)%Q ->
  (exists b,
      _evaluate_check_result row_count_validation res = Ok b
      /\ (b = true <-> (95 # 100 <= fact / raw)%Q))
  /\ ((raw == 1000)%Q -> (fact == 940)%Q ->
      _evaluate_check_result row_count_validation res = Ok false
      /\ critical row_count_validation = true
      /\ forall conn : Conn,
           conn (query row_count_validation) = Ok (Some res) ->
           passed (run_quality_check conn row_count_validation) = false
           /\ overall_status (run_all_checks conn) = CRITICAL_FAILURE).
Proof.
  intros Hraw Hfact Hpos.
  pose proof (row_count_evaluate res raw fact Hraw Hfact Hpos) as Heval.
  split.
  - eexists. split; [exact Heval|]. apply Qle_bool_iff.
  - intros Hr Hf.
    assert (Hfail : Qle_bool (95 # 100) (fact / raw) = false).
    { destruct (Qle_bool _ _) eqn:Hle; [|reflexivity].
      apply Qle_bool_iff in Hle. rewrite Hr, Hf in Hle.
      now vm_compute in Hle. }
    rewrite Hfail in Heval.
    split; [exact Heval|]. split; [reflexivity|].
    intros conn Hq.
    assert (Hres : passed (run_quality_check conn row_count_validation) = false).
    { unfold run_quality_check. rewrite Hq. simpl default.
      change (mbind ?f ?m) with (rbind m f). simpl rbind.
      rewrite Heval. reflexivity. }
    split; [exact Hres|].
    pose proof (proj2 (run_all_checks_spec conn)) as Hsum.
    assert (Hstatus : overall_status (run_all_checks conn)
                      = if (0 <? critical_failures (summary (run_all_checks conn)))%nat
                        then CRITICAL_FAILURE
                        else if (0 <? failed_checks (summary (run_all_checks conn)))%nat
                             then WARNING else PASS) by reflexivity.
    rewrite Hstatus, Hsum.
    assert (Hcrit : 0 < critical_failures
                          (List.fold_left update_summary
                             (List.map (run_quality_check conn) all_checks)
                             initial_summary)).
    { apply (critical_failure_counted _ _
               (run_quality_check conn row_count_validation)).
      - apply in_map. unfold all_checks. simpl. tauto.
      - exact Hres.
      - now rewrite (proj2 (run_quality_check_labels conn row_count_validation)). }
    apply Nat.ltb_lt in Hcrit. now rewrite Hcrit.
Qed.

Lemma row_count_validation_witness :
  _evaluate_check_result row_count_validation counts_940_of_1000 = Ok false
  /\ overall_status (run_all_checks conn_940_of_1000) = CRITICAL_FAILURE.
Proof.
  destruct (row_count_validation_rule counts_940_of_1000 1000 940)
    as [_ Hcase].
  - reflexivity.
  - reflexivity.
  - reflexivity.
  - destruct Hcase as (Heval & _ & Hall); [reflexivity|reflexivity|].
    split; [exact Heval|]. now apply Hall.
Defined.
End QualityChecks.

(** ** Anomaly scorer: daily sales outliers *)

Section QuantileFacts.
Import Monitoring.

Lemma insert_sorted_Qle (x : Q) (l : list Q) :
  StronglySorted Qle l -> StronglySorted Qle (insert_sorted Qle_bool x l).
Proof.
  induction 1 as [|y l Hl IH Hy]; simpl.
  - constructor; constructor.
  - destruct (Qle_bool x y) eqn:Hxy.
    + apply Qle_bool_iff in Hxy.
      constructor; [now constructor|].
      constructor; [exact Hxy|].
      eapply Forall_impl; [exact Hy|].
      intros z Hz. simpl in Hz. now apply Qle_trans with y.
    + assert (Hyx : (y <= x)%Q).
      { apply Qlt_le_weak, Qnot_le_lt. intros Hle.
        apply Qle_bool_iff in Hle. congruence. }
      constructor; [exact IH|].
      apply List.Forall_forall. intros z Hz.
      apply insert_sorted_In in Hz as [->|Hz]; [exact Hyx|].
      now apply (proj1 (List.Forall_forall _ _) Hy).
Qed.

Lemma sort_values_Qle (l : list Q) :
  StronglySorted Qle (sort_values Qle_bool l).
Proof.
  induction l as [|x l IH]; simpl; [constructor|].
  now apply insert_sorted_Qle.
Qed.

Lemma sort_values_length {A} (leb : A -> A -> bool) (l : list A) :
  length (sort_values leb l) = length l.
Proof.
  induction l as [|x l IH]; simpl; [reflexivity|].
  rewrite <- IH. generalize (sort_values leb l). intros s.
  induction s as [|y s IHs]; simpl; [reflexivity|].
  destruct (leb x y); simpl; [reflexivity|now rewrite IHs].
Qed.

Lemma sorted_nth_mono (s : list Q) (d : Q) :
  StronglySorted Qle s ->
  forall i j, (i <= j)%nat -> (j < length s)%nat ->
              (nth i s d <= nth j s d)%Q.
Proof.
  induction 1 as [|y l Hl IH Hy]; intros i j Hij Hj; simpl in Hj; [lia|].
  destruct j as [|j].
  - assert (i = 0)%nat as -> by lia. apply Qle_refl.
  - destruct i as [|i]; simpl.
    + apply (proj1 (List.Forall_forall _ _) Hy). apply nth_In. lia.
    + apply IH; lia.
Qed.

(** Position of a quantile in a sorted, non-empty column. *)
Lemma rank_bounds (n : Z) (q : Q) :
  (1 <= n)%Z -> (0 <= q)%Q -> (q <= 1)%Q ->
  let h := (q * inject_Z (n - 1))%Q in
  (0 <= Qfloor h <= n - 1)%Z
  /\ (0 <= h - inject_Z (Qfloor h))%Q /\ (h - inject_Z (Qfloor h) <= 1)%Q.
Proof.
  intros Hn Hq0 Hq1 h.
  assert (Hm : (0 <= inject_Z (n - 1))%Q).
  { change 0%Q with (inject_Z 0). rewrite <- Zle_Qle. lia. }
  assert (Hh0 : (0 <= h)%Q) by (unfold h; nra).
  assert (Hh1 : (h <= inject_Z (n - 1))%Q) by (unfold h; nra).
  pose proof (Qfloor_le h) as Hlo.
  pose proof (Qlt_floor h) as Hhi.
  rewrite inject_Z_plus in Hhi. change (inject_Z 1) with 1%Q in Hhi.
  split; [split|split; lra].
  - change 0%Z with (Qfloor (inject_Z 0)). now apply Qfloor_resp_le.
  - rewrite <- (Qfloor_Z (n - 1)). now apply Qfloor_resp_le.
Qed.

Lemma interpolate_mono (s : list Q) (d : Q) (q1 q2 : Q) :
  StronglySorted Qle s -> s <> [] ->
  (0 <= q1)%Q -> (q1 <= q2)%Q -> (q2 <= 1)%Q ->
  (interpolate s d q1 <= interpolate s d q2)%Q.
Proof.
  intros Hs Hne H0 H12 H1.
  assert (Hn : (1 <= Z.of_nat (length s))%Z).
  { destruct s; [congruence|simpl; lia]. }
  unfold interpolate. cbv zeta.
  set (n := Z.of_nat (length s)) in *.
  destruct (rank_bounds n q1 Hn H0 ltac:(lra)) as ([Hi1 Hi1'] & Hg1 & Hg1').
  destruct (rank_bounds n q2 Hn ltac:(lra) H1) as ([Hi2 Hi2'] & Hg2 & Hg2').
  assert (Hm : (0 <= inject_Z (n - 1))%Q).
  { change 0%Q with (inject_Z 0). rewrite <- Zle_Qle. lia. }
  assert (Hh : (q1 * inject_Z (n - 1) <= q2 * inject_Z (n - 1))%Q) by nra.
  pose proof (Qfloor_resp_le _ _ Hh) as Hi12.
  set (h1 := (q1 * inject_Z (n - 1))%Q) in *.
  set (h2 := (q2 * inject_Z (n - 1))%Q) in *.
  set (i1 := Qfloor h1) in *. set (i2 := Qfloor h2) in *.
  assert (Hnth : forall a b : Z,
             (0 <= a <= b)%Z -> (b <= n - 1)%Z ->
             (nth (Z.to_nat a) s d <= nth (Z.to_nat b) s d)%Q).
  { intros a b Hab Hb. apply sorted_nth_mono; [exact Hs|lia|]. unfold n in Hb. lia. }
  pose proof (Hnth i1 (Z.min (i1 + 1) (n - 1)) ltac:(lia) ltac:(lia)) as HLU1.
  pose proof (Hnth i2 (Z.min (i2 + 1) (n - 1)) ltac:(lia) ltac:(lia)) as HLU2.
  destruct (Z.eq_dec i1 i2) as [Heq|Hneq].
  - rewrite <- Heq in *.
    set (L := nth (Z.to_nat i1) s d) in *.
    set (U := nth (Z.to_nat (Z.min (i1 + 1) (n - 1))) s d) in *.
    assert (Hg : (h1 - inject_Z i1 <= h2 - inject_Z i1)%Q) by lra.
    nra.
  - pose proof (Hnth (Z.min (i1 + 1) (n - 1)) i2 ltac:(lia) ltac:(lia)) as HUL.
    set (L1 := nth (Z.to_nat i1) s d) in *.
    set (U1 := nth (Z.to_nat (Z.min (i1 + 1) (n - 1))) s d) in *.
    set (L2 := nth (Z.to_nat i2) s d) in *.
    set (U2 := nth (Z.to_nat (Z.min (i2 + 1) (n - 1))) s d) in *.
    assert (Hv1 : (L1 + (h1 - inject_Z i1) * (U1 - L1) <= U1)%Q) by nra.
    assert (Hv2 : (L2 <= L2 + (h2 - inject_Z i2) * (U2 - L2))%Q) by nra.
    lra.
Qed.

Lemma quantile_some (xs : list Q) (q : Q) :
  xs <> [] -> exists v, quantile xs q = Some v.
Proof.
  intros Hne. unfold quantile.
  destruct (sort_values Qle_bool xs) as [|x0 s] eqn:Hs; [|eauto].
  apply (f_equal (@length Q)) in Hs. rewrite sort_values_length in Hs.
  destruct xs; [congruence|discriminate].
Qed.

Lemma quantile_mono (xs : list Q) (q1 q2 v1 v2 : Q) :
  (0 <= q1)%Q -> (q1 <= q2)%Q -> (q2 <= 1)%Q ->
  quantile xs q1 = Some v1 -> quantile xs q2 = Some v2 -> (v1 <= v2)%Q.
Proof.
  intros H0 H12 H1. unfold quantile.
  pose proof (sort_values_Qle xs) as Hs.
  destruct (sort_values Qle_bool xs) as [|x0 s]; [discriminate|].
  intros [= <-] [= <-]. now apply interpolate_mono.
Qed.

Lemma bounds_ordered (sales : list Q) (lower_bound upper_bound : Q) :
  bounds sales = Some (lower_bound, upper_bound) ->
  exists q25 q75,
    quantile sales (25 # 100) = Some q25
    /\ quantile sales (75 # 100) = Some q75
    /\ lower_bound = (q25 - (15 # 10) * (q75 - q25))%Q
    /\ upper_bound = (q75 + (15 # 10) * (q75 - q25))%Q
    /\ (lower_bound <= upper_bound)%Q.
Proof.
  unfold bounds.
  destruct (quantile sales (25 # 100)) as [q25|] eqn:H25; [|discriminate].
  destruct (quantile sales (75 # 100)) as [q75|] eqn:H75; [|discriminate].
  intros [= <- <-]. exists q25, q75.
  repeat split.
  assert (Hq : (q25 <= q75)%Q).
  { eapply (quantile_mono sales (25 # 100) (75 # 100)); eauto; lra. }
  lra.
Qed.

Lemma Qltb_lt (x y : Q) : Qltb x y = true <-> (x < y)%Q.
Proof.
  unfold Qltb. rewrite negb_true_iff. split.
  - intros H. apply Qnot_le_lt. intros Hle.
    apply Qle_bool_iff in Hle. congruence.
  - intros H. destruct (Qle_bool y x) eqn:E; [|reflexivity].
    apply Qle_bool_iff in E. lra.
Qed.

Lemma Qltb_ge (x y : Q) : Qltb x y = false <-> (y <= x)%Q.
Proof.
  unfold Qltb. rewrite negb_false_iff. apply Qle_bool_iff.
Qed.


End QuantileFacts.

(** ** Anomaly scorer: missing customer rate *)

Section MissingCustomerRate.
Import Monitoring.

Lemma py_max_Qmax (a b : Q) : (py_max a b == Qmax a b)%Q.
Proof.
  unfold py_max. destruct (Qltb a b) eqn:H.
  - apply Qltb_lt in H. symmetry. apply Q.max_r. lra.
  - apply Qltb_ge in H. symmetry. now apply Q.max_l.
Qed.

Lemma Qle_bool_false (x y : Q) : Qle_bool x y = false <-> (y < x)%Q.
Proof.
  split.
  - intros H. apply Qnot_le_lt. intros Hle. apply Qle_bool_iff in Hle. congruence.
  - intros H. destruct (Qle_bool x y) eqn:E; [|reflexivity].
    apply Qle_bool_iff in E. lra.
Qed.


End MissingCustomerRate.

(** * Further properties of the stages *)

(** ** Staging cleaner: columns, row invariants and statistics *)

Section CleanerMore.
Import Extract.

Lemma has_col_In (df : Frame) (c : string) :
  has_col df c = true <-> In c (columns df).
Proof.
  unfold has_col. rewrite bool_decide_eq_true. apply list_elem_of_In.
Qed.

Lemma sublist_filter_length {A} (f : A -> bool) (l1 l2 : list A) :
  sublist l1 l2 -> length (List.filter f l1) <= length (List.filter f l2).
Proof.
  induction 1 as [|x l1 l2 _ IH|x l1 l2 _ IH]; simpl.
  - lia.
  - destruct (f x); simpl; lia.
  - destruct (f x); simpl; lia.
Qed.

Lemma _clean_data_kept_NoDup
    (now : Z) (df : Frame) (out : list CleanRow) (st : CleanStats) :
  _clean_data now df = Ok (out, st) ->
  NoDup (List.map DEDUP_KEYS (List.map base out)).
Proof.
  intros Hrun.
  apply _clean_data_ok in Hrun as (_ & _ & _ & Hout & _).
  rewrite Hout, map_base_flag_row. apply drop_duplicates_NoDup.
Qed.

Lemma _clean_data_returns_iff (now : Z) (df : Frame) :
  (exists out st, _clean_data now df = Ok (out, st))
  <-> forall c, In c (required_cols ++ ["UnitPrice"; "Quantity"]) ->
                In c (columns df).
Proof.
  split.
  - intros (out & st & Hrun).
    apply _clean_data_ok in Hrun as (Hreq & HU & HQ & _).
    intros c Hc. apply in_app_or in Hc as [Hc|[<-|[<-|[]]]].
    + apply has_col_In. now apply (proj1 (List.Forall_forall _ _) Hreq).
    + now apply has_col_In.
    + now apply has_col_In.
  - intros Hall.
    destruct (_clean_data_run now df) as (st & Hrun & _).
    + apply List.Forall_forall. intros c Hc. apply has_col_In, Hall.
      apply in_or_app. now left.
    + apply has_col_In, Hall. apply in_or_app. right. simpl. tauto.
    + apply has_col_In, Hall. apply in_or_app. right. simpl. tauto.
    + eauto.
Qed.

(** X1: on a frame whose column labels are pairwise distinct (numeric
    Quantity and UnitPrice, both nullable), the cleaner returns exactly
    when the four required columns, UnitPrice and Quantity are all
    present, whatever the values of the rows.  Otherwise it raises:
    ValueError listing exactly the absent required columns when there is
    one, else KeyError for UnitPrice, else KeyError for Quantity. *)
Theorem clean_data_column_errors (now : Z) (df : Frame) :
  NoDup (columns df) ->
  let missing := List.filter (fun c => negb (has_col df c)) required_cols in
  (forall c, In c missing <-> In c required_cols /\ ~ In c (columns df))
  /\ (missing <> [] -> _clean_data now df = Raise (ValueError missing))
  /\ (missing = [] -> ~ In "UnitPrice" (columns df) ->
      _clean_data now df = Raise (KeyError "UnitPrice"))
  /\ (missing = [] -> In "UnitPrice" (columns df) ->
      ~ In "Quantity" (columns df) ->
      _clean_data now df = Raise (KeyError "Quantity"))
  /\ ((exists out st, _clean_data now df = Ok (out, st))
      <-> forall c, In c (required_cols ++ ["UnitPrice"; "Quantity"]) ->
                    In c (columns df)).
Proof.
  intros _ missing. split; [|split; [|split; [|split]]].
  - intros c. unfold missing. rewrite filter_In, negb_true_iff.
    rewrite <- has_col_In. destruct (has_col df c); intuition congruence.
  - intros Hne. unfold _clean_data. fold missing.
    destruct missing; [congruence|reflexivity].
  - intros Hnil HU. unfold _clean_data. fold missing. rewrite Hnil.
    unfold getitem. destruct (has_col df "UnitPrice") eqn:E; [|reflexivity].
    apply has_col_In in E. contradiction.
  - intros Hnil HU HQ. unfold _clean_data. fold missing. rewrite Hnil.
    unfold getitem. apply has_col_In in HU. rewrite HU. simpl.
    destruct (has_col df "Quantity") eqn:E; [|reflexivity].
    apply has_col_In in E. contradiction.
  - apply _clean_data_returns_iff.
Qed.

Lemma clean_data_column_errors_witness :
  _clean_data 0 {| columns := ["InvoiceNo"; "StockCode"; "Quantity"; "UnitPrice"];
                   rows := [hd_dup_row] |}
  = Raise (ValueError ["InvoiceDate"; "CustomerID"]).
Proof.
  refine (proj1 (proj2 (clean_data_column_errors 0
            {| columns := ["InvoiceNo"; "StockCode"; "Quantity"; "UnitPrice"];
               rows := [hd_dup_row] |} _)) _).
  - apply (bool_decide_unpack _). vm_compute. exact I.
  - vm_compute. discriminate.
Defined.

Lemma _clean_data_split
    (now : Z) (df : Frame) (out : list CleanRow) (st : CleanStats) :
  _clean_data now df = Ok (out, st) ->
  (len (rows df) = len out + null_drops st + duplicates_removed st)%Z
  /\ (0 <= null_drops st)%Z /\ (0 <= duplicates_removed st)%Z.
Proof.
  intros Hrun.
  pose proof (_clean_data_ok _ _ _ _ Hrun) as (_ & _ & _ & Hout & Hdup & Hnull).
  set (df_work := List.filter critical_present (rows df)) in *.
  assert (Hlen1 : (len out <= len df_work)%Z).
  { unfold len. rewrite Hout, length_map.
    pose proof (sublist_length _ _ (drop_duplicates_sublist DEDUP_KEYS df_work)).
    lia. }
  assert (Hlen2 : (len df_work <= len (rows df))%Z).
  { unfold len, df_work.
    pose proof (List.filter_length_le critical_present (rows df)). lia. }
  repeat split; lia.
Qed.

Lemma _clean_data_kept_present
    (now : Z) (df : Frame) (out : list CleanRow) (st : CleanStats) :
  _clean_data now df = Ok (out, st) ->
  forall c, In c out ->
    In (base c) (rows df)
    /\ CustomerID (base c) <> None /\ StockCode (base c) <> CNull
    /\ InvoiceDate (base c) <> None.
Proof.
  intros Hrun c Hc.
  pose proof (_clean_data_ok _ _ _ _ Hrun) as (_ & _ & _ & Hout & _).
  rewrite Hout in Hc. apply in_map_iff in Hc as (r & <- & Hr). simpl.
  apply list_elem_of_In in Hr.
  pose proof (drop_duplicates_sublist DEDUP_KEYS
                (List.filter critical_present (rows df))) as Hsub.
  apply (elem_of_sublist _ _ _ Hr) in Hsub.
  apply list_elem_of_In, filter_In in Hsub as [Hin Hcrit].
  unfold critical_present in Hcrit.
  destruct (CustomerID r), (StockCode r), (InvoiceDate r);
    simpl in Hcrit; try discriminate; repeat split; auto; discriminate.
Qed.



Lemma round_half_even_range (y : Q) (lo hi : Z) :
  (inject_Z lo <= y)%Q -> (y <= inject_Z hi)%Q ->
  (lo <= round_half_even y <= hi)%Z.
Proof.
  intros Hlo Hhi.
  pose proof (round_half_even_close y) as Hc.
  apply Qabs_Qle_condition in Hc as [Hc1 Hc2].
  split.
  - assert (H : (inject_Z (lo - 1) < inject_Z (round_half_even y))%Q).
    { replace (lo - 1)%Z with (lo + -1)%Z by lia.
      rewrite inject_Z_plus. change (inject_Z (-1)) with (- (1))%Q. lra. }
    rewrite <- Zlt_Qlt in H. lia.
  - assert (H : (inject_Z (round_half_even y) < inject_Z (hi + 1))%Q).
    { rewrite inject_Z_plus. change (inject_Z 1) with 1%Q. lra. }
    rewrite <- Zlt_Qlt in H. lia.
Qed.

Lemma round2_range (x : Q) :
  (0 <= x)%Q -> (x <= 100)%Q -> (0 <= round2 x)%Q /\ (round2 x <= 100)%Q.
Proof.
  intros H0 H100. unfold round2.
  destruct (round_half_even_range (x * 100) 0 10000) as [Hlo Hhi].
  - change (inject_Z 0) with 0%Q. lra.
  - change (inject_Z 10000) with 10000%Q. lra.
  - rewrite Zle_Qle in Hlo, Hhi.
    change (inject_Z 0) with 0%Q in Hlo.
    change (inject_Z 10000) with 10000%Q in Hhi.
    unfold Qdiv. change (/ 100)%Q with (1 # 100)%Q. split; lra.
Qed.

Lemma extract_from_excel_final
    (now : Z) (df_raw : Frame) (out : list CleanRow) (stats : ExtractStats) :
  extract_from_excel now df_raw = Ok (out, stats) ->
  rows df_raw <> [] /\ final_rows stats = len out.
Proof.
  intros Hrun. unfold extract_from_excel in Hrun.
  destruct (_clean_data now (rename df_raw)) as [[out' st]|e] eqn:Hclean;
    [|discriminate].
  simpl in Hrun. unfold truediv in Hrun.
  destruct (Z.eqb_spec (len (rows df_raw)) 0) as [H0|H0]; [discriminate|].
  simpl in Hrun. injection Hrun as <- <-. simpl.
  split; [intros Hnil; rewrite Hnil in H0; now apply H0|reflexivity].
Qed.

(** X3: when [extract_from_excel] returns, the source had at least one
    row, [rows_dropped] is the sum of the null drops and the duplicates
    removed, the initial rows split into the final rows and the dropped
    ones, and [drop_rate] lies between 0 and 100. *)
Theorem extract_stats_consistent
    (now : Z) (df_raw : Frame) (out : list CleanRow) (stats : ExtractStats) :
  extract_from_excel now df_raw = Ok (out, stats) ->
  rows df_raw <> []
  /\ initial_rows stats = len (rows df_raw)
  /\ final_rows stats = len out
  /\ (initial_rows stats = final_rows stats + rows_dropped stats)%Z
  /\ (rows_dropped stats
      = null_drops (cleaning stats) + duplicates_removed (cleaning stats))%Z
  /\ (0 <= rows_dropped stats <= initial_rows stats)%Z
  /\ (0 <= drop_rate stats)%Q /\ (drop_rate stats <= 100)%Q.
Proof.
  intros Hrun. unfold extract_from_excel in Hrun.
  destruct (_clean_data now (rename df_raw)) as [[out' st]|e] eqn:Hclean;
    [|discriminate].
  simpl in Hrun. unfold truediv in Hrun.
  destruct (Z.eqb_spec (len (rows df_raw)) 0) as [H0|H0]; [discriminate|].
  simpl in Hrun. injection Hrun as <- <-. simpl.
  pose proof (_clean_data_split _ _ _ _ Hclean)
    as (Hsplit & Hn & Hd). simpl in Hsplit.
  assert (Hpos : (0 < len (rows df_raw))%Z) by (unfold len in *; lia).
  assert (Hout : (0 <= len out')%Z) by (unfold len; lia).
  split; [intros Hnil; rewrite Hnil in H0; now apply H0|].
  assert (Hden : (0 < inject_Z (len (rows df_raw)))%Q).
  { change 0%Q with (inject_Z 0). rewrite <- Zlt_Qlt. lia. }
  assert (Hfrac0 : (0 <= inject_Z (len (rows df_raw) - len out')
                        / inject_Z (len (rows df_raw)))%Q).
  { apply Qle_shift_div_l; [exact Hden|].
    rewrite Qmult_0_l. change 0%Q with (inject_Z 0). rewrite <- Zle_Qle. lia. }
  assert (Hfrac1 : (inject_Z (len (rows df_raw) - len out')
                    / inject_Z (len (rows df_raw)) <= 1)%Q).
  { apply Qle_shift_div_r; [exact Hden|].
    rewrite Qmult_1_l. rewrite <- Zle_Qle. lia. }
  destruct (round2_range
              (inject_Z (len (rows df_raw) - len out')
               / inject_Z (len (rows df_raw)) * 100)) as [Hr0 Hr100]; [lra|lra|].
  repeat split; try lia; assumption.
Qed.

Lemma extract_stats_consistent_witness :
  exists out stats,
    extract_from_excel 0 dup_frame = Ok (out, stats)
    /\ (rows_dropped stats = 1)%Z.
Proof.
  eexists; eexists. split; [vm_compute; reflexivity|].
  match goal with
  | |- rows_dropped ?s = _ =>
      destruct (extract_stats_consistent 0 dup_frame
                  (List.map (flag_row 0) [hd_dup_row]) s)
        as (_ & _ & _ & _ & Hsum & _)
  end.
  - vm_compute. reflexivity.
  - rewrite Hsum. reflexivity.
Defined.
End CleanerMore.


(** ** Batch loads: staging and fact tables *)

Section BatchLoads.
Import Transform.
Context {Row : Type}.
Variable accepts : list Row -> list Row -> bool.

Lemma range_step_below (stop step k : nat) :
  0 < step -> k < (stop + step - 1) / step -> k * step < stop.
Proof.
  intros Hstep Hk.
  pose proof (Nat.div_mod (stop + step - 1) step ltac:(lia)) as Hdm.
  pose proof (Nat.mod_upper_bound (stop + step - 1) step ltac:(lia)) as Hlt.
  nia.
Qed.

Lemma iloc_length (df : list Row) (i j : nat) :
  length (iloc i j df) = Nat.min (j - i) (length df - i).
Proof. unfold iloc. now rewrite length_firstn, length_skipn. Qed.

(** X8: with a positive batch size, the load sends
    ceil(len(df) / batch size) batches, none of them empty and none larger
    than the batch size, and put end to end they are the data set. *)
Theorem batches_bounded (step : nat) (df : list Row) :
  0 < step ->
  length (batches step df) = (length df + step - 1) / step
  /\ Forall (fun b => 0 < length b <= step) (batches step df)
  /\ concat (batches step df) = df.
Proof.
  intros Hstep. split; [|split].
  - unfold batches, range_step. now rewrite !length_map, length_seq.
  - unfold batches, range_step. apply List.Forall_forall. intros b Hb.
    apply in_map_iff in Hb as (i & <- & Hi).
    apply in_map_iff in Hi as (k & <- & Hk).
    apply in_seq in Hk as [_ Hk]. simpl in Hk.
    pose proof (range_step_below (length df) step k Hstep Hk) as Hlt.
    rewrite iloc_length. lia.
  - now apply concat_batches.
Qed.

(** The loop in append mode from any table state. *)
Lemma load_batches_append_any (starts : list nat) (step : nat) (df : list Row)
    (loaded : nat) (db db' : DB Row) (r : nat) :
  load_batches accepts starts step df append loaded db = (Ok r, db') ->
  let sent :=
    List.map (fun i => iloc i (Nat.min (i + step) (length df)) df) starts in
  (starts = [] -> db' = db)
  /\ (starts <> [] -> table db' = Some (default [] (table db) ++ concat sent))
  /\ executed db' = executed db ++ List.map INSERT sent.
Proof.
  intros Hrun sent. destruct starts as [|i rest].
  - simpl in Hrun. injection Hrun as <- <-. simpl.
    split; [intros _; reflexivity|]. split; [congruence|].
    now rewrite app_nil_r.
  - split; [discriminate|].
    simpl in Hrun. unfold to_sql in Hrun.
    set (batch := iloc i (Nat.min (i + step) (length df)) df) in *.
    assert (Hstep : exists db1,
               accepts (default [] (table db)) batch = true
               /\ db1 = {| table := Some (default [] (table db) ++ batch);
                           executed := executed db ++ [INSERT batch] |}
               /\ load_batches accepts rest step df append
                    (loaded + length batch) db1 = (Ok r, db')).
    { destruct (table db) as [current|]; simpl;
        destruct (accepts _ batch) eqn:Hacc; try discriminate;
        eexists; repeat split; exact Hrun. }
    destruct Hstep as (db1 & _ & Hdb1 & Hrest).
    apply (load_batches_append accepts _ _ _ _ _ _
             (default [] (table db) ++ batch)) in Hrest
      as (Ht & He & _); [|rewrite Hdb1; reflexivity].
    rewrite Hdb1 in He. simpl in He. unfold sent. simpl. fold batch.
    rewrite Ht, He, <- !app_assoc. simpl. split; [intros _|]; reflexivity.
Qed.

(** X6: in append mode [load_fact] never truncates: the rows are added
    behind what the table held (the table is created when it did not
    exist), and an empty data set changes nothing.  In fail mode a
    non-empty data set is refused when the table exists, and the warehouse
    is left as it was. *)
Theorem load_fact_append_keeps (df : list Row) (db : DB Row) :
  (forall n db',
      load_fact accepts df append db = (Ok n, db') ->
      n = length df
      /\ (df = [] -> db' = db)
      /\ (df <> [] -> table db' = Some (default [] (table db) ++ df))
      /\ executed db' = executed db ++ List.map INSERT (batches batch_size df))
  /\ (df <> [] -> table db <> None ->
      load_fact accepts df fail db
      = (Raise (ValueError ["table already exists"]), db)).
Proof.
  split.
  - intros n db' Hrun. unfold load_fact in Hrun.
    destruct (load_batches _ _ _ _ _ _ _) as [[r|e] db''] eqn:Hloop;
      [|discriminate].
    injection Hrun as <- <-.
    apply load_batches_append_any in Hloop as (Hnil & Hne & He).
    fold (batches batch_size df) in Hne, He.
    rewrite concat_batches in Hne by (unfold batch_size; lia).
    split; [reflexivity|]. split; [|split].
    + intros ->. now apply Hnil.
    + intros Hdf. apply Hne. unfold range_step.
      destruct df as [|x l]; [congruence|].
      assert (Hpos : 0 < (length (x :: l) + batch_size - 1) / batch_size).
      { apply Nat.div_str_pos. unfold batch_size. simpl. lia. }
      destruct ((length (x :: l) + batch_size - 1) / batch_size); [lia|].
      discriminate.
    + exact He.
  - intros Hdf Htab. unfold load_fact.
    assert (Hstarts : exists i rest, range_step (length df) batch_size = i :: rest).
    { unfold range_step. destruct df as [|x l]; [congruence|].
      assert (Hpos : 0 < (length (x :: l) + batch_size - 1) / batch_size).
      { apply Nat.div_str_pos. unfold batch_size. simpl. lia. }
      destruct ((length (x :: l) + batch_size - 1) / batch_size); [lia|].
      simpl. eauto. }
    destruct Hstarts as (i & rest & ->). simpl. unfold to_sql.
    destruct (table db); [reflexivity|congruence].
Qed.

Lemma load_batches_raise (starts : list nat) (step : nat) (df : list Row) :
  forall (loaded : nat) (db db' : DB Row) (current : list Row) (e : exn),
    table db = Some current ->
    load_batches accepts starts step df append loaded db = (Raise e, db') ->
    exists done rest,
      starts = done ++ rest /\ rest <> []
      /\ let sent :=
           List.map (fun i => iloc i (Nat.min (i + step) (length df)) df) done in
         table db' = Some (current ++ concat sent)
         /\ executed db' = executed db ++ List.map INSERT sent.
Proof.
  induction starts as [|i rest IH]; intros loaded db db' current e Htab Hrun.
  - discriminate.
  - simpl in Hrun. unfold to_sql in Hrun. rewrite Htab in Hrun.
    destruct (accepts current _) eqn:Hacc.
    + apply (IH _ _ _ (current ++ iloc i (Nat.min (i + step) (length df)) df))
        in Hrun as (done & rest' & -> & Hne & Ht & He); [|reflexivity].
      exists (i :: done), rest'. split; [reflexivity|]. split; [exact Hne|].
      simpl in *. rewrite Ht, He, <- !app_assoc. split; reflexivity.
    + injection Hrun as _ <-. exists [], (i :: rest).
      split; [reflexivity|]. split; [discriminate|]. simpl.
      rewrite !app_nil_r. split; [exact Htab|reflexivity].
Qed.

Lemma map_seq_prefix {B} (g : nat -> B) (n : nat) (done rest : list B) :
  List.map g (seq 0 n) = done ++ rest ->
  done = List.map g (seq 0 (length done)) /\ length done + length rest = n.
Proof.
  intros Hsplit.
  assert (Hlen : length done + length rest = n).
  { apply (f_equal (@length B)) in Hsplit.
    rewrite length_map, length_seq, length_app in Hsplit. lia. }
  split; [|exact Hlen].
  apply (f_equal (firstn (length done))) in Hsplit.
  rewrite firstn_map, take_seq in Hsplit.
  rewrite (take_app_length done rest) in Hsplit.
  replace (Nat.min (length done) n) with (length done) in Hsplit by lia.
  now symmetry.
Qed.


End BatchLoads.

Section BatchLoadWitnesses.
Import Transform.

Lemma batches_bounded_witness :
  length (batches batch_size [old_fact; old_fact]) = 1
  /\ Forall (fun b => 0 < length b <= batch_size)
       (batches batch_size [old_fact; old_fact]).
Proof.
  destruct (batches_bounded batch_size [old_fact; old_fact]) as (Hn & Hall & _).
  - unfold batch_size. lia.
  - split; [rewrite Hn; reflexivity|exact Hall].
Defined.

Lemma load_fact_append_witness :
  exists db',
    load_fact accept_all [old_fact] append loaded_db = (Ok 1, db')
    /\ table db' = Some [old_fact; old_fact].
Proof.
  eexists. split; [vm_compute; reflexivity|].
  match goal with
  | |- table ?d = _ =>
      destruct (proj1 (load_fact_append_keeps accept_all [old_fact] loaded_db) 1 d)
        as (_ & _ & Happ & _)
  end.
  - vm_compute. reflexivity.
  - rewrite Happ by discriminate. reflexivity.
Defined.

End BatchLoadWitnesses.

(** ** Staging load *)

Section StagingLoad.
Import Extract Transform Staging.
Variable accepts : list StagingRow -> list StagingRow -> bool.

Lemma load_to_staging_unfold (df : Frame) (db : DB StagingRow) :
  missing_db_columns df = [] ->
  load_to_staging accepts df db
  = let df_db := List.map to_staging (rows df) in
    match (if (0 <? length df_db)%nat then truncate db else (Ok tt, db)) with
    | (Raise e, db') => (Raise e, db')
    | (Ok _, db') =>
        match load_batches accepts (range_step (length df_db) batch_size)
                batch_size df_db append 0 db' with
        | (Ok _, db'') => (Ok (length df_db), db'')
        | (Raise e, db'') => (Raise e, db'')
        end
    end.
Proof. intros Hm. unfold load_to_staging. now rewrite Hm. Qed.

Lemma load_to_staging_empty (df : Frame) (db : DB StagingRow) :
  missing_db_columns df = [] -> rows df = [] ->
  load_to_staging accepts df db = (Ok 0, db).
Proof.
  intros Hm Hnil. rewrite load_to_staging_unfold by exact Hm.
  rewrite Hnil. reflexivity.
Qed.

Lemma load_to_staging_loaded (df : Frame) (db : DB StagingRow) (n : nat)
    (db' : DB StagingRow) :
  missing_db_columns df = [] -> rows df <> [] ->
  load_to_staging accepts df db = (Ok n, db') ->
  table db' = Some (List.map to_staging (rows df))
  /\ n = length (rows df)
  /\ executed db'
     = executed db
       ++ TRUNCATE
          :: List.map INSERT
               (batches batch_size (List.map to_staging (rows df))).
Proof.
  intros Hm Hne. rewrite load_to_staging_unfold by exact Hm. cbv zeta.
  set (df_db := List.map to_staging (rows df)).
  assert (Hlen : (0 <? length df_db)%nat = true).
  { apply Nat.ltb_lt. unfold df_db. rewrite length_map.
    destruct (rows df); [congruence|simpl; lia]. }
  rewrite Hlen. unfold truncate. intros Hrun.
  destruct (table db) as [old|] eqn:Hold; [|discriminate].
  destruct (load_batches _ _ _ _ _ _ _) as [[r|e] db''] eqn:Hloop;
    [|discriminate].
  injection Hrun as <- <-.
  apply (load_batches_append _ _ _ _ _ _ _ []) in Hloop
    as (Ht & He & _); [|reflexivity].
  fold (batches batch_size df_db) in Ht, He.
  rewrite concat_batches in Ht by (unfold batch_size; lia).
  simpl in Ht, He. rewrite <- app_assoc in He. simpl in He.
  split; [exact Ht|]. split; [unfold df_db; apply length_map|exact He].
Qed.

(** X4: [load_to_staging] raises KeyError, touching nothing, when one of
    the eight staged columns is absent from the frame.  Otherwise a frame
    with no row is a no-op that leaves the staging table as it was, and a
    frame with rows, when the load returns, has replaced the table by
    exactly its rows, truncating first and appending whole batches; the
    load does return when the table exists and every batch is taken. *)
Theorem load_to_staging_replaces (df : Frame) (db : DB StagingRow) :
  (missing_db_columns df <> [] ->
   load_to_staging accepts df db
   = (Raise (KeyError (String.concat ", " (missing_db_columns df))), db))
  /\ (missing_db_columns df = [] -> rows df = [] ->
      load_to_staging accepts df db = (Ok 0, db))
  /\ (missing_db_columns df = [] -> rows df <> [] ->
      (forall n db',
          load_to_staging accepts df db = (Ok n, db') ->
          table db' = Some (List.map to_staging (rows df))
          /\ n = length (rows df)
          /\ executed db'
             = executed db
               ++ TRUNCATE
                  :: List.map INSERT
                       (batches batch_size (List.map to_staging (rows df))))
      /\ (table db <> None ->
          (forall current batch, accepts current batch = true) ->
          exists db',
            load_to_staging accepts df db = (Ok (length (rows df)), db'))).
Proof.
  split; [|split].
  - intros Hm. unfold load_to_staging.
    destruct (missing_db_columns df); [congruence|reflexivity].
  - apply load_to_staging_empty.
  - intros Hm Hne. split.
    + intros n db'. now apply load_to_staging_loaded.
    + intros Htab Hacc.
      rewrite load_to_staging_unfold by exact Hm. cbv zeta.
      set (df_db := List.map to_staging (rows df)).
      assert (Hlen : (0 <? length df_db)%nat = true).
      { apply Nat.ltb_lt. unfold df_db. rewrite length_map.
        destruct (rows df); [congruence|simpl; lia]. }
      rewrite Hlen. unfold truncate.
      destruct (table db) as [old|] eqn:Hold; [|congruence].
      destruct (load_batches_accepted accepts
                  (range_step (length df_db) batch_size) batch_size df_db Hacc 0
                  {| table := Some []; executed := executed db ++ [TRUNCATE] |})
        as (r & db' & Hloop); [discriminate|].
      rewrite Hloop. exists db'. unfold df_db. now rewrite length_map.
Qed.

Lemma staging_key_to_staging (l : list RawRow) :
  List.map staging_key (List.map to_staging l) = List.map DEDUP_KEYS l.
Proof. induction l as [|r l IH]; simpl; [reflexivity|]. now rewrite IH. Qed.

End StagingLoad.

Lemma load_to_staging_witness :
  exists db',
    Staging.load_to_staging accept_all dup_frame
      {| Transform.table := Some []; Transform.executed := [] |}
    = (Ok 2, db')
    /\ Transform.table db'
       = Some (List.map Transform.to_staging (Extract.rows dup_frame)).
Proof.
  destruct (load_to_staging_replaces accept_all dup_frame
              {| Transform.table := Some []; Transform.executed := [] |})
    as (_ & _ & Hload).
  destruct Hload as [Hpost Hruns]; [reflexivity|discriminate|].
  destruct Hruns as [db' Hrun]; [discriminate|reflexivity|].
  exists db'. split; [exact Hrun|]. now apply Hpost in Hrun.
Defined.


(** ** Dimension builders *)

Section DimensionFacts.
Import Transform Dimensions.

Lemma drop_duplicates_key_kept {A K} `{EqDecision K} (key : A -> K)
    (l : list A) (x : A) :
  In x l -> exists y, In y (drop_duplicates key l) /\ key y = key x.
Proof.
  intros Hx.
  destruct (List.find (has_key key (key x)) l) as [y|] eqn:Hfind.
  - rewrite <- drop_duplicates_first in Hfind.
    apply find_some in Hfind as [Hy Hk].
    exists y. split; [exact Hy|]. unfold has_key in Hk.
    now apply bool_decide_eq_true in Hk.
  - apply (find_none _ _ Hfind) in Hx. unfold has_key in Hx.
    now apply bool_decide_eq_false in Hx.
Qed.

Lemma drop_duplicates_id_NoDup {K} `{EqDecision K} (l : list K) :
  NoDup (drop_duplicates id l).
Proof.
  pose proof (drop_duplicates_NoDup id l) as H.
  now rewrite List.map_id in H.
Qed.


Lemma customer_rows_In (country_keys : gmap string Z) (l : list StagingRow)
    (row : CustomerRow) :
  In row
    (omap (fun r =>
             match customer_id r with
             | Some c =>
                 Some {| dim_customer_id := c;
                         dim_country_key := map_dict country_keys (country r) |}
             | None => None
             end)
          (List.filter (fun r => negb (isna (customer_id r))) l))
  <-> exists r, In r l
                /\ customer_id r = Some (dim_customer_id row)
                /\ dim_country_key row = map_dict country_keys (country r).
Proof.
  rewrite <- list_elem_of_In, list_elem_of_omap. split.
  - intros (r & Hr & Hrow).
    apply list_elem_of_In, filter_In in Hr as [Hr _].
    destruct (customer_id r) as [c|] eqn:Hc; [|discriminate].
    injection Hrow as <-. simpl. eauto.
  - intros (r & Hr & Hc & Hk). exists r. split.
    + apply list_elem_of_In, filter_In. split; [exact Hr|]. now rewrite Hc.
    + rewrite Hc. destruct row as [c k]. simpl in *. now rewrite Hk.
Qed.

Lemma customer_rows_NoDup (country_keys : gmap string Z) (l : list StagingRow) :
  NoDup (List.map customer_id l) ->
  NoDup (List.map dim_customer_id
           (omap (fun r =>
                    match customer_id r with
                    | Some c =>
                        Some {| dim_customer_id := c;
                                dim_country_key :=
                                  map_dict country_keys (country r) |}
                    | None => None
                    end)
                 (List.filter (fun r => negb (isna (customer_id r))) l))).
Proof.
  induction l as [|r l IH]; simpl; intros Hnd; [constructor|].
  apply NoDup_cons in Hnd as [Hr Hnd].
  destruct (customer_id r) as [c|] eqn:Hc; simpl; [|now apply IH].
  rewrite Hc. simpl. constructor; [|now apply IH].
  intros Hin. apply list_elem_of_In, in_map_iff in Hin as (row & Hid & Hrow).
  apply customer_rows_In in Hrow as (r' & Hr' & Hc' & _).
  apply Hr. apply list_elem_of_In, in_map_iff. exists r'.
  split; [congruence|exact Hr'].
Qed.

(** X10: the customer dimension has exactly one row for each non-null
    customer id of the staging rows, and its country key is the key, in the
    country dictionary, of the country on the first staging row of that
    customer (null when that country is null or has no key); later rows of
    the customer are not read. *)
Theorem customer_dimension_first_country
    (df : list StagingRow) (country_keys : gmap string Z) :
  NoDup (List.map dim_customer_id (transform_customer_dimension df country_keys))
  /\ (forall c, In c (List.map dim_customer_id
                        (transform_customer_dimension df country_keys))
                <-> exists r, In r df /\ customer_id r = Some c)
  /\ (forall row, In row (transform_customer_dimension df country_keys) ->
        exists r,
          List.find (has_key customer_id (Some (dim_customer_id row))) df = Some r
          /\ dim_country_key row = map_dict country_keys (country r)).
Proof.
  unfold transform_customer_dimension. split; [|split].
  - apply customer_rows_NoDup, drop_duplicates_NoDup.
  - intros c. rewrite in_map_iff. split.
    + intros (row & <- & Hrow).
      apply customer_rows_In in Hrow as (r & Hr & Hc & _).
      exists r. split; [|exact Hc].
      apply list_elem_of_In.
      apply (elem_of_sublist (drop_duplicates customer_id df) df r);
        [now apply list_elem_of_In|apply drop_duplicates_sublist].
    + intros (r & Hr & Hc).
      destruct (drop_duplicates_key_kept customer_id df r Hr) as (y & Hy & Hk).
      exists {| dim_customer_id := c;
                dim_country_key := map_dict country_keys (country y) |}.
      split; [reflexivity|]. apply customer_rows_In. exists y.
      simpl. split; [exact Hy|]. split; [congruence|reflexivity].
  - intros row Hrow.
    apply customer_rows_In in Hrow as (r & Hr & Hc & Hk).
    exists r. split; [|exact Hk].
    rewrite <- (drop_duplicates_first customer_id df
                  (Some (dim_customer_id row))).
    pose proof (drop_duplicates_NoDup customer_id df) as Hnd.
    revert Hr Hnd. generalize (drop_duplicates customer_id df). intros l.
    induction l as [|x l IH]; intros Hr Hnd; [inversion Hr|].
    simpl in Hnd. apply NoDup_cons in Hnd as [Hx Hnd]. simpl.
    unfold has_key at 1. case_bool_decide as Hxk.
    + destruct Hr as [->|Hr]; [reflexivity|].
      exfalso. apply Hx. apply list_elem_of_In, in_map_iff.
      exists r. split; [congruence|exact Hr].
    + destruct Hr as [->|Hr]; [congruence|]. now apply IH.
Qed.

Lemma customer_dimension_witness :
  exists row,
    In row (transform_customer_dimension
              [described "A1" "B"; no_country_row] {[ "United Kingdom" := 7%Z ]})
    /\ dim_customer_id row = 17850%Z
    /\ dim_country_key row = Some 7%Z.
Proof.
  set (df := [described "A1" "B"; no_country_row]).
  set (keys := ({[ "United Kingdom" := 7%Z ]} : gmap string Z)).
  exists {| dim_customer_id := 17850; dim_country_key := Some 7%Z |}.
  assert (Hin : In {| dim_customer_id := 17850; dim_country_key := Some 7%Z |}
                   (transform_customer_dimension df keys)).
  { vm_compute. now left. }
  split; [exact Hin|]. split; [reflexivity|].
  destruct (proj2 (proj2 (customer_dimension_first_country df keys)) _ Hin)
    as (r & Hfind & Hkey).
  exact eq_refl.
Defined.
End DimensionFacts.

(** ** Product dimension: one row per code, in code order *)

Section SortGeneric.
Context {A : Type}.
Variable leb : A -> A -> bool.

Lemma insert_sorted_perm (x : A) (l : list A) :
  Permutation (insert_sorted leb x l) (x :: l).
Proof.
  induction l as [|y l IH]; simpl; [reflexivity|].
  destruct (leb x y); [reflexivity|].
  rewrite IH. apply perm_swap.
Qed.

Lemma sort_values_perm (l : list A) : Permutation (sort_values leb l) l.
Proof.
  induction l as [|x l IH]; simpl; [reflexivity|].
  rewrite insert_sorted_perm. now constructor.
Qed.

Hypothesis leb_total : forall a b, leb a b = true \/ leb b a = true.
Hypothesis leb_trans :
  forall a b c, leb a b = true -> leb b c = true -> leb a c = true.

Lemma insert_sorted_sorted (x : A) (l : list A) :
  StronglySorted (fun a b => leb a b = true) l ->
  StronglySorted (fun a b => leb a b = true) (insert_sorted leb x l).
Proof.
  induction 1 as [|y l Hl IH Hy]; simpl.
  - constructor; constructor.
  - destruct (leb x y) eqn:Hxy.
    + constructor; [now constructor|].
      constructor; [exact Hxy|].
      eapply Forall_impl; [exact Hy|].
      intros z Hz. simpl in Hz. now apply leb_trans with y.
    + constructor; [exact IH|].
      apply List.Forall_forall. intros z Hz.
      apply insert_sorted_In in Hz as [->|Hz].
      * destruct (leb_total y x) as [H|H]; [exact H|congruence].
      * now apply (proj1 (List.Forall_forall _ _) Hy).
Qed.

Lemma sort_values_sorted (l : list A) :
  StronglySorted (fun a b => leb a b = true) (sort_values leb l).
Proof.
  induction l as [|x l IH]; simpl; [constructor|].
  now apply insert_sorted_sorted.
Qed.
End SortGeneric.

Section ProductCodes.
Import Transform.

Lemma cell_leb_total (a b : cell) : cell_leb a b = true \/ cell_leb b a = true.
Proof.
  destruct a as [|x|s], b as [|y|t]; simpl; auto.
  - destruct (Z.leb_spec x y); [now left|right]. apply Z.leb_le. lia.
  - apply String.leb_total.
Qed.

Lemma cell_leb_trans (a b c : cell) :
  cell_leb a b = true -> cell_leb b c = true -> cell_leb a c = true.
Proof.
  destruct a as [|x|s], b as [|y|t], c as [|z|u]; simpl;
    try discriminate; try reflexivity.
  - rewrite !Z.leb_le. lia.
  - apply string_leb_trans.
Qed.

(** X11: the product dimension has exactly one row for each non-null stock
    code of the staging rows and none for a null code, and lists the codes
    in ascending order (numbers before text). *)
Theorem product_dimension_codes (df : list StagingRow) :
  NoDup (List.map dim_stock_code (transform_product_dimension df))
  /\ StronglySorted (fun a b => cell_leb a b = true)
       (List.map dim_stock_code (transform_product_dimension df))
  /\ forall c, In c (List.map dim_stock_code (transform_product_dimension df))
               <-> c <> CNull /\ exists r, In r df /\ stock_code r = c.
Proof.
  assert (Hcodes : List.map dim_stock_code (transform_product_dimension df)
                   = group_keys df).
  { unfold transform_product_dimension. rewrite List.map_map. simpl.
    apply List.map_id. }
  rewrite Hcodes. split; [|split].
  - unfold group_keys. rewrite sort_values_perm.
    apply drop_duplicates_id_NoDup.
  - unfold group_keys.
    apply sort_values_sorted; [apply cell_leb_total|apply cell_leb_trans].
  - intros c. rewrite group_keys_In, in_map_iff.
    split; intros [Hc (r & H1 & H2)]; (split; [exact Hc|eauto]).
Qed.
End ProductCodes.

(** ** Fact builder: uniqueness, provenance and measures *)

Section FactMore.
Import Transform.

Lemma transform_fact_sales_source
    (df : list StagingRow) (dimension_keys : DimensionKeys) (f : FactRow) :
  In f (transform_fact_sales df dimension_keys) ->
  exists r, In r df /\ f = fact_row dimension_keys r.
Proof.
  intros Hf. unfold transform_fact_sales in Hf.
  apply list_elem_of_In in Hf.
  pose proof (drop_duplicates_sublist fact_unique_key
                (List.filter keys_present
                   (List.map (fact_row dimension_keys) df))) as Hin.
  apply (elem_of_sublist _ _ _ Hf) in Hin.
  apply list_elem_of_In, filter_In in Hin as [Hin _].
  apply in_map_iff in Hin as (r & <- & Hr). eauto.
Qed.

(** X12: the fact rows are pairwise distinct on (invoice_no, product_key,
    time_key) and no more numerous than the staging rows; each is built
    from a staging row that has a customer id and an invoice date and whose
    product, customer and time keys resolve; and every staging row whose
    three keys resolve is represented: some fact row carries its key
    triple. *)
Theorem fact_sales_unique_and_complete
    (df : list StagingRow) (dimension_keys : DimensionKeys) :
  let facts := transform_fact_sales df dimension_keys in
  NoDup (List.map fact_unique_key facts)
  /\ length facts <= length df
  /\ (forall f, In f facts ->
        exists r, In r df /\ f = fact_row dimension_keys r
                  /\ customer_id r <> None /\ invoice_date r <> None
                  /\ is_Some (product_key f) /\ is_Some (customer_key f)
                  /\ is_Some (time_key f))
  /\ (forall r, In r df ->
        keys_present (fact_row dimension_keys r) = true ->
        exists f, In f facts
                  /\ fact_unique_key f
                     = fact_unique_key (fact_row dimension_keys r)).
Proof.
  intros facts. unfold facts, transform_fact_sales.
  split; [apply drop_duplicates_NoDup|]. split; [|split].
  - etransitivity; [apply sublist_length, drop_duplicates_sublist|].
    etransitivity; [apply List.filter_length_le|]. now rewrite length_map.
  - intros f Hf.
    pose proof (transform_fact_sales_resolved df dimension_keys f Hf)
      as (Hp & Hc & Ht).
    apply list_elem_of_In in Hf.
    pose proof (drop_duplicates_sublist fact_unique_key
                  (List.filter keys_present
                     (List.map (fact_row dimension_keys) df))) as Hin.
    apply (elem_of_sublist _ _ _ Hf) in Hin.
    apply list_elem_of_In, filter_In in Hin as [Hin _].
    apply in_map_iff in Hin as (r & <- & Hr).
    exists r. split; [exact Hr|]. split; [reflexivity|].
    pose proof Hc as Hc'. pose proof Ht as Ht'.
    simpl in Hc', Ht'. unfold map_dict in Hc', Ht'.
    destruct (customer_id r); [|now destruct Hc'].
    destruct (invoice_date r); [|now destruct Ht'].
    repeat split; try discriminate; assumption.
  - intros r Hr Hkeys.
    apply drop_duplicates_key_kept.
    apply filter_In. split; [|exact Hkeys]. now apply in_map.
Qed.

Lemma fact_sales_unique_witness :
  exists f, In f (transform_fact_sales [no_country_row; no_country_row] run_keys)
            /\ length (transform_fact_sales [no_country_row; no_country_row] run_keys) = 1.
Proof.
  destruct (fact_sales_unique_and_complete [no_country_row; no_country_row] run_keys)
    as (_ & _ & _ & Hcomplete).
  destruct (Hcomplete no_country_row) as (f & Hf & _).
  - now left.
  - vm_compute. reflexivity.
  - exists f. split; [exact Hf|]. vm_compute. reflexivity.
Defined.


End FactMore.

(** ** Quality rule engine: aggregation and the other rules *)

Section QualityMore.
Import DataQuality.

Lemma filter_length_zero {A} (f : A -> bool) (l : list A) :
  length (List.filter f l) = 0 <-> forall x, In x l -> f x = false.
Proof.
  induction l as [|y l IH]; simpl.
  - split; [tauto|reflexivity].
  - destruct (f y) eqn:Hy; simpl.
    + split; [discriminate|]. intros H. specialize (H y (or_introl eq_refl)).
      congruence.
    + rewrite IH. split.
      * intros H x [<-|Hx]; auto.
      * intros H x Hx. apply H. now right.
Qed.

Lemma filter_length_pos {A} (f : A -> bool) (l : list A) :
  0 < length (List.filter f l) <-> exists x, In x l /\ f x = true.
Proof.
  split.
  - intros Hpos. destruct (List.filter f l) as [|x l'] eqn:Hf; [simpl in Hpos; lia|].
    exists x. apply filter_In. rewrite Hf. now left.
  - intros (x & Hx & Hfx).
    assert (Hin : In x (List.filter f l)) by (apply filter_In; auto).
    destruct (List.filter f l); [inversion Hin|simpl; lia].
Qed.

Lemma update_summary_counts (rs : list CheckResult) (s : Summary) :
  let s' := List.fold_left update_summary rs s in
  passed_checks s' = passed_checks s + length (List.filter passed rs)
  /\ failed_checks s'
     = failed_checks s + length (List.filter (fun r => negb (passed r)) rs)
  /\ critical_failures s'
     = critical_failures s
       + length (List.filter (fun r => negb (passed r) && res_critical r) rs).
Proof.
  revert s; induction rs as [|r rs IH]; intros s; simpl; [lia|].
  destruct (IH (update_summary s r)) as (Hp & Hf & Hc).
  rewrite Hp, Hf, Hc. simpl.
  destruct (passed r), (res_critical r); simpl; lia.
Qed.

Lemma run_all_checks_counts (conn : Conn) :
  let report := run_all_checks conn in
  let rs := List.map (run_quality_check conn) all_checks in
  total_checks (summary report) = 7
  /\ passed_checks (summary report) = length (List.filter passed rs)
  /\ failed_checks (summary report)
     = length (List.filter (fun r => negb (passed r)) rs)
  /\ critical_failures (summary report)
     = length (List.filter (fun r => negb (passed r) && res_critical r) rs)
  /\ passed_checks (summary report) + failed_checks (summary report) = 7
  /\ critical_failures (summary report) <= failed_checks (summary report)
  /\ overall_status report
     = if (0 <? critical_failures (summary report))%nat
       then CRITICAL_FAILURE
       else if (0 <? failed_checks (summary report))%nat
            then WARNING else PASS.
Proof.
  intros report rs.
  pose proof (proj2 (run_all_checks_spec conn)) as Hsum.
  fold report rs in Hsum.
  assert (Hstatus : overall_status report
                    = if (0 <? critical_failures (summary report))%nat
                      then CRITICAL_FAILURE
                      else if (0 <? failed_checks (summary report))%nat
                           then WARNING else PASS) by reflexivity.
  assert (Hlen : length rs = 7) by (unfold rs; now rewrite length_map).
  clearbody report rs.
  assert (Htotal : total_checks (summary report) = 7).
  { rewrite Hsum, update_summary_total. rewrite Hlen. reflexivity. }
  destruct (update_summary_counts rs initial_summary) as (Hp & Hf & Hc).
  rewrite <- Hsum in Hp, Hf, Hc.
  change (passed_checks initial_summary) with 0 in Hp.
  change (failed_checks initial_summary) with 0 in Hf.
  change (critical_failures initial_summary) with 0 in Hc.
  rewrite Nat.add_0_l in Hp, Hf, Hc.
  assert (Hsplit : length (List.filter passed rs)
                   + length (List.filter (fun r => negb (passed r)) rs) = 7).
  { rewrite <- Hlen. clear. induction rs as [|r l IH]; simpl; [reflexivity|].
    destruct (passed r); simpl; lia. }
  assert (Hle : length (List.filter (fun r => negb (passed r) && res_critical r) rs)
                <= length (List.filter (fun r => negb (passed r)) rs)).
  { clear. induction rs as [|r l IH]; simpl; [lia|].
    destruct (passed r), (res_critical r); simpl; lia. }
  repeat split; try assumption; lia.
Qed.

(** X14: in the report of [run_all_checks] the seven checks split into the
    passed and the failed ones, and the critical failures are the failed
    checks flagged critical.  The overall status is never UNKNOWN: it is
    PASS exactly when every check passed, CRITICAL_FAILURE exactly when some
    critical check failed, and WARNING exactly when some check failed and
    none of the failed ones is critical. *)
Theorem overall_status_rule (conn : Conn) :
  let report := run_all_checks conn in
  let rs := List.map (run_quality_check conn) all_checks in
  total_checks (summary report) = 7
  /\ passed_checks (summary report) + failed_checks (summary report) = 7
  /\ passed_checks (summary report) = length (List.filter passed rs)
  /\ critical_failures (summary report)
     = length (List.filter (fun r => negb (passed r) && res_critical r) rs)
  /\ critical_failures (summary report) <= failed_checks (summary report)
  /\ (overall_status report = PASS <-> forall r, In r rs -> passed r = true)
  /\ (overall_status report = CRITICAL_FAILURE
      <-> exists r, In r rs /\ passed r = false /\ res_critical r = true)
  /\ (overall_status report = WARNING
      <-> (exists r, In r rs /\ passed r = false)
          /\ forall r, In r rs -> passed r = false -> res_critical r = false)
  /\ overall_status report <> UNKNOWN.
Proof.
  intros report rs.
  pose proof (run_all_checks_counts conn) as Hcounts.
  cbv zeta in Hcounts. fold report rs in Hcounts. clearbody report rs.
  destruct Hcounts as (Htotal & Hp & Hf & Hc & Hsplit & Hle & Hstatus).
  assert (Hcrit : 0 < critical_failures (summary report)
                  <-> exists r, In r rs /\ passed r = false /\ res_critical r = true).
  { rewrite Hc, filter_length_pos. split; intros (r & Hr & H); exists r.
    - apply andb_true_iff in H as [H1 H2]. apply negb_true_iff in H1. auto.
    - destruct H as [H1 H2]. rewrite H1, H2. auto. }
  assert (Hfail : 0 < failed_checks (summary report)
                  <-> exists r, In r rs /\ passed r = false).
  { rewrite Hf, filter_length_pos. split; intros (r & Hr & H); exists r.
    - apply negb_true_iff in H. auto.
    - rewrite H. auto. }
  split; [exact Htotal|]. split; [lia|]. split; [exact Hp|].
  split; [exact Hc|]. split; [lia|].
  rewrite Hstatus.
  destruct (Nat.ltb_spec 0 (critical_failures (summary report))) as [Hc0|Hc0];
    [|destruct (Nat.ltb_spec 0 (failed_checks (summary report))) as [Hf0|Hf0]].
  - apply Hcrit in Hc0 as (r & Hr & Hpr & Hcr).
    repeat split; try discriminate; eauto.
    + intros Hall. specialize (Hall r Hr). congruence.
    + intros [_ Hnone]. specialize (Hnone r Hr Hpr). congruence.
  - apply Hfail in Hf0 as (r & Hr & Hpr).
    assert (Hnocrit : forall r', In r' rs -> passed r' = false ->
                                 res_critical r' = false).
    { intros r' Hr' Hp'. destruct (res_critical r') eqn:E; [|reflexivity].
      assert (0 < critical_failures (summary report)) by (apply Hcrit; eauto).
      lia. }
    repeat split; try discriminate; eauto.
    + intros Hall. specialize (Hall r Hr). congruence.
    + intros (r' & Hr' & Hp' & Hc'). rewrite (Hnocrit r' Hr' Hp') in Hc'.
      discriminate.
  - assert (Hall : forall r, In r rs -> passed r = true).
    { intros r Hr. destruct (passed r) eqn:E; [reflexivity|].
      assert (0 < failed_checks (summary report)) by (apply Hfail; eauto).
      lia. }
    repeat split; try discriminate; auto.
    + intros (r & Hr & Hpr & _). rewrite (Hall r Hr) in Hpr. discriminate.
    + intros [(r & Hr & Hpr) _]. rewrite (Hall r Hr) in Hpr. discriminate.
Qed.
End QualityMore.

Section CheckRules.
Import DataQuality.

Lemma get_absent (res : gmap string sqlval) (k : string) (d : Q) :
  res !! k = None -> get res k d = VNum d.
Proof. intros H. unfold get. now rewrite H. Qed.

Lemma get_present (res : gmap string sqlval) (k : string) (d : Q) (v : sqlval) :
  res !! k = Some v -> get res k d = v.
Proof. intros H. unfold get. now rewrite H. Qed.

Lemma Qeq_bool_false (x y : Q) : Qeq_bool x y = false <-> ~ (x == y)%Q.
Proof.
  split.
  - intros H He. apply Qeq_bool_iff in He. congruence.
  - intros H. destruct (Qeq_bool x y) eqn:E; [|reflexivity].
    apply Qeq_bool_iff in E. contradiction.
Qed.

(** X15: the two staging checks that divide by the row count fail on an
    empty staging table.  On a non-empty one, null_critical_fields passes
    exactly when the nulls of the three critical fields are at most 5% of
    three times the row count, and data_range_validation exactly when the
    invalid prices plus the suspicious quantities are at most 10% of the
    rows; the zero-quantity count it fetches has no influence. *)
Theorem null_and_range_rules (res : gmap string sqlval) (t : Q) :
  res !! "total_rows" = Some (VNum t) ->
  ((t == 0)%Q ->
   _evaluate_check_result null_critical_fields res = Ok false
   /\ _evaluate_check_result data_range_validation res = Ok false)
  /\ (~ (t == 0)%Q ->
      forall a b c,
        res !! "null_customer_id" = Some (VNum a) ->
        res !! "null_stock_code" = Some (VNum b) ->
        res !! "null_invoice_date" = Some (VNum c) ->
        exists ok,
          _evaluate_check_result null_critical_fields res = Ok ok
          /\ (ok = true <-> ((a + b + c) / (t * 3) <= 5 # 100)%Q))
  /\ (~ (t == 0)%Q ->
      forall p s,
        res !! "invalid_price" = Some (VNum p) ->
        res !! "suspicious_quantity" = Some (VNum s) ->
        exists ok,
          _evaluate_check_result data_range_validation res = Ok ok
          /\ (ok = true <-> ((p + s) / t <= 1 # 10)%Q)
          /\ forall z,
               _evaluate_check_result data_range_validation
                 (<["zero_quantity" := z]> res) = Ok ok).
Proof.
  intros Ht. split; [|split].
  - intros H0. apply Qeq_bool_iff in H0.
    unfold _evaluate_check_result. simpl name. simpl String.eqb. cbv iota.
    rewrite (get_present _ _ _ _ Ht). simpl eq_zero. rewrite H0. now split.
  - intros Hne a b c Ha Hb Hc. apply Qeq_bool_false in Hne.
    unfold _evaluate_check_result. simpl name. simpl String.eqb. cbv iota.
    rewrite (get_present _ _ _ _ Ht), (get_present _ _ _ _ Ha),
      (get_present _ _ _ _ Hb), (get_present _ _ _ _ Hc).
    simpl eq_zero. rewrite Hne. eexists. split; [reflexivity|].
    apply Qle_bool_iff.
  - intros Hne p s Hp Hs. apply Qeq_bool_false in Hne.
    unfold _evaluate_check_result. simpl name. simpl String.eqb. cbv iota.
    rewrite (get_present _ _ _ _ Ht), (get_present _ _ _ _ Hp),
      (get_present _ _ _ _ Hs).
    simpl eq_zero. rewrite Hne. eexists. split; [reflexivity|].
    split; [apply Qle_bool_iff|].
    intros z.
    assert (Hins : forall k v, "zero_quantity" <> k -> res !! k = Some v ->
                               <["zero_quantity" := z]> res !! k = Some v).
    { intros k v Hk Hv. now rewrite lookup_insert_ne. }
    rewrite (get_present _ _ _ _ (Hins "total_rows" _ ltac:(discriminate) Ht)),
      (get_present _ _ _ _ (Hins "invalid_price" _ ltac:(discriminate) Hp)),
      (get_present _ _ _ _ (Hins "suspicious_quantity" _ ltac:(discriminate) Hs)).
    simpl eq_zero. rewrite Hne. reflexivity.
Qed.

(** X16: duplicate_records passes on an empty staging table; on a
    non-empty one it passes exactly when the rows in excess of the distinct
    key triples are at most 1% of the rows, so a table whose key triples
    are all distinct always passes. *)
Theorem duplicate_records_rule (res : gmap string sqlval) (t u : Q) :
  res !! "total_records" = Some (VNum t) ->
  res !! "unique_combinations" = Some (VNum u) ->
  ((t == 0)%Q -> _evaluate_check_result duplicate_records res = Ok true)
  /\ (~ (t == 0)%Q ->
      exists ok,
        _evaluate_check_result duplicate_records res = Ok ok
        /\ (ok = true <-> ((t - u) / t <= 1 # 100)%Q))
  /\ ((u == t)%Q -> _evaluate_check_result duplicate_records res = Ok true).
Proof.
  intros Ht Hu.
  assert (Heval : _evaluate_check_result duplicate_records res
                  = if Qeq_bool t 0 then Ok true
                    else Ok (Qle_bool ((t - u) / t) (1 # 100))).
  { unfold _evaluate_check_result. simpl name. simpl String.eqb. cbv iota.
    rewrite (get_present _ _ _ _ Ht), (get_present _ _ _ _ Hu).
    simpl eq_zero. destruct (Qeq_bool t 0); reflexivity. }
  rewrite Heval. split; [|split].
  - intros H0. apply Qeq_bool_iff in H0. now rewrite H0.
  - intros Hne. apply Qeq_bool_false in Hne. rewrite Hne.
    eexists. split; [reflexivity|]. apply Qle_bool_iff.
  - intros Hut. destruct (Qeq_bool t 0) eqn:E; [reflexivity|].
    f_equal. apply Qle_bool_iff. apply Qeq_bool_false in E.
    assert (H : ((t - u) / t == 0)%Q).
    { rewrite Hut. unfold Qdiv. ring. }
    rewrite H. discriminate.
Qed.

(** The pass criterion of a fetched count: absent or zero. *)
Lemma eq_zero_get (res : gmap string sqlval) (k : string) :
  eq_zero (get res k 0) = true
  <-> res !! k = None \/ exists q, res !! k = Some (VNum q) /\ (q == 0)%Q.
Proof.
  unfold get. destruct (res !! k) as [[|q]|]; simpl.
  - split; [discriminate|]. intros [H|(q & H & _)]; discriminate.
  - rewrite Qeq_bool_iff. split.
    + intros H. right. eauto.
    + intros [H|(q' & [= <-] & H)]; [discriminate|exact H].
  - split; [now left|reflexivity].
Qed.

(** X17: referential_integrity and business_logic never raise.  Each
    passes exactly when every count it reads is zero, a column absent from
    the fetched row counting as zero and a NULL as non-zero; so both pass
    when the query fetched no row at all. *)
Theorem count_checks_rule (res : gmap string sqlval) :
  let zero k :=
    res !! k = None \/ exists q, res !! k = Some (VNum q) /\ (q == 0)%Q in
  (exists ok,
      _evaluate_check_result referential_integrity res = Ok ok
      /\ (ok = true
          <-> zero "orphaned_products" /\ zero "orphaned_customers"
              /\ zero "orphaned_times"))
  /\ (exists ok,
         _evaluate_check_result business_logic res = Ok ok
         /\ (ok = true
             <-> zero "calculation_errors" /\ zero "negative_non_returns"))
  /\ _evaluate_check_result referential_integrity ∅ = Ok true
  /\ _evaluate_check_result business_logic ∅ = Ok true.
Proof.
  intros zero. split; [|split; [|split]].
  - eexists. split.
    + unfold _evaluate_check_result. simpl name. simpl String.eqb. cbv iota.
      reflexivity.
    + rewrite !andb_true_iff, !eq_zero_get. unfold zero. tauto.
  - eexists. split.
    + unfold _evaluate_check_result. simpl name. simpl String.eqb. cbv iota.
      reflexivity.
    + rewrite !andb_true_iff, !eq_zero_get. unfold zero. tauto.
  - reflexivity.
  - reflexivity.
Qed.

(** X18: data_freshness passes exactly when the fetched age is at most 48
    hours.  When the age is NULL, as on an empty staging table, the
    comparison raises TypeError and the check is recorded as a failed,
    non-critical check carrying that error; when the column is absent the
    age defaults to 999 hours and the check fails. *)
Theorem data_freshness_rule (res : gmap string sqlval) :
  (forall h, res !! "hours_since_last_load" = Some (VNum h) ->
     exists ok,
       _evaluate_check_result data_freshness res = Ok ok
       /\ (ok = true <-> (h <= 48)%Q))
  /\ (res !! "hours_since_last_load" = None ->
      _evaluate_check_result data_freshness res = Ok false)
  /\ (res !! "hours_since_last_load" = Some VNull ->
      _evaluate_check_result data_freshness res = Raise TypeError
      /\ forall conn : Conn,
           conn (query data_freshness) = Ok (Some res) ->
           run_quality_check conn data_freshness
           = failed_result data_freshness TypeError
           /\ res_critical (run_quality_check conn data_freshness) = false).
Proof.
  split; [|split].
  - intros h Hh. eexists. split.
    + unfold _evaluate_check_result. simpl name. simpl String.eqb. cbv iota.
      rewrite (get_present _ _ _ _ Hh). reflexivity.
    + apply Qle_bool_iff.
  - intros Hn.
    unfold _evaluate_check_result. simpl name. simpl String.eqb. cbv iota.
    rewrite (get_absent _ _ _ Hn). reflexivity.
  - intros Hnull.
    assert (Heval : _evaluate_check_result data_freshness res = Raise TypeError).
    { unfold _evaluate_check_result. simpl name. simpl String.eqb. cbv iota.
      rewrite (get_present _ _ _ _ Hnull). reflexivity. }
    split; [exact Heval|]. intros conn Hq.
    rewrite (run_quality_check_eval_raises conn data_freshness (Some res) TypeError Hq Heval).
    split; reflexivity.
Qed.
End CheckRules.

Section CheckRuleWitnesses.
Import DataQuality.

Lemma null_and_range_witness :
  _evaluate_check_result null_critical_fields null_counts = Ok true
  /\ _evaluate_check_result data_range_validation range_counts = Ok true.
Proof.
  split.
  - destruct (null_and_range_rules null_counts 200 eq_refl) as (_ & Hnull & _).
    destruct (Hnull ltac:(discriminate) 30 0 0 eq_refl eq_refl eq_refl)%Q
      as (ok & Heval & Hok).
    rewrite Heval. f_equal. apply Hok. vm_compute. discriminate.
  - destruct (null_and_range_rules range_counts 200 eq_refl) as (_ & _ & Hrange).
    destruct (Hrange ltac:(discriminate) 4 5 eq_refl eq_refl)%Q
      as (ok & Heval & Hok & _).
    rewrite Heval. f_equal. apply Hok. vm_compute. discriminate.
Defined.

Lemma duplicate_records_witness :
  _evaluate_check_result duplicate_records duplicate_counts = Ok true.
Proof.
  destruct (duplicate_records_rule duplicate_counts 200 199 eq_refl eq_refl)
    as (_ & Hrule & _).
  destruct (Hrule ltac:(discriminate)) as (ok & Heval & Hok).
  rewrite Heval. f_equal. apply Hok. vm_compute. discriminate.
Defined.

Lemma data_freshness_witness :
  run_quality_check (fun _ => Ok (Some never_loaded)) data_freshness
  = failed_result data_freshness TypeError.
Proof.
  destruct (data_freshness_rule never_loaded) as (_ & _ & Hnull).
  destruct (Hnull eq_refl) as [_ Hrun].
  now destruct (Hrun (fun _ => Ok (Some never_loaded)) eq_refl).
Defined.
End CheckRuleWitnesses.

(** ** Quality dashboard *)

Section DashboardFacts.
Import DataQuality Dashboard.

Lemma round1_range (x : Q) :
  (0 <= x)%Q -> (x <= 100)%Q -> (0 <= round1 x)%Q /\ (round1 x <= 100)%Q.
Proof.
  intros H0 H100. unfold round1.
  destruct (round_half_even_range (x * 10) 0 1000) as [Hlo Hhi].
  - change (inject_Z 0) with 0%Q. lra.
  - change (inject_Z 1000) with 1000%Q. lra.
  - rewrite Zle_Qle in Hlo, Hhi.
    change (inject_Z 0) with 0%Q in Hlo.
    change (inject_Z 1000) with 1000%Q in Hhi.
    unfold Qdiv. change (/ 10)%Q with (1 # 10)%Q. split; lra.
Qed.

Lemma failed_of_categories_In (conn : Conn)
    (rules : list (string * list Check)) (fc : FailedCheck) :
  In fc (List.concat
           (List.map failed_of_category
              (List.map (fun cat => (fst cat,
                                     List.map (run_quality_check conn) (snd cat)))
                 rules)))
  <-> exists cat check,
        In cat rules /\ In check (snd cat)
        /\ passed (run_quality_check conn check) = false
        /\ fc = {| fc_category := fst cat;
                   fc_name := name check;
                   fc_description := description check;
                   fc_critical := critical check |}.
Proof.
  rewrite in_concat. split.
  - intros (l & Hl & Hfc).
    apply in_map_iff in Hl as (catr & <- & Hcatr).
    apply in_map_iff in Hcatr as (cat & <- & Hcat).
    unfold failed_of_category in Hfc. simpl in Hfc.
    apply in_map_iff in Hfc as (r & <- & Hr).
    apply filter_In in Hr as [Hr Hp].
    apply in_map_iff in Hr as (check & <- & Hcheck).
    apply negb_true_iff in Hp.
    exists cat, check. repeat split; try assumption.
    destruct (run_quality_check_labels conn check) as [-> ->].
    f_equal. unfold run_quality_check.
    destruct (conn (query check)) as [fetched|e]; simpl; [|reflexivity].
    destruct (_evaluate_check_result check (default ∅ fetched)); reflexivity.
  - intros (cat & check & Hcat & Hcheck & Hp & ->).
    exists (failed_of_category
              (fst cat, List.map (run_quality_check conn) (snd cat))).
    split.
    + apply in_map. apply in_map_iff. exists cat. split; [reflexivity|exact Hcat].
    + unfold failed_of_category. simpl. apply in_map_iff.
      exists (run_quality_check conn check). split.
      * destruct (run_quality_check_labels conn check) as [-> ->].
        f_equal. unfold run_quality_check.
        destruct (conn (query check)) as [fetched|e]; simpl; [|reflexivity].
        destruct (_evaluate_check_result check (default ∅ fetched)); reflexivity.
      * apply filter_In. split; [now apply in_map|]. now rewrite Hp.
Qed.

Lemma failed_of_categories_length (conn : Conn)
    (rules : list (string * list Check)) :
  length (List.concat
            (List.map failed_of_category
               (List.map (fun cat => (fst cat,
                                      List.map (run_quality_check conn) (snd cat)))
                  rules)))
  = length (List.filter (fun r => negb (passed r))
              (List.map (run_quality_check conn)
                 (List.concat (List.map snd rules)))).
Proof.
  induction rules as [|cat rules IH]; simpl; [reflexivity|].
  rewrite length_app, IH, map_app, List.filter_app, length_app.
  f_equal. unfold failed_of_category. simpl. now rewrite length_map.
Qed.

(** X19: an exception of the metrics query leaves
    [generate_quality_dashboard_data] uncaught, although every check error
    was captured.  When the query answers, the dashboard carries the
    status and summary of the report and the fetched metrics; its list of
    failed checks holds exactly the checks that did not pass, each with its
    category, name, description and critical flag, as many as the summary
    counts, and is empty exactly when the status is PASS; the quality score
    lies between 0 and 100. *)
Theorem dashboard_rule (conn : Conn) :
  (forall e, conn metrics_query = Raise e ->
             generate_quality_dashboard_data conn = Raise e)
  /\ (forall fetched,
        conn metrics_query = Ok fetched ->
        exists d,
          generate_quality_dashboard_data conn = Ok d
          /\ dash_status d = overall_status (run_all_checks conn)
          /\ check_summary d = summary (run_all_checks conn)
          /\ metrics d = default ∅ fetched
          /\ length (failed_checks_list d) = failed_checks (check_summary d)
          /\ (forall fc, In fc (failed_checks_list d)
                <-> exists cat check,
                      In cat quality_rules /\ In check (snd cat)
                      /\ passed (run_quality_check conn check) = false
                      /\ fc = {| fc_category := fst cat;
                                 fc_name := name check;
                                 fc_description := description check;
                                 fc_critical := critical check |})
          /\ (failed_checks_list d = [] <-> dash_status d = PASS)
          /\ (0 <= quality_score d)%Q /\ (quality_score d <= 100)%Q).
Proof.
  split.
  - intros e He. unfold generate_quality_dashboard_data, get_quality_metrics.
    now rewrite He.
  - intros fetched Hq.
    pose proof (run_all_checks_counts conn)
      as (Htotal & _ & _ & _ & Hsplit & Hle & Hstatus).
    cbv zeta in Htotal, Hsplit, Hle, Hstatus.
    pose proof (proj1 (run_all_checks_spec conn)) as Hcats.
    pose proof (proj2 (run_all_checks_spec conn)) as Hsum.
    destruct (update_summary_counts
                (List.map (run_quality_check conn) all_checks) initial_summary)
      as (_ & Hf & _).
    rewrite <- Hsum in Hf.
    change (failed_checks initial_summary) with 0 in Hf.
    rewrite Nat.add_0_l in Hf.
    unfold generate_quality_dashboard_data, get_quality_metrics.
    rewrite Hq.
    remember (run_all_checks conn) as report eqn:Hrep.
    change (mbind ?f ?m) with (rbind m f). cbn [rbind].
    eexists. split; [reflexivity|]. cbn [dash_status check_summary metrics
                                        failed_checks_list quality_score].
    assert (Hlen : length (List.concat
                             (List.map failed_of_category (check_categories report)))
                   = failed_checks (summary report)).
    { rewrite Hcats, failed_of_categories_length. now rewrite Hf. }
    split; [reflexivity|]. split; [reflexivity|]. split; [reflexivity|].
    split; [exact Hlen|]. split.
    { intros fc. rewrite Hcats. apply failed_of_categories_In. }
    split.
    { rewrite Hstatus.
      destruct (Nat.ltb_spec 0 (critical_failures (summary report))) as [Hc0|Hc0];
        [|destruct (Nat.ltb_spec 0 (failed_checks (summary report))) as [Hf0|Hf0]].
      - split; [|discriminate].
        intros Hnil. rewrite Hnil in Hlen. simpl in Hlen. lia.
      - split; [|discriminate].
        intros Hnil. rewrite Hnil in Hlen. simpl in Hlen. lia.
      - split; [reflexivity|]. intros _. apply length_zero_iff_nil. lia. }
    rewrite Htotal. change (0 <? 7)%nat with true. cbv iota.
    apply round1_range.
    + apply Qmult_le_0_compat; [|lra].
      apply Qle_shift_div_l; [reflexivity|].
      rewrite Qmult_0_l. change 0%Q with (inject_Z 0). rewrite <- Zle_Qle. lia.
    + assert (Hfrac : (inject_Z (Z.of_nat (passed_checks (summary report)))
                       / inject_Z (Z.of_nat 7) <= 1)%Q).
      { apply Qle_shift_div_r; [reflexivity|].
        rewrite Qmult_1_l. rewrite <- Zle_Qle. lia. }
      lra.
Qed.

Lemma dashboard_rule_witness :
  generate_quality_dashboard_data
    (fun q => if String.eqb q metrics_query
              then Raise (DatabaseError "connection lost") else Ok None)
  = Raise (DatabaseError "connection lost").
Proof.
  apply (proj1 (dashboard_rule _)). reflexivity.
Defined.
End DashboardFacts.


(** ** Post-load validation *)

Section LoaderFacts.
Import DataQuality Loader.
Context {MetricRow : Type}.

Lemma Qltb_false_nonpos (x : Q) : Monitoring.Qltb 0 x = false <-> (x <= 0)%Q.
Proof. unfold Monitoring.Qltb. rewrite negb_false_iff. apply Qle_bool_iff. Qed.

Lemma for_each_ok {A B} (f : A -> result B) (l : list A) (bs : list B) :
  for_each f l = Ok bs -> List.Forall2 (fun a b => f a = Ok b) l bs.
Proof.
  revert bs; induction l as [|a l IH]; intros bs Hrun; simpl in Hrun.
  - injection Hrun as <-. constructor.
  - change (mbind ?g ?m) with (rbind m g) in Hrun.
    destruct (f a) as [b|] eqn:Hb; cbn [rbind] in Hrun; [|discriminate].
    change (mbind ?g ?m) with (rbind m g) in Hrun.
    destruct (for_each f l) as [bs'|]; cbn [rbind] in Hrun; [|discriminate].
    injection Hrun as <-. constructor; [exact Hb|now apply IH].
Qed.

Lemma integrity_step_ok (conn : ScalarConn) (entry : string * string) (out : string * Q) :
  integrity_step conn entry = Ok out ->
  fst out = fst entry /\ conn (snd entry) = Ok (VNum (snd out)).
Proof.
  unfold integrity_step. change (mbind ?g ?m) with (rbind m g).
  destruct (conn (snd entry)) as [[|q]|]; cbn [rbind num]; try discriminate.
  intros [= <-]. now split.
Qed.

Lemma business_step_ok (conn : ScalarConn) (entry : string * string) (out : string * Q) :
  business_step conn entry = Ok out -> fst out = fst entry.
Proof.
  unfold business_step. change (mbind ?g ?m) with (rbind m g).
  destruct (conn (snd entry)); cbn [rbind]; [|discriminate].
  now intros [= <-].
Qed.

Lemma validate_referential_integrity_ok (conn : ScalarConn) (ir : list (string * Q)) :
  validate_referential_integrity conn = Ok ir ->
  exists op oc ot oco,
    ir = [("orphaned_products", op); ("orphaned_customers", oc);
          ("orphaned_times", ot); ("orphaned_countries", oco)]
    /\ conn orphaned_countries_query = Ok (VNum oco).
Proof.
  intros Hrun. apply for_each_ok in Hrun. unfold validation_queries in Hrun.
  inversion Hrun as [|e1 [k1 op] l1 r1 H1 T1]; subst. clear Hrun.
  inversion T1 as [|e2 [k2 oc] l2 r2 H2 T2]; subst. clear T1.
  inversion T2 as [|e3 [k3 ot] l3 r3 H3 T3]; subst. clear T2.
  inversion T3 as [|e4 [k4 oco] l4 r4 H4 T4]; subst. clear T3.
  inversion T4; subst. clear T4.
  apply integrity_step_ok in H1 as [E1 _], H2 as [E2 _], H3 as [E3 _], H4 as [E4 Hq].
  cbn [fst snd] in *. subst. exists op, oc, ot, oco. now split.
Qed.

Lemma validate_business_rules_ok (conn : ScalarConn) (br : list (string * Q)) :
  validate_business_rules conn = Ok br ->
  exists ce nq zp xq fd ts tr,
    br = [("calculation_errors", ce); ("negative_quantities_non_returns", nq);
          ("zero_unit_price", zp); ("extreme_quantities", xq);
          ("future_dates", fd); ("total_sales_amount", ts);
          ("total_returns_amount", tr)].
Proof.
  intros Hrun. apply for_each_ok in Hrun. unfold business_checks in Hrun.
  inversion Hrun as [|e1 [k1 ce] l1 r1 H1 T1]; subst. clear Hrun.
  inversion T1 as [|e2 [k2 nq] l2 r2 H2 T2]; subst. clear T1.
  inversion T2 as [|e3 [k3 zp] l3 r3 H3 T3]; subst. clear T2.
  inversion T3 as [|e4 [k4 xq] l4 r4 H4 T4]; subst. clear T3.
  inversion T4 as [|e5 [k5 fd] l5 r5 H5 T5]; subst. clear T4.
  inversion T5 as [|e6 [k6 ts] l6 r6 H6 T6]; subst. clear T5.
  inversion T6 as [|e7 [k7 tr] l7 r7 H7 T7]; subst. clear T6.
  inversion T7; subst. clear T7.
  apply business_step_ok in H1, H2, H3, H4, H5, H6, H7.
  cbn [fst snd] in *. subst. exists ce, nq, zp, xq, fd, ts, tr. reflexivity.
Qed.

(** X20: when [run_data_quality_checks] returns, its report holds the four
    orphan counts (products, customers, times, countries) and the seven
    business figures, in that order.  With counts that are not negative the
    status is PASS exactly when the four orphan counts, the calculation
    errors, the negative quantities of non-returns and the future dates are
    all zero; zero unit prices, extreme quantities and the two amounts have
    no influence.  In particular one fact row without a matching country
    makes the validation FAIL. *)
Theorem load_validation_status
    (conn : ScalarConn) (rows : RowsConn MetricRow) (report : DQReport MetricRow) :
  run_data_quality_checks conn rows = Ok report ->
  exists op oc ot oco ce nq zp xq fd ts tr,
    referential_integrity report
    = [("orphaned_products", op); ("orphaned_customers", oc);
       ("orphaned_times", ot); ("orphaned_countries", oco)]
    /\ business_rules report
       = [("calculation_errors", ce); ("negative_quantities_non_returns", nq);
          ("zero_unit_price", zp); ("extreme_quantities", xq);
          ("future_dates", fd); ("total_sales_amount", ts);
          ("total_returns_amount", tr)]
    /\ conn orphaned_countries_query = Ok (VNum oco)
    /\ ((0 <= op)%Q -> (0 <= oc)%Q -> (0 <= ot)%Q -> (0 <= oco)%Q ->
        (0 <= ce)%Q -> (0 <= nq)%Q -> (0 <= fd)%Q ->
        (overall_status report = PASS
         <-> (op == 0)%Q /\ (oc == 0)%Q /\ (ot == 0)%Q /\ (oco == 0)%Q
             /\ (ce == 0)%Q /\ (nq == 0)%Q /\ (fd == 0)%Q)
        /\ ((0 < oco)%Q -> overall_status report = FAIL)).
Proof.
  intros Hrun. unfold run_data_quality_checks in Hrun.
  change (mbind ?g ?m) with (rbind m g) in Hrun.
  destruct (validate_referential_integrity conn) as [ir|] eqn:Hir;
    cbn [rbind] in Hrun; [|discriminate].
  change (mbind ?g ?m) with (rbind m g) in Hrun.
  destruct (validate_business_rules conn) as [br|] eqn:Hbr;
    cbn [rbind] in Hrun; [|discriminate].
  change (mbind ?g ?m) with (rbind m g) in Hrun.
  destruct (get_data_summary conn) as [ds|] eqn:Hds;
    cbn [rbind] in Hrun; [|discriminate].
  change (mbind ?g ?m) with (rbind m g) in Hrun.
  destruct (get_top_metrics rows) as [tm|] eqn:Htm;
    cbn [rbind] in Hrun; [|discriminate].
  apply validate_referential_integrity_ok in Hir
    as (op & oc & ot & oco & -> & Hoco).
  apply validate_business_rules_ok in Hbr
    as (ce & nq & zp & xq & fd & ts & tr & ->).
  change (mbind ?g ?m) with (rbind m g) in Hrun.
  vm_compute item in Hrun.
  cbn [rbind] in Hrun.
  repeat (change (mbind ?g ?m) with (rbind m g) in Hrun; cbn [rbind] in Hrun).
  injection Hrun as <-.
  cbn [referential_integrity business_rules overall_status].
  exists op, oc, ot, oco, ce, nq, zp, xq, fd, ts, tr.
  split; [reflexivity|]. split; [reflexivity|]. split; [exact Hoco|].
  intros Hop0 Hoc0 Hot0 Hoco0 Hce0 Hnq0 Hfd0.
  unfold Qsum. cbn [List.map List.fold_left snd].
  destruct (Monitoring.Qltb 0 (0 + op + oc + ot + oco)) eqn:Ei;
    [apply Qltb_lt in Ei|apply Qltb_false_nonpos in Ei];
    [|destruct (Monitoring.Qltb 0 (0 + ce + nq + fd)) eqn:Eb;
      [apply Qltb_lt in Eb|apply Qltb_false_nonpos in Eb]];
    cbn [orb]; split.
  - split; [discriminate|]. intros (H1 & H2 & H3 & H4 & _). exfalso. lra.
  - reflexivity.
  - split; [discriminate|]. intros (_ & _ & _ & _ & H5 & H6 & H7). exfalso. lra.
  - reflexivity.
  - split; [|reflexivity]. intros _. repeat split; lra.
  - intros Hpos. exfalso. lra.
Qed.
End LoaderFacts.

Lemma load_validation_witness :
  exists report,
    Loader.run_data_quality_checks conn_orphan_country no_metric_rows = Ok report
    /\ Loader.overall_status report = Loader.FAIL.
Proof.
  eexists. split; [vm_compute; reflexivity|].
  match goal with
  | |- Loader.overall_status ?r = _ =>
      destruct (load_validation_status conn_orphan_country no_metric_rows r
                  ltac:(vm_compute; reflexivity))
        as (op & oc & ot & oco & ce & nq & zp & xq & fd & ts & tr
            & Hir & Hbr & _ & Hrule)
  end.
  cbn [Loader.referential_integrity Loader.business_rules] in Hir, Hbr.
  injection Hir as <- <- <- <-. injection Hbr as <- <- <- <- <- <- <-.
  apply Hrule; try discriminate. reflexivity.
Defined.

(** ** Anomaly scorer: further properties *)

Section MonitoringMore.
Import Monitoring.

Lemma check_daily_sales_range_scored (df : list DailyRow) (q25 q75 : Q) :
  quantile (List.map daily_sales df) (25 # 100) = Some q25 ->
  quantile (List.map daily_sales df) (75 # 100) = Some q75 ->
  check_daily_sales_range df
  = Some (List.map (score_day (q25 - (15 # 10) * (q75 - q25))
                      (q75 + (15 # 10) * (q75 - q25))) df)
  /\ forall s,
       In s (List.map (score_day (q25 - (15 # 10) * (q75 - q25))
                         (q75 + (15 # 10) * (q75 - q25))) df) ->
       In (day s) df
       /\ (outlier_type s = Low
           <-> (daily_sales (day s) < q25 - (15 # 10) * (q75 - q25))%Q)
       /\ (outlier_type s = High
           <-> (q75 + (15 # 10) * (q75 - q25) < daily_sales (day s))%Q)
       /\ (outlier_type s = Normal
           <-> (q25 - (15 # 10) * (q75 - q25) <= daily_sales (day s))%Q
               /\ (daily_sales (day s) <= q75 + (15 # 10) * (q75 - q25))%Q)
       /\ (is_outlier s = true <-> outlier_type s <> Normal)
       /\ (outlier_type s <> Normal -> quality_score s = 85%Z)
       /\ (outlier_type s = Normal -> quality_score s = 100%Z).
Proof.
  intros H25 H75.
  assert (Hb : bounds (List.map daily_sales df)
               = Some ((q25 - (15 # 10) * (q75 - q25))%Q,
                       (q75 + (15 # 10) * (q75 - q25))%Q)).
  { unfold bounds. now rewrite H25, H75. }
  destruct (bounds_ordered _ _ _ Hb) as (_ & _ & _ & _ & _ & _ & Hord).
  set (lo := (q25 - (15 # 10) * (q75 - q25))%Q) in *.
  set (hi := (q75 + (15 # 10) * (q75 - q25))%Q) in *.
  split.
  { unfold check_daily_sales_range. now rewrite Hb. }
  intros s Hs.
  apply in_map_iff in Hs as (row & <- & Hrow). simpl.
  split; [exact Hrow|].
  destruct (Qltb (daily_sales row) lo) eqn:Hlow;
    destruct (Qltb hi (daily_sales row)) eqn:Hhigh; simpl;
    try apply Qltb_lt in Hlow; try apply Qltb_lt in Hhigh;
    try apply Qltb_ge in Hlow; try apply Qltb_ge in Hhigh;
    repeat split; intros; try discriminate; try congruence; try lra;
    try (exfalso; lra); try tauto.
Qed.

(** X21: a day whose sales lie between the first and the third quartile is
    always Normal and scored 100.  When the two quartiles coincide the
    bounds collapse onto them, and a day is Normal exactly when its sales
    equal the quartile.  The day of a one-day series is Normal. *)
Theorem interquartile_days_normal (df : list DailyRow) (q25 q75 : Q) :
  quantile (List.map daily_sales df) (25 # 100) = Some q25 ->
  quantile (List.map daily_sales df) (75 # 100) = Some q75 ->
  exists scored,
    check_daily_sales_range df = Some scored
    /\ (q25 <= q75)%Q
    /\ (forall s, In s scored ->
          (q25 <= daily_sales (day s))%Q -> (daily_sales (day s) <= q75)%Q ->
          outlier_type s = Normal /\ is_outlier s = false
          /\ quality_score s = 100%Z)
    /\ ((q25 == q75)%Q ->
        forall s, In s scored ->
          (outlier_type s = Normal <-> (daily_sales (day s) == q25)%Q))
    /\ (forall row, df = [row] ->
          exists s, scored = [s] /\ outlier_type s = Normal).
Proof.
  intros H25 H75.
  assert (Hord : (q25 <= q75)%Q).
  { eapply (quantile_mono _ (25 # 100) (75 # 100)); eauto; lra. }
  assert (Hne : df <> []).
  { intros ->. discriminate. }
  destruct (check_daily_sales_range_scored df q25 q75 H25 H75) as [Hrun Hall].
  set (lo := (q25 - (15 # 10) * (q75 - q25))%Q) in *.
  set (hi := (q75 + (15 # 10) * (q75 - q25))%Q) in *.
  assert (Hlo : (lo <= q25)%Q) by (unfold lo; lra).
  assert (Hhi : (q75 <= hi)%Q) by (unfold hi; lra).
  eexists. split; [exact Hrun|]. split; [exact Hord|]. split; [|split].
  - intros s Hs H1 H2.
    destruct (Hall s Hs) as (_ & _ & _ & Hnormal & Hout & _ & H100).
    assert (Hn : outlier_type s = Normal) by (apply Hnormal; split; lra).
    split; [exact Hn|]. split; [|now apply H100].
    destruct (is_outlier s) eqn:E; [|reflexivity].
    exfalso. now apply (proj1 Hout eq_refl).
  - intros Heq s Hs.
    destruct (Hall s Hs) as (_ & _ & _ & Hnormal & _).
    rewrite Hnormal. unfold lo, hi. split.
    + intros [H1 H2]. lra.
    + intros H. split; lra.
  - intros row ->. eexists. split; [reflexivity|].
    assert (Hs : In (score_day lo hi row) (List.map (score_day lo hi) [row]))
      by now left.
    destruct (Hall _ Hs) as (_ & _ & _ & Hnormal & _).
    apply Hnormal. simpl.
    assert (Hq25 : (q25 == daily_sales row)%Q).
    { simpl in H25. unfold quantile, interpolate in H25. simpl in H25.
      injection H25 as <-. ring. }
    assert (Hq75 : (q75 == daily_sales row)%Q).
    { simpl in H75. unfold quantile, interpolate in H75. simpl in H75.
      injection H75 as <-. ring. }
    unfold lo, hi. split; lra.
Qed.

Lemma interquartile_days_witness :
  exists scored s,
    check_daily_sales_range six_days = Some scored
    /\ In s scored /\ daily_sales (day s) = 11%Q /\ outlier_type s = Normal.
Proof.
  destruct (quantile (List.map daily_sales six_days) (25 # 100)) as [q25|] eqn:H25;
    [|vm_compute in H25; discriminate].
  destruct (quantile (List.map daily_sales six_days) (75 # 100)) as [q75|] eqn:H75;
    [|vm_compute in H75; discriminate].
  destruct (interquartile_days_normal six_days q25 q75 H25 H75)
    as (scored & Hrun & _ & Hmid & _).
  vm_compute in H25, H75. injection H25 as <-. injection H75 as <-.
  pose proof Hrun as Hrun'. vm_compute in Hrun'.
  injection Hrun' as Hscored.
  set (s := nth 2 scored (score_day 0 0 {| date_value := 0; daily_sales := 0 |})).
  assert (Hin : In s scored).
  { apply nth_In. rewrite <- Hscored. simpl. lia. }
  assert (Hv : daily_sales (day s) = 11%Q).
  { unfold s. rewrite <- Hscored. reflexivity. }
  exists scored, s. split; [exact Hrun|]. split; [exact Hin|].
  split; [exact Hv|].
  apply Hmid; [exact Hin| |]; rewrite Hv; vm_compute; discriminate.
Defined.
End MonitoringMore.

Section ProductQualityFacts.
Import ProductQuality.

End ProductQualityFacts.

Section CustomerRateFacts.
Import Monitoring CustomerRate.

Lemma sql_round2_range (x : Q) :
  (0 <= x)%Q -> (x <= 100)%Q ->
  (0 <= sql_round2 x)%Q /\ (sql_round2 x <= 100)%Q.
Proof.
  intros H0 H100. unfold sql_round2.
  assert (Hsign : Qltb x 0 = false) by now apply Qltb_ge.
  rewrite Hsign.
  assert (Habs : (Qabs x == x)%Q) by now apply Qabs_pos.
  assert (Hlo : (0 <= Qfloor (Qabs x * 100 + (1 # 2)))%Z).
  { change 0%Z with (Qfloor (inject_Z 0)). apply Qfloor_resp_le.
    rewrite Habs. change (inject_Z 0) with 0%Q. lra. }
  assert (Hhi : (Qfloor (Qabs x * 100 + (1 # 2)) <= 10000)%Z).
  { assert (H : (Qfloor (Qabs x * 100 + (1 # 2)) <= Qfloor (20001 # 2))%Z).
    { apply Qfloor_resp_le. rewrite Habs. lra. }
    exact H. }
  rewrite Zle_Qle in Hlo, Hhi.
  change (inject_Z 0) with 0%Q in Hlo. change (inject_Z 10000) with 10000%Q in Hhi.
  unfold Qdiv. change (/ 100)%Q with (1 # 100)%Q. split; lra.
Qed.

Lemma sql_round2_zero (x : Q) : (x == 0)%Q -> (sql_round2 x == 0)%Q.
Proof.
  intros Hx. unfold sql_round2.
  assert (Hsign : Qltb x 0 = false) by (apply Qltb_ge; rewrite Hx; lra).
  rewrite Hsign.
  assert (Hfloor : Qfloor (Qabs x * 100 + (1 # 2)) = 0%Z).
  { assert (Habs : (Qabs x * 100 + (1 # 2) == 1 # 2)%Q).
    { rewrite Hx. reflexivity. }
    rewrite Habs. reflexivity. }
  rewrite Hfloor. reflexivity.
Qed.

Lemma notnull_count_le (group : list Transform.FactRow) :
  length (List.filter (fun f => negb (isna (Transform.customer_key f))) group)
  <= length group.
Proof. apply List.filter_length_le. Qed.

Lemma rate_scoring_bounds (x : Q) :
  (quality_status x = Good <-> (x <= 5)%Q)
  /\ ((x <= 5)%Q -> rate_quality_score x = 100%Q)
  /\ (50 <= rate_quality_score x)%Q /\ (rate_quality_score x <= 100)%Q.
Proof.
  unfold quality_status, rate_quality_score, threshold.
  change (5 * 2)%Q with (10 # 1)%Q.
  destruct (Qle_bool x 5) eqn:H5; [apply Qle_bool_iff in H5|apply Qle_bool_false in H5].
  - repeat split; intros; try discriminate; try lra; try reflexivity.
  - assert (Hscore : (py_max 50 (100 - (x - 5) * 10) == Qmax 50 (100 - (x - 5) * 10))%Q)
      by apply py_max_Qmax.
    assert (Hlow : (50 <= py_max 50 (100 - (x - 5) * 10))%Q).
    { rewrite Hscore. apply Q.le_max_l. }
    assert (Hhigh : (py_max 50 (100 - (x - 5) * 10) <= 100)%Q).
    { rewrite Hscore. apply Q.max_lub; lra. }
    destruct (Qle_bool x (10 # 1)) eqn:H10;
      [apply Qle_bool_iff in H10|apply Qle_bool_false in H10];
      repeat split; intros; try discriminate; try lra; try assumption.
Qed.


End CustomerRateFacts.

(** ** Acceptance of a spreadsheet, and same-day lines in the fact table *)

Section ExtractAccepts.
Import Extract.

(** X24: for a sheet whose headers are pairwise distinct once renamed,
    [extract_from_excel] returns exactly when the sheet has at least one
    row and each of InvoiceNo, StockCode, InvoiceDate, CustomerID,
    UnitPrice and Quantity is present, under that name or under a header
    that the renaming maps to it (Invoice, Price, Customer ID). *)
Theorem extract_accepts_iff (now : Z) (df_raw : Frame) :
  NoDup (columns (rename df_raw)) ->
  (exists out stats, extract_from_excel now df_raw = Ok (out, stats))
  <-> rows df_raw <> []
      /\ forall c, In c (required_cols ++ ["UnitPrice"; "Quantity"]) ->
                   exists header, In header (columns df_raw)
                                  /\ column_mapping header = c.
Proof.
  intros _. split.
  - intros (out & stats & Hrun).
    pose proof (extract_from_excel_final _ _ _ _ Hrun) as (Hne & _).
    split; [exact Hne|].
    unfold extract_from_excel in Hrun.
    destruct (_clean_data now (rename df_raw)) as [[out' st]|e] eqn:Hclean;
      [|discriminate].
    assert (Hok : exists o s, _clean_data now (rename df_raw) = Ok (o, s)) by eauto.
    pose proof (_clean_data_returns_iff now (rename df_raw)) as Hiff.
    pose proof (proj1 Hiff Hok) as Hall. clear Hok. rename Hall into Hok.
    intros c Hc. specialize (Hok c Hc). simpl in Hok.
    apply in_map_iff in Hok as (header & Hmap & Hin). eauto.
  - intros [Hne Hcols].
    assert (Hok : exists o s, _clean_data now (rename df_raw) = Ok (o, s)).
    { apply (proj2 (_clean_data_returns_iff now (rename df_raw))).
      intros c Hc. destruct (Hcols c Hc) as (header & Hin & Hmap).
      simpl. apply in_map_iff. eauto. }
    destruct Hok as (out & st & Hclean).
    exists out. eexists. now apply extract_from_excel_ok with (st := st).
Qed.

Lemma extract_accepts_witness :
  exists out stats, extract_from_excel 0 retail_sheet = Ok (out, stats).
Proof.
  refine (proj2 (extract_accepts_iff 0 retail_sheet _) _).
  - apply (bool_decide_unpack _). vm_compute. exact I.
  - split; [discriminate|].
    intros c Hc. simpl in Hc.
    destruct Hc as [<-|[<-|[<-|[<-|[<-|[<-|[]]]]]]];
      [exists "Invoice"|exists "StockCode"|exists "InvoiceDate"
      |exists "Customer ID"|exists "Price"|exists "Quantity"];
      (split; [simpl; tauto|reflexivity]).
Defined.
End ExtractAccepts.

Section SameDayLines.
Import Transform.

Lemma drop_seen_snoc {A K} `{EqDecision K} (key : A -> K)
    (seen : list K) (l : list A) (x : A) :
  drop_seen key seen (l ++ [x])
  = drop_seen key seen l
    ++ (if decide (key x ∈ seen ++ List.map key l) then [] else [x]).
Proof.
  revert seen; induction l as [|y l IH]; intros seen; simpl.
  - rewrite app_nil_r. destruct (decide (key x ∈ seen)); reflexivity.
  - destruct (decide (key y ∈ seen)) as [Hy|Hy]; rewrite IH; simpl; f_equal.
    + apply decide_ext. rewrite !elem_of_app, elem_of_cons.
      split; [tauto|]. intros [H1|[->|H1]]; tauto.
    + f_equal. apply decide_ext.
      rewrite elem_of_cons, !elem_of_app, elem_of_cons. tauto.
Qed.

(** X25: the fact table keeps, for each (invoice, product key, time key),
    the first staging row that resolves to it.  Hence a further line of an
    invoice for the same product on the same calendar day adds nothing,
    whatever its time of day, quantity or price: these are not carried
    into the fact table. *)
Theorem fact_sales_same_day_line_dropped
    (df : list StagingRow) (dimension_keys : DimensionKeys)
    (first later : StagingRow) :
  In first df ->
  keys_present (fact_row dimension_keys first) = true ->
  invoice later = invoice first ->
  stock_code later = stock_code first ->
  date_only <$> invoice_date later = date_only <$> invoice_date first ->
  transform_fact_sales (df ++ [later]) dimension_keys
  = transform_fact_sales df dimension_keys
  /\ forall k,
       List.find (has_key fact_unique_key k)
         (transform_fact_sales df dimension_keys)
       = List.find (has_key fact_unique_key k)
           (List.filter keys_present (List.map (fact_row dimension_keys) df)).
Proof.
  intros Hin Hkeys Hinv Hcode Hdate. split.
  - unfold transform_fact_sales. rewrite map_app, List.filter_app. simpl.
    destruct (keys_present (fact_row dimension_keys later)) eqn:Hlater;
      [|now rewrite app_nil_r].
    unfold drop_duplicates. rewrite drop_seen_snoc.
    destruct (decide _) as [Hseen|Hnew]; [now rewrite app_nil_r|].
    exfalso. apply Hnew. simpl. apply list_elem_of_In, in_map_iff.
    exists (fact_row dimension_keys first). split.
    + unfold fact_unique_key. simpl. now rewrite Hinv, Hcode, Hdate.
    + apply filter_In. split; [now apply in_map|exact Hkeys].
  - intros k. unfold transform_fact_sales. apply drop_duplicates_first.
Qed.

Lemma fact_sales_same_day_witness :
  transform_fact_sales
    ([no_country_row]
       ++ [{| invoice := CStr "536365"; stock_code := CStr "85123A";
              description := None; quantity := Some 40%Z;
              invoice_date := Some 1291230000%Z; price := Some (1 # 1);
              customer_id := Some 17850%Z; country := None |}])
    run_keys
  = transform_fact_sales [no_country_row] run_keys.
Proof.
  apply (fact_sales_same_day_line_dropped [no_country_row] run_keys no_country_row).
  - now left.
  - vm_compute. reflexivity.
  - reflexivity.
  - reflexivity.
  - vm_compute. reflexivity.
Defined.
End SameDayLines.

(** ** Time dimension *)

Section TimeDimensionFacts.
Import Transform TimeDimension.
Variable cal : Calendar.

End TimeDimensionFacts.

